(** * The AWS CloudWatch metricset of Metricbeat, embedded in Rocq

    Source: [x-pack/metricbeat/module/aws/cloudwatch/cloudwatch.go].

    Go strings are byte strings ([string]); slices on which the source tests
    [== nil] are [slice]s (an optional list), the others are lists; Go maps are
    [gmap]s; a run-time panic (index out of range, write to a nil map) is an
    explicit outcome. *)

From Stdlib Require Import ZArith Ascii String DecimalString DecimalZ Lia.
From stdpp Require Import base option list strings gmap.

Local Open Scope string_scope.
Local Open Scope list_scope.
Local Open Scope stdpp_scope.

#[local] Set Warnings "-clear-no-such-hyp".

(** ** Go strings *)

Module strings.

(** [strings.HasPrefix(s, prefix)]. *)
Definition HasPrefix (s prefix : string) : bool := String.prefix prefix s.

(** The head field of a split being built gets one more byte in front. *)
Definition push (c : ascii) (fields : list string) : list string :=
  match fields with
  | [] => [String c ""]
  | f :: fs => String c f :: fs
  end.

(** [strings.Split(s, sep)] for a non-empty [sep]: the fields between the
    leftmost non-overlapping occurrences of [sep].  [skip] counts the bytes
    of a separator that has just been recognised and is still to be passed. *)
Fixpoint SplitFrom (sep s : string) (skip : nat) : list string :=
  match s with
  | "" => [""]
  | String c s' =>
      match skip with
      | S k => SplitFrom sep s' k
      | O =>
          if String.prefix sep s
          then "" :: SplitFrom sep s' (String.length sep - 1)
          else push c (SplitFrom sep s' 0)
      end
  end.

Definition Split (s sep : string) : list string := SplitFrom sep s 0.

(** The Unicode tables of the Go library, which the program reaches through
    [strings.ToLower] only.  [MapToLower s] is [strings.Map(unicode.ToLower, s)]:
    every letter of [s] in lower case, every byte that is not UTF-8 replaced
    by U+FFFD. *)
Class Unicode : Type := { MapToLower : string → string }.

(** [c < utf8.RuneSelf] for every byte [c] of [s]. *)
Fixpoint isASCII (s : string) : bool :=
  match s with
  | "" => true
  | String c s' => (nat_of_ascii c <? 128)%nat && isASCII s'
  end.

(** A byte 'A'..'Z' becomes 'a'..'z', every other byte is kept. *)
Definition lowerByte (c : ascii) : ascii :=
  let n := nat_of_ascii c in
  if (65 <=? n)%nat && (n <=? 90)%nat then ascii_of_nat (n + 32) else c.

Fixpoint lowerASCII (s : string) : string :=
  match s with
  | "" => ""
  | String c s' => String (lowerByte c) (lowerASCII s')
  end.

(** [strings.ToLower(s)]: a string of ASCII bytes is lower-cased byte by byte
    (and returned as it is when it has no upper-case letter); any other string
    goes through the Unicode tables. *)
Definition ToLower `{U : Unicode} (s : string) : string :=
  if isASCII s then lowerASCII s else MapToLower s.

(** [s] holds the byte [c]. *)
Fixpoint Contains (c : ascii) (s : string) : bool :=
  match s with
  | "" => false
  | String d s' => if decide (d = c) then true else Contains c s'
  end.

End strings.

Module strconv.

(** [strconv.Itoa]: the decimal rendering of an integer. *)
Definition Itoa (i : Z) : string := NilZero.string_of_int (Z.to_int i).

End strconv.

(** ** Slices that may be nil *)

(** A Go slice whose being nil the program observes: [None] is the nil slice,
    [Some []] an empty slice that is not nil. *)
Definition slice (A : Type) : Type := option (list A).

Definition elems {A} (s : slice A) : list A := default [] s.

Definition isNil {A} (s : slice A) : bool :=
  match s with None => true | Some _ => false end.

(** [append(s, x)]: appending to the nil slice allocates. *)
Definition append1 {A} (s : slice A) (x : A) : slice A := Some (elems s ++ [x]).

(** ** Package-level variables *)

Definition metricNameIdx : nat := 0.
Definition namespaceIdx : nat := 1.
Definition statisticIdx : nat := 2.
Definition identifierNameIdx : nat := 3.
Definition identifierValueIdx : nat := 4.
Definition defaultStatistics : list string :=
  ["Average"; "Maximum"; "Minimum"; "Sum"; "SampleCount"].
Definition labelSeparator : string := "|".
Definition dimensionSeparator : string := ",".
Definition dimensionValueWildcard : string := "*".

(** ** Data *)

(** The AWS SDK's [types] package.  Its string fields are pointers in Go; the
    program dereferences them without a check, and they are modelled as the
    strings they point to. *)
Module types.

Record Dimension : Type := mkDimension { Name : string; Value : string }.

Record Metric : Type := mkMetric {
  Namespace : string;
  MetricName : string;
  Dimensions : list Dimension
}.

Record MetricStat : Type := mkMetricStat {
  Period : Z;
  Stat : string;
  StatMetric : Metric
}.

Record MetricDataQuery : Type := mkMetricDataQuery {
  Id : string;
  QueryMetricStat : MetricStat;
  Label : string
}.

Record MetricDataResult (float64 Time : Type) : Type := mkMetricDataResult {
  ResultLabel : string;
  Values : list float64;
  Timestamps : list Time
}.
Arguments mkMetricDataResult {float64 Time} _ _ _.
Arguments ResultLabel {float64 Time} _.
Arguments Values {float64 Time} _.
Arguments Timestamps {float64 Time} _.

End types.

(** Tags as the resource groups tagging API returns them. *)
Module resourcegroupstaggingapitypes.
Record Tag : Type := mkTag { Key : string; Value : string }.
End resourcegroupstaggingapitypes.

#[global] Instance types_Dimension_eq_dec : EqDecision types.Dimension.
Proof. solve_decision. Defined.

(** [Dimension] of the metricset's configuration. *)
Record Dimension : Type := mkDimension { Name : string; Value : string }.

#[global] Instance Dimension_eq_dec : EqDecision Dimension.
Proof. solve_decision. Defined.

(** ** Outcomes of a call

    A Go call returns ([Ret]), returns a non-nil error ([Err]: the values
    returned beside it are never read by a caller here) or panics. *)

Inductive error : Type :=
  | errorString (msg : string)
  | wrapError (msg : string) (cause : error).

Inductive result (A : Type) : Type :=
  | Ret (a : A)
  | Err (e : error)
  | Panic.
Arguments Ret {A} a.
Arguments Err {A} e.
Arguments Panic {A}.

Definition result_bind {A B} (r : result A) (f : A → result B) : result B :=
  match r with
  | Ret a => f a
  | Err e => Err e
  | Panic => Panic
  end.

Declare Scope result_scope.
Delimit Scope result_scope with result.
Notation "x ←! r ; k" := (result_bind r (λ x, k))
  (at level 20, r at level 100, k at level 200, only parsing) : result_scope.

(** [l[i]]: indexing a slice out of range panics. *)
Definition index {A} (l : list A) (i : nat) : result A :=
  match l !! i with
  | Some a => Ret a
  | None => Panic
  end.

(** ** Collaborating packages *)

Module common.

(** Modelled from the spec: [common.DeDot] of libbeat is not among the
    sources; every dot of the name becomes an underscore. *)
Fixpoint DeDot (s : string) : string :=
  match s with
  | "" => ""
  | String c s' =>
      String (if decide (c = "."%char) then "_"%char else c) (DeDot s')
  end.

End common.

Module mapstr.

(** The values this metricset stores in an event. *)
Inductive Value (float64 : Type) : Type :=
  | Float (v : float64)
  | Str (s : string).
Arguments Float {float64} v.
Arguments Str {float64} s.

(** Modelled from the spec: [mapstr.M.Put] of elastic-agent-libs is not among
    the sources.  The map is a store from the full dotted path to the value:
    [Put] replaces the value a path already has (the last write wins), and
    writing to the nil map panics.  Paths of which one extends another by a
    dotted suffix are outside this model. *)
Definition Put {float64} (m : option (gmap string (Value float64)))
    (key : string) (value : Value float64)
  : result (option (gmap string (Value float64))) :=
  match m with
  | None => Panic
  | Some fields => Ret (Some (<[key := value]> fields))
  end.

End mapstr.

Module mb.

(** The fields of [mb.Event] that the metricset reads or writes; [None] is
    the nil map of the zero event. *)
Record Event (float64 Time : Type) : Type := mkEvent {
  RootFields : option (gmap string (mapstr.Value float64));
  Timestamp : option Time
}.
Arguments mkEvent {float64 Time} _ _.
Arguments RootFields {float64 Time} _.
Arguments Timestamp {float64 Time} _.

(** The zero [mb.Event], which a Go map returns for a missing key. *)
Definition zero {float64 Time} : Event float64 Time := mkEvent None None.

End mb.

Module aws.

(** [aws.Tag], a tag filter of the module's configuration. *)
Record Tag : Type := mkTag { Key : string; Value : string }.

(** [aws.Config], as far as the metricset reads it. *)
Record Config : Type := mkConfig { FIPSEnabled : bool }.

(** Modelled from the spec: [aws.StringInSlice] is not among the sources;
    it tells whether the string is in the list, and where. *)
Fixpoint StringInSlice (str : string) (l : list string) : bool * Z :=
  match l with
  | [] => (false, -1)%Z
  | x :: rest =>
      if decide (x = str) then (true, 0%Z)
      else let '(found, i) := StringInSlice str rest in
           (found, if found then (i + 1)%Z else i)
  end.

End aws.

Record Config : Type := mkConfig {
  Namespace : string;
  MetricName : slice string;
  Dimensions : slice Dimension;
  ResourceType : string;
  Statistic : slice string
}.

Record MetricsWithStatistics : Type := mkMetricsWithStatistics {
  CloudwatchMetric : types.Metric;
  MWSStatistic : list string
}.

Record ListMetricWithDetail : Type := mkListMetricWithDetail {
  MetricsWithStats : list MetricsWithStatistics;
  ResourceTypeFilters : gmap string (list aws.Tag)
}.

Record NamespaceDetail : Type := mkNamespaceDetail {
  ResourceTypeFilter : string;
  Names : slice string;
  Tags : list aws.Tag;
  Statistics : list string;
  NDDimensions : slice types.Dimension
}.

(** ** StatisticLookup *)

Definition statisticLookupTable : gmap string string :=
  list_to_map [("Average", "avg"); ("Sum", "sum"); ("Maximum", "max");
               ("Minimum", "min"); ("SampleCount", "count")].

Definition StatisticLookup (stat : string) : string * bool :=
  match statisticLookupTable !! stat with
  | Some statMethod => (statMethod, true)
  | None => (stat, strings.HasPrefix stat "p")
  end.

(** ** ConstructLabel *)

(** The loop of [ConstructLabel] from index [i] on, over the dimensions that
    are left; [n] is [len(metric.Dimensions)]. *)
Fixpoint ConstructLabel_loop (n : Z) (i : Z) (dims : list types.Dimension)
    (dimNames dimValues : string) : string * string :=
  match dims with
  | [] => (dimNames, dimValues)
  | dim :: rest =>
      let dimNames := dimNames +:+ types.Name dim in
      let dimValues := dimValues +:+ types.Value dim in
      if decide (i ≠ n - 1)%Z
      then ConstructLabel_loop n (i + 1) rest
             (dimNames +:+ dimensionSeparator) (dimValues +:+ dimensionSeparator)
      else ConstructLabel_loop n (i + 1) rest dimNames dimValues
  end.

Definition ConstructLabel (metric : types.Metric) (statistic : string) : string :=
  let label := types.MetricName metric +:+ labelSeparator
               +:+ types.Namespace metric +:+ labelSeparator +:+ statistic in
  let '(dimNames, dimValues) :=
    ConstructLabel_loop (Z.of_nat (length (types.Dimensions metric))) 0
      (types.Dimensions metric) "" "" in
  if negb (String.eqb dimNames "") && negb (String.eqb dimValues "")
  then (label +:+ labelSeparator +:+ dimNames) +:+ labelSeparator +:+ dimValues
  else label.

(** ** Field names *)

(** [parts[len(parts)-1]] *)
Definition StripNamespace `{U : strings.Unicode} (namespace : string) : result string :=
  let parts := strings.Split namespace "/" in
  (p ←! index parts (length parts - 1); Ret (strings.ToLower p))%result.

Definition GenerateFieldName `{U : strings.Unicode}
    (namespace : string) (labels : list string) : result string :=
  (stat ←! index labels statisticIdx;
   let '(statMethod, _) := StatisticLookup stat in
   ns ←! StripNamespace namespace;
   name ←! index labels metricNameIdx;
   Ret ("aws." +:+ ns +:+ ".metrics." +:+ common.DeDot name +:+ "." +:+ statMethod))%result.

(** ** Dimensions *)

Fixpoint ConfigDimensionValueContainsWildcard (dim : list Dimension) : bool :=
  match dim with
  | [] => false
  | d :: rest =>
      if decide (Value d = dimensionValueWildcard) then true
      else ConfigDimensionValueContainsWildcard rest
  end.

(** The first loop of [CompareAWSDimensions].  It runs after the length test,
    so [dim1[i]] and [dim2[i]] exist together for every index of [dim2]. *)
Definition nameToValue (dim1 dim2 : list types.Dimension)
  : gmap string string * gmap string string :=
  foldl (λ '(dim1NameToValue, dim2NameToValue) '(d1, d2),
           (<[types.Name d1 := types.Value d1]> dim1NameToValue,
            <[types.Name d2 := types.Value d2]> dim2NameToValue))
        (∅, ∅) (zip dim1 dim2).

(** The second loop, over the entries of [dim1NameToValue] in the order
    [entries]. *)
Definition resolveWildcards (entries : list (string * string))
    (dim2NameToValue : gmap string string) : gmap string string :=
  foldl (λ dim2NameToValue '(name, v1),
           match dim2NameToValue !! name with
           | Some v2 =>
               if decide (v2 = dimensionValueWildcard)
               then <[name := v1]> dim2NameToValue
               else dim2NameToValue
           | None => dim2NameToValue
           end)
        dim2NameToValue entries.

(** [CompareAWSDimensions] when Go ranges over [dim1NameToValue] in the order
    [order] chooses. *)
Definition CompareAWSDimensions_in
    (order : gmap string string → list (string * string))
    (dim1 dim2 : list types.Dimension) : bool :=
  if decide (length dim1 ≠ length dim2) then false
  else
    let '(dim1NameToValue, dim2NameToValue) := nameToValue dim1 dim2 in
    bool_decide (dim1NameToValue
                 = resolveWildcards (order dim1NameToValue) dim2NameToValue).

Definition CompareAWSDimensions : list types.Dimension → list types.Dimension → bool :=
  CompareAWSDimensions_in map_to_list.

(** ** The metricset and its configuration *)

Module awssdk.
(** [awssdk.Config], as far as the metricset sets it. *)
Record Config : Type := mkConfig { Region : string }.
End awssdk.

Record MetricSet : Type := mkMetricSet {
  Period : Z;
  Latency : Z;
  RegionsList : list string;
  AccountID : string;
  AccountName : string;
  TagsFilter : list aws.Tag;
  AwsConfig : awssdk.Config;
  (** what [m.Module().UnpackConfig] yields *)
  ModuleConfig : result aws.Config;
  CloudwatchConfigs : list Config
}.

Definition checkStatistics (m : MetricSet) : result unit :=
  foldl (λ acc config,
           foldl (λ acc stat,
                    match acc with
                    | Ret _ =>
                        if snd (StatisticLookup stat) then Ret tt
                        else Err (errorString
                               ("statistic method specified is not valid: " +:+ stat))
                    | _ => acc
                    end)
                 acc (elems (Statistic config)))
        (Ret tt) (CloudwatchConfigs m).

(** The dimensions of a configuration entry as SDK dimensions: nil when the
    entry has none to append. *)
Definition cloudwatchDimensions (dims : slice Dimension) : slice types.Dimension :=
  foldl (λ acc dim, append1 acc (types.mkDimension (Name dim) (Value dim)))
        None (elems dims).

(** The state of the loop of [readCloudwatchConfig]. *)
Record readState : Type := mkReadState {
  metricsWithStatsTotal : list MetricsWithStatistics;
  resourceTypesWithTags : gmap string (list aws.Tag);
  namespaceDetailTotal : gmap string (list NamespaceDetail)
}.

(** One iteration of the loop of [readCloudwatchConfig]. *)
Definition readCloudwatchConfig_step (tagsFilter : list aws.Tag)
    (st : readState) (config : Config) : readState :=
  let statistic :=
    if isNil (Statistic config) then Some defaultStatistics else Statistic config in
  let cwDimensions := cloudwatchDimensions (Dimensions config) in
  if negb (isNil (MetricName config)) && negb (isNil (Dimensions config))
     && negb (ConfigDimensionValueContainsWildcard (elems (Dimensions config)))
  then
    let namespace := Namespace config in
    let new :=
      (λ name, mkMetricsWithStatistics
                 (types.mkMetric namespace name (elems cwDimensions))
                 (elems statistic)) <$> elems (MetricName config) in
    mkReadState
      (metricsWithStatsTotal st ++ new)
      (if decide (ResourceType config ≠ "")
       then <[ResourceType config := tagsFilter]> (resourceTypesWithTags st)
       else resourceTypesWithTags st)
      (namespaceDetailTotal st)
  else
    let configPerNamespace :=
      mkNamespaceDetail (ResourceType config) (MetricName config) tagsFilter
        (elems statistic) cwDimensions in
    mkReadState
      (metricsWithStatsTotal st)
      (resourceTypesWithTags st)
      (<[Namespace config :=
           default [] (namespaceDetailTotal st !! Namespace config)
           ++ [configPerNamespace]]> (namespaceDetailTotal st)).

Definition readCloudwatchConfig (m : MetricSet)
  : ListMetricWithDetail * gmap string (list NamespaceDetail) :=
  let st := foldl (readCloudwatchConfig_step (TagsFilter m))
                  (mkReadState [] ∅ ∅) (CloudwatchConfigs m) in
  (mkListMetricWithDetail (metricsWithStatsTotal st) (resourceTypesWithTags st),
   namespaceDetailTotal st).

(** ** Query identifiers *)

(** The identifier of the query of statistic [j] of metric [i]. *)
Definition queryId (i j : nat) : string :=
  "cw" +:+ strconv.Itoa (Z.of_nat i) +:+ "stats" +:+ strconv.Itoa (Z.of_nat j).

(** ** Discovery *)

Definition keep (listMetric : types.Metric) (configPerNamespace : NamespaceDetail)
  : list MetricsWithStatistics :=
  [mkMetricsWithStatistics listMetric (Statistics configPerNamespace)].

(** The body of the inner loop of [FilterListMetricsOutput]: what one
    configuration adds for one listed metric. *)
Definition FilterListMetricsOutput_body (listMetric : types.Metric)
    (configPerNamespace : NamespaceDetail) : list MetricsWithStatistics :=
  match Names configPerNamespace, NDDimensions configPerNamespace with
  | Some names, None =>
      if fst (aws.StringInSlice (types.MetricName listMetric) names)
      then keep listMetric configPerNamespace else []
  | None, Some dims =>
      if CompareAWSDimensions (types.Dimensions listMetric) dims
      then keep listMetric configPerNamespace else []
  | Some names, Some dims =>
      if fst (aws.StringInSlice (types.MetricName listMetric) names)
      then if CompareAWSDimensions (types.Dimensions listMetric) dims
           then keep listMetric configPerNamespace else []
      else []
  | None, None => keep listMetric configPerNamespace
  end.

Definition FilterListMetricsOutput (listMetricsOutput : list types.Metric)
    (namespaceDetails : list NamespaceDetail) : list MetricsWithStatistics :=
  listMetric ← listMetricsOutput;
  configPerNamespace ← namespaceDetails;
  FilterListMetricsOutput_body listMetric configPerNamespace.

Definition ConstructTagsFilters (namespaceDetails : list NamespaceDetail)
  : gmap string (list aws.Tag) :=
  foldl (λ resourceTypeTagFilters configPerNamespace,
           if decide (ResourceTypeFilter configPerNamespace ≠ "")
           then
             match resourceTypeTagFilters !! ResourceTypeFilter configPerNamespace with
             | Some filters =>
                 <[ResourceTypeFilter configPerNamespace :=
                     filters ++ Tags configPerNamespace]> resourceTypeTagFilters
             | None =>
                 <[ResourceTypeFilter configPerNamespace :=
                     Tags configPerNamespace]> resourceTypeTagFilters
             end
           else resourceTypeTagFilters)
        ∅ namespaceDetails.

(** ** The outside world

    The AWS calls and the helpers of the [aws] package that are not among the
    sources, the clock, the Unicode tables of the Go library, and the order in
    which Go ranges over a map. *)

(** A service client: the region's configuration and the FIPS option. *)
Record Client : Type := mkClient {
  ClientConfig : awssdk.Config;
  UseFIPSEndpoint : bool
}.

Class Collaborators : Type := {
  float64 : Type;
  Time : Type;
  (** the Unicode tables behind [strings.ToLower] *)
  unicode :: strings.Unicode;
  (** [time.Time.IsZero] *)
  IsZero : Time → bool;
  (** [int32(period.Seconds())], a conversion through floating point *)
  periodInSec : Z → Z;
  (** [aws.GetStartTimeEndTime(now, period, latency)] *)
  GetStartTimeEndTime : Time → Z → Z → Time * Time;
  (** [aws.GetListMetricsOutput(namespace, regionName, svcCloudwatch)] *)
  GetListMetricsOutput : string → string → Client → result (list types.Metric);
  (** [aws.GetMetricDataResults(queries, svcCloudwatch, startTime, endTime)] *)
  GetMetricDataResults :
    list types.MetricDataQuery → Client → Time → Time →
    result (list (types.MetricDataResult float64 Time));
  (** [aws.FindTimestamp] *)
  FindTimestamp : list (types.MetricDataResult float64 Time) → Time;
  (** [aws.CheckTimestampInArray] *)
  CheckTimestampInArray : Time → list Time → bool * Z;
  (** [aws.GetResourcesTags(svcResourceAPI, resourceTypes)]: the map, which the
      caller uses whether or not the error is nil *)
  GetResourcesTags :
    Client → list string →
    gmap string (slice resourcegroupstaggingapitypes.Tag) * option error;
  (** [aws.CheckTagFiltersExist] *)
  CheckTagFiltersExist :
    list aws.Tag → slice resourcegroupstaggingapitypes.Tag → bool;
  (** [aws.InitEvent(regionName, accountName, accountID, timestamp)] *)
  InitEvent : string → string → string → Time → mb.Event float64 Time;
  (** [aws.FindShortIdentifierFromARN] *)
  FindShortIdentifierFromARN : string → string * option error;
  (** [addMetadata(namespace, regionName, beatsConfig, fips, events)]: the
      events, which the caller reports whether or not the error is nil *)
  addMetadata :
    string → string → awssdk.Config → bool → gmap string (mb.Event float64 Time) →
    gmap string (mb.Event float64 Time) * option error;
  (** the order of a [range] over a map *)
  rangeMap : ∀ A : Type, gmap string A → list (string * A);
  rangeMap_perm : ∀ (A : Type) (m : gmap string A), rangeMap A m ≡ₚ map_to_list m
}.
Arguments rangeMap {_ A} m.

(** ** What an invocation does to the outside: events reported, lines logged
    (the debug lines are left out) *)

Inductive Level : Type := Info | Warn.

Inductive Output (Event : Type) : Type :=
  | Reported (event : Event)
  | Logged (level : Level) (e : error).
Arguments Reported {Event} event.
Arguments Logged {Event} level e.

(** A computation that writes a trace of outputs and ends as a [result]. *)
Definition M (Event A : Type) : Type := list (Output Event) * result A.

Definition M_ret {Event A} (a : A) : M Event A := ([], Ret a).

Definition M_bind {Event A B} (c : M Event A) (f : A → M Event B) : M Event B :=
  match c with
  | (t, Ret a) => let '(t', r) := f a in (t ++ t', r)
  | (t, Err e) => (t, Err e)
  | (t, Panic) => (t, Panic)
  end.

Definition M_lift {Event A} (r : result A) : M Event A := ([], r).

Definition M_log {Event} (level : Level) (e : error) : M Event unit :=
  ([Logged level e], Ret tt).

Definition M_report {Event} (event : Event) : M Event unit :=
  ([Reported event], Ret tt).

Declare Scope M_scope.
Delimit Scope M_scope with M.
Notation "x ←$ c ; k" := (M_bind c (λ x, k))
  (at level 20, c at level 100, k at level 200, only parsing) : M_scope.
Notation "' p ←$ c ; k" := (M_bind c (λ p, k))
  (at level 20, p pattern, c at level 100, k at level 200, only parsing) : M_scope.
Notation "c ;$ k" := (M_bind c (λ _, k))
  (at level 100, k at level 200, right associativity, only parsing) : M_scope.

(** A loop with a body in [M]: a failing iteration ends the loop. *)
Fixpoint M_for {Event A S} (l : list A) (body : S → A → M Event S) (s : S)
  : M Event S :=
  match l with
  | [] => M_ret s
  | a :: rest => M_bind (body s a) (M_for rest body)
  end.

(** The same for a body that only returns or panics. *)
Fixpoint result_for {A S} (l : list A) (body : S → A → result S) (s : S)
  : result S :=
  match l with
  | [] => Ret s
  | a :: rest => result_bind (body s a) (result_for rest body)
  end.

(** [l[i]] for an [int] index. *)
Definition indexZ {A} (l : list A) (i : Z) : result A :=
  if decide (i < 0)%Z then Panic else index l (Z.to_nat i).

Section Cloudwatch.
Context `{W : Collaborators}.

Local Abbreviation Event := (mb.Event float64 Time).
Local Abbreviation Events := (gmap string (mb.Event float64 Time)).
Local Abbreviation MetricDataResult := (types.MetricDataResult float64 Time).
Local Abbreviation ResourceTags := (gmap string (slice resourcegroupstaggingapitypes.Tag)).

Definition CreateMetricDataQueries (listMetricsTotal : list MetricsWithStatistics)
    (period : Z) : list types.MetricDataQuery :=
  mjoin (imap (λ i listMetric,
           imap (λ j statistic,
                   let label := ConstructLabel (CloudwatchMetric listMetric) statistic in
                   types.mkMetricDataQuery (queryId i j)
                     (types.mkMetricStat (periodInSec period) statistic
                        (CloudwatchMetric listMetric))
                     label)
                (MWSStatistic listMetric))
         listMetricsTotal).

(** [event.RootFields.Put(key, value)] on an event value: the map is shared
    with the event the value was copied from. *)
Definition put (event : Event) (key : string) (value : mapstr.Value float64)
  : result Event :=
  (fields ←! mapstr.Put (mb.RootFields event) key value;
   Ret (mb.mkEvent fields (mb.Timestamp event)))%result.

(** The loop of [InsertRootFields] from index [i] on; [names] are the
    dimension names from [i] on. *)
Fixpoint InsertRootFields_loop (i : nat) (names : list string)
    (dimValues : list string) (event : Event) : result Event :=
  match names with
  | [] => Ret event
  | name :: rest =>
      (value ←! index dimValues i;
       event ←! put event ("aws.dimensions." +:+ name) (mapstr.Str value);
       InsertRootFields_loop (S i) rest dimValues event)%result
  end.

Definition InsertRootFields (event : Event) (metricValue : float64)
    (labels : list string) : result Event :=
  (namespace ←! index labels namespaceIdx;
   fieldName ←! GenerateFieldName namespace labels;
   event ←! put event fieldName (mapstr.Float metricValue);
   event ←! put event "aws.cloudwatch.namespace" (mapstr.Str namespace);
   if decide (length labels = 3) then Ret event
   else
     names ←! index labels identifierNameIdx;
     values ←! index labels identifierValueIdx;
     let dimNames := strings.Split names "," in
     let dimValues := strings.Split values "," in
     InsertRootFields_loop 0 dimNames dimValues event)%result.

(** [resourceTagMap[v]] *)
Definition tagsOf (resourceTagMap : ResourceTags) (v : string)
  : slice resourcegroupstaggingapitypes.Tag :=
  default None (resourceTagMap !! v).

(** [events[identifier].RootFields.Put(key, value)]: the zero event of a
    missing identifier has a nil map. *)
Definition putAt (events : Events) (identifier key : string)
    (value : mapstr.Value float64) : result Events :=
  match events !! identifier with
  | None => Panic
  | Some event =>
      (event ←! put event key value; Ret (<[identifier := event]> events))%result
  end.

(** The tags [InsertTags] uses for the sub-identifier [v]. *)
Definition InsertTags_tags (resourceTagMap : ResourceTags) (v : string)
  : slice resourcegroupstaggingapitypes.Tag :=
  let tags := tagsOf resourceTagMap v in
  if decide (length (elems tags) = 0) then
    if strings.HasPrefix v "arn:" then
      let '(resourceID, err) := FindShortIdentifierFromARN v in
      match err with
      | None => tagsOf resourceTagMap resourceID
      | Some _ => tags
      end
    else tags
  else tags.

Definition InsertTags (events : Events) (identifier : string)
    (resourceTagMap : ResourceTags) : result Events :=
  let subIdentifiers := strings.Split identifier dimensionSeparator in
  result_for subIdentifiers
    (λ events v,
       let tags := InsertTags_tags resourceTagMap v in
       if decide (length (elems tags) ≠ 0) then
         result_for (elems tags)
           (λ events tag,
              putAt events identifier
                ("aws.tags." +:+ common.DeDot (resourcegroupstaggingapitypes.Key tag))
                (mapstr.Str (resourcegroupstaggingapitypes.Value tag)))
           events
       else Ret events)
    events.
End Cloudwatch.

(** ** createEvents and Fetch *)

Section Fetch.
Context `{W : Collaborators}.

Local Abbreviation Event := (mb.Event float64 Time).
Local Abbreviation Events := (gmap string (mb.Event float64 Time)).
Local Abbreviation MetricDataResult := (types.MetricDataResult float64 Time).
Local Abbreviation ResourceTags := (gmap string (slice resourcegroupstaggingapitypes.Tag)).

(** [fmt.Errorf(msg + ": %w", err)] around a failing computation. *)
Definition M_wrap {A} (msg : string) (c : M Event A) : M Event A :=
  match c with
  | (t, Err e) => (t, Err (wrapError msg e))
  | _ => c
  end.

Definition createAwsRequiredClients (beatsConfig : awssdk.Config)
    (regionName : string) (config : aws.Config)
  : Client * Client * option error :=
  (mkClient beatsConfig (aws.FIPSEnabled config),
   mkClient beatsConfig (aws.FIPSEnabled config), None).

(** [if _, ok := events[identifier]; !ok { events[identifier] = aws.InitEvent(...) }] *)
Definition initEvent (m : MetricSet) (regionName : string) (timestamp : Time)
    (events : Events) (identifier : string) : Events :=
  match events !! identifier with
  | Some _ => events
  | None =>
      <[identifier := InitEvent regionName (AccountName m) (AccountID m) timestamp]>
        events
  end.

(** [events[identifier] = InsertRootFields(events[identifier], values[idx], labels)] *)
Definition insertRootFieldsAt (events : Events) (identifier : string)
    (values : list float64) (timestampIdx : Z) (labels : list string)
  : result Events :=
  (value ←! indexZ values timestampIdx;
   event ←! InsertRootFields (default mb.zero (events !! identifier)) value labels;
   Ret (<[identifier := event]> events))%result.

(** The identity of an event whose label names no dimension. *)
Definition fallbackIdentifier (m : MetricSet) (regionName : string)
    (labels : list string) : result string :=
  (namespace ←! index labels namespaceIdx;
   Ret (regionName +:+ AccountID m +:+ namespace))%result.

(** The body of the loop over the results when no resource type is
    filtered. *)
Definition createEvents_plain (m : MetricSet) (regionName : string)
    (timestamp : Time) (events : Events) (metricDataResult : MetricDataResult)
  : result Events :=
  if decide (length (types.Values metricDataResult) = 0) then Ret events
  else
    let '(exists_, timestampIdx) :=
      CheckTimestampInArray timestamp (types.Timestamps metricDataResult) in
    if exists_ then
      let labels := strings.Split (types.ResultLabel metricDataResult) labelSeparator in
      if decide (length labels ≠ 5) then
        (identifier ←! fallbackIdentifier m regionName labels;
         let events := initEvent m regionName timestamp events identifier in
         insertRootFieldsAt events identifier (types.Values metricDataResult)
           timestampIdx labels)%result
      else
        (identifierValue ←! index labels identifierValueIdx;
         let events := initEvent m regionName timestamp events identifierValue in
         insertRootFieldsAt events identifierValue (types.Values metricDataResult)
           timestampIdx labels)%result
    else Ret events.

(** The body of the loop over the results in the pass of one resource type,
    with its tag filter and the tags of its resources. *)
Definition createEvents_tagged (m : MetricSet) (regionName : string)
    (timestamp : Time) (tagsFilter : list aws.Tag) (resourceTagMap : ResourceTags)
    (events : Events) (output : MetricDataResult) : result Events :=
  if decide (length (types.Values output) = 0) then Ret events
  else
    let '(exists_, timestampIdx) :=
      CheckTimestampInArray timestamp (types.Timestamps output) in
    if exists_ then
      let labels := strings.Split (types.ResultLabel output) labelSeparator in
      if decide (length labels ≠ 5) then
        if decide (length tagsFilter ≠ 0) then Ret events
        else
          (identifier ←! fallbackIdentifier m regionName labels;
           let events := initEvent m regionName timestamp events identifier in
           insertRootFieldsAt events identifier (types.Values output)
             timestampIdx labels)%result
      else
        (identifierValue ←! index labels identifierValueIdx;
         if bool_decide (events !! identifierValue = None)
            && bool_decide (length tagsFilter ≠ 0)
            && isNil (tagsOf resourceTagMap identifierValue)
         then Ret events
         else
           let events := initEvent m regionName timestamp events identifierValue in
           events ←! insertRootFieldsAt events identifierValue (types.Values output)
                       timestampIdx labels;
           InsertTags events identifierValue resourceTagMap)%result
    else Ret events.

(** The loop that deletes from [resourceTagMap] the resources whose tags do
    not match the filter. *)
Definition filterResourceTags (tagsFilter : list aws.Tag)
    (resourceTagMap : ResourceTags) : ResourceTags :=
  foldl (λ remaining '(identifier, tags),
           if CheckTagFiltersExist tagsFilter tags then remaining
           else delete identifier remaining)
        resourceTagMap (rangeMap resourceTagMap).

(** The body of the loop over the resource types. *)
Definition createEvents_pass (m : MetricSet) (svcResourceAPI : Client)
    (regionName : string) (timestamp : Time)
    (metricDataResults : list MetricDataResult)
    (events : Events) (filter : string * list aws.Tag) : M Event Events :=
  let '(resourceType, tagsFilter) := filter in
  let '(resourceTagMap, err) := GetResourcesTags svcResourceAPI [resourceType] in
  (match err with
   | Some e =>
       M_log Info
         (wrapError ("getResourcesTags failed, skipping region " +:+ regionName) e)
   | None => M_ret tt
   end;$
   if bool_decide (length tagsFilter ≠ 0) && bool_decide (size resourceTagMap = 0)
   then M_ret events
   else
     let resourceTagMap := filterResourceTags tagsFilter resourceTagMap in
     M_lift (result_for metricDataResults
               (createEvents_tagged m regionName timestamp tagsFilter resourceTagMap)
               events))%M.

(** [createEvents]; the nil map it returns when no timestamp is found is the
    empty map to its caller. *)
Definition createEvents (m : MetricSet) (svcCloudwatch svcResourceAPI : Client)
    (listMetricWithStatsTotal : list MetricsWithStatistics)
    (resourceTypeTagFilters : gmap string (list aws.Tag))
    (regionName : string) (startTime endTime : Time) : M Event Events :=
  let events : Events := ∅ in
  let metricDataQueries :=
    CreateMetricDataQueries listMetricWithStatsTotal (Period m) in
  if decide (length metricDataQueries = 0) then M_ret events
  else
    (metricDataResults ←$
       M_wrap "getMetricDataResults failed"
         (M_lift (GetMetricDataResults metricDataQueries svcCloudwatch startTime endTime));
     let timestamp := FindTimestamp metricDataResults in
     if IsZero timestamp then M_ret ∅
     else if decide (size resourceTypeTagFilters = 0) then
       M_lift (result_for metricDataResults
                 (createEvents_plain m regionName timestamp) events)
     else
       M_for (rangeMap resourceTypeTagFilters)
         (createEvents_pass m svcResourceAPI regionName timestamp metricDataResults)
         events)%M.

(** [for _, event := range events { report.Event(event) }] *)
Definition reportAll (events : Events) : M Event unit :=
  M_for (rangeMap events) (λ _ '(_, event), M_report event) tt.

(** The clients of a region, as both loops of [Fetch] make them;
    [beatsConfig] is the copy of [m.AwsConfig] with the region set, and the
    region is all that is modelled of it. *)
Definition clientsOf (m : MetricSet) (config : aws.Config) (regionName : string)
  : M Event (awssdk.Config * Client * Client) :=
  let beatsConfig := awssdk.mkConfig regionName in
  let '(svcCloudwatch, svcResourceAPI, err) :=
    createAwsRequiredClients beatsConfig regionName config in
  (match err with
   | Some _ => M_log Warn (errorString ("skipping metrics list from region " +:+ regionName))
   | None => M_ret tt
   end;$
   M_ret (beatsConfig, svcCloudwatch, svcResourceAPI))%M.

(** The body of the loop over the regions for the metrics that the
    configuration names exactly. *)
Definition Fetch_exact (m : MetricSet) (config : aws.Config)
    (listMetricDetailTotal : ListMetricWithDetail) (startTime endTime : Time)
    (regionName : string) : M Event unit :=
  ('(beatsConfig, svcCloudwatch, svcResourceAPI) ←$ clientsOf m config regionName;
   eventsWithIdentifier ←$
     M_wrap ("createEvents failed for region " +:+ regionName)
       (createEvents m svcCloudwatch svcResourceAPI
          (MetricsWithStats listMetricDetailTotal)
          (ResourceTypeFilters listMetricDetailTotal)
          regionName startTime endTime);
   reportAll eventsWithIdentifier)%M.

(** The body of the loop over the namespaces of a region. *)
Definition Fetch_namespace (m : MetricSet) (config : aws.Config)
    (startTime endTime : Time) (regionName : string)
    (beatsConfig : awssdk.Config) (svcCloudwatch svcResourceAPI : Client)
    (entry : string * list NamespaceDetail) : M Event unit :=
  let '(namespace, namespaceDetails) := entry in
  match GetListMetricsOutput namespace regionName svcCloudwatch with
  | Err e => M_log Info e
  | Panic => M_lift Panic
  | Ret listMetricsOutput =>
      if decide (length listMetricsOutput = 0) then M_ret tt
      else
        let filteredMetricWithStatsTotal :=
          FilterListMetricsOutput listMetricsOutput namespaceDetails in
        let resourceTypeTagFilters := ConstructTagsFilters namespaceDetails in
        (eventsWithIdentifier ←$
           M_wrap ("createEvents failed for region " +:+ regionName)
             (createEvents m svcCloudwatch svcResourceAPI
                filteredMetricWithStatsTotal resourceTypeTagFilters
                regionName startTime endTime);
         let '(events, err) :=
           addMetadata namespace regionName beatsConfig (aws.FIPSEnabled config)
             eventsWithIdentifier in
         match err with
         | Some e => M_log Warn (wrapError "could not add metadata to events" e)
         | None => M_ret tt
         end;$
         reportAll events)%M
  end.

(** The body of the loop over the regions for the namespaces to discover. *)
Definition Fetch_discover (m : MetricSet) (config : aws.Config)
    (namespaceDetailTotal : gmap string (list NamespaceDetail))
    (startTime endTime : Time) (regionName : string) : M Event unit :=
  ('(beatsConfig, svcCloudwatch, svcResourceAPI) ←$ clientsOf m config regionName;
   M_for (rangeMap namespaceDetailTotal)
     (λ _ entry,
        Fetch_namespace m config startTime endTime regionName
          beatsConfig svcCloudwatch svcResourceAPI entry)
     tt)%M.

(** The first loop of [Fetch], run over [regions]. *)
Definition Fetch_exactLoop (m : MetricSet) (config : aws.Config)
    (listMetricDetailTotal : ListMetricWithDetail) (startTime endTime : Time)
    (regions : list string) : M Event unit :=
  if decide (length (MetricsWithStats listMetricDetailTotal) ≠ 0) then
    M_for regions
      (λ _ regionName,
         Fetch_exact m config listMetricDetailTotal startTime endTime regionName)
      tt
  else M_ret tt.

(** The second loop of [Fetch], run over [regions]. *)
Definition Fetch_discoverLoop (m : MetricSet) (config : aws.Config)
    (namespaceDetailTotal : gmap string (list NamespaceDetail))
    (startTime endTime : Time) (regions : list string) : M Event unit :=
  M_for regions
    (λ _ regionName,
       Fetch_discover m config namespaceDetailTotal startTime endTime regionName)
    tt.

(** [Fetch] at the time [now]. *)
Definition Fetch (m : MetricSet) (now : Time) : M Event unit :=
  let '(startTime, endTime) := GetStartTimeEndTime now (Period m) (Latency m) in
  (M_wrap "checkStatistics failed" (M_lift (checkStatistics m));$
   let '(listMetricDetailTotal, namespaceDetailTotal) := readCloudwatchConfig m in
   config ←$ M_lift (ModuleConfig m);
   Fetch_exactLoop m config listMetricDetailTotal startTime endTime (RegionsList m);$
   Fetch_discoverLoop m config namespaceDetailTotal startTime endTime (RegionsList m))%M.
End Fetch.

(** ** Vocabulary of the statements *)

(** The fields of [s] between the occurrences of the byte [c]. *)
Fixpoint fields (c : ascii) (s : string) : list string :=
  match s with
  | "" => [""]
  | String d s' =>
      if decide (d = c) then "" :: fields c s' else strings.push d (fields c s')
  end.

(** The strings of [l] with [sep] between them. *)
Fixpoint join (sep : string) (l : list string) : string :=
  match l with
  | [] => ""
  | x :: rest =>
      match rest with
      | [] => x
      | _ :: _ => x +:+ sep +:+ join sep rest
      end
  end.

Definition pipe : ascii := "|"%char.
Definition comma : ascii := ","%char.

(** No pipe in the name, the namespace, the dimension names and values of a
    metric. *)
Definition pipeFree (metric : types.Metric) : Prop :=
  strings.Contains pipe (types.MetricName metric) = false
  ∧ strings.Contains pipe (types.Namespace metric) = false
  ∧ Forall (λ d, strings.Contains pipe (types.Name d) = false
                 ∧ strings.Contains pipe (types.Value d) = false)
           (types.Dimensions metric).

Definition dimNamesOf (metric : types.Metric) : list string :=
  types.Name <$> types.Dimensions metric.

Definition dimValuesOf (metric : types.Metric) : list string :=
  types.Value <$> types.Dimensions metric.

(** The last segment of a namespace, in lower case. *)
Definition lastSegment `{U : strings.Unicode} (namespace : string) : string :=
  strings.ToLower (default "" (last (fields "/"%char namespace))).

(** The name [GenerateFieldName] gives the value of a label. *)
Definition fieldNameOf `{U : strings.Unicode} (name namespace stat : string) : string :=
  "aws." +:+ lastSegment namespace +:+ ".metrics." +:+ common.DeDot name
  +:+ "." +:+ fst (StatisticLookup stat).

(** One [aws.dimensions.<name>] field for each name, with the value at the
    same position. *)
Definition dimensionFields {float64} (dimNames dimValues : list string)
    (fields : gmap string (mapstr.Value float64)) : gmap string (mapstr.Value float64) :=
  foldl (λ fields '(name, value),
           <["aws.dimensions." +:+ name := mapstr.Str value]> fields)
        fields (zip dimNames dimValues).

(** ** A world to run the metricset in

    Three regions: everything answers in eu-west-1, GetMetricData fails in
    us-east-1, and ListMetrics and GetResourcesTags fail in ap-south-1.  Every
    query has one data point, of value 42, at the end of the window. *)
Module World.

Definition regionOf (c : Client) : string := awssdk.Region (ClientConfig c).

Definition listMetrics (namespace regionName : string) (c : Client)
  : result (list types.Metric) :=
  if decide (regionName = "ap-south-1") then Err (errorString "ListMetrics: timeout")
  else Ret [types.mkMetric namespace "CPUUtilization"
              [types.mkDimension "InstanceId" "i-1"]].

Definition metricData (queries : list types.MetricDataQuery) (c : Client)
    (startTime endTime : Z) : result (list (types.MetricDataResult Z Z)) :=
  if decide (regionOf c = "us-east-1") then Err (errorString "GetMetricData: throttled")
  else Ret ((λ q, types.mkMetricDataResult (types.Label q) [42%Z] [endTime]) <$> queries).

Definition latestTimestamp (results : list (types.MetricDataResult Z Z)) : Z :=
  default 0%Z (head (results ≫= types.Timestamps)).

Fixpoint positionOf (t : Z) (l : list Z) : bool * Z :=
  match l with
  | [] => (false, -1)%Z
  | x :: rest =>
      if decide (x = t) then (true, 0%Z)
      else let '(found, i) := positionOf t rest in
           (found, if found then (i + 1)%Z else i)
  end.

Definition resourceTags (c : Client) (resourceTypes : list string)
  : gmap string (slice resourcegroupstaggingapitypes.Tag) * option error :=
  if decide (regionOf c = "ap-south-1")
  then (∅, Some (errorString "GetResources: access denied"))
  else ({["i-1" := Some [resourcegroupstaggingapitypes.mkTag "env" "prod"]]}, None).

Definition tagsMatch (tagsFilter : list aws.Tag)
    (tags : slice resourcegroupstaggingapitypes.Tag) : bool :=
  forallb (λ f, existsb (λ t,
             String.eqb (resourcegroupstaggingapitypes.Key t) (aws.Key f)
             && String.eqb (resourcegroupstaggingapitypes.Value t) (aws.Value f))
             (elems tags))
          tagsFilter.

Definition newEvent (regionName accountName accountID : string) (timestamp : Z)
  : mb.Event Z Z :=
  mb.mkEvent
    (Some (<["cloud.region" := mapstr.Str regionName]>
             (<["cloud.account.id" := mapstr.Str accountID]>
                {["cloud.provider" := mapstr.Str "aws"]})))
    (Some timestamp).

Definition shortIdentifier (arn : string) : string * option error :=
  match last (fields "/"%char arn) with
  | Some short => (short, None)
  | None => ("", Some (errorString "not an ARN"))
  end.

(** Outside ASCII this world has no letter with a lower case. *)
Definition unicodeTables : strings.Unicode := {| strings.MapToLower := λ s, s |}.

#[export] Instance world : Collaborators := {|
  float64 := Z;
  Time := Z;
  unicode := unicodeTables;
  IsZero := λ t, bool_decide (t = 0%Z);
  periodInSec := λ period, (period `quot` 1000000000)%Z;
  GetStartTimeEndTime := λ now period latency,
    ((now - latency - period)%Z, (now - latency)%Z);
  GetListMetricsOutput := listMetrics;
  GetMetricDataResults := metricData;
  FindTimestamp := latestTimestamp;
  CheckTimestampInArray := positionOf;
  GetResourcesTags := resourceTags;
  CheckTagFiltersExist := tagsMatch;
  InitEvent := newEvent;
  FindShortIdentifierFromARN := shortIdentifier;
  addMetadata := λ _ _ _ _ events, (events, None);
  rangeMap := λ A m, map_to_list m;
  rangeMap_perm := λ A m, reflexivity (map_to_list m)
|}.

(** An event with an empty, non-nil map of fields. *)
Definition emptyEvent : mb.Event Z Z := mb.mkEvent (Some ∅) None.

End World.

(** The decimal digits. *)
Definition isDigit (c : ascii) : bool :=
  (48 <=? nat_of_ascii c)%nat && (nat_of_ascii c <=? 57)%nat.

Fixpoint allDigits (s : string) : bool :=
  match s with
  | "" => true
  | String c s' => isDigit c && allDigits s'
  end.

(** The pairs (metric index, statistic index) of a list of metrics with
    statistics, from the metric index [i] on, in the order of the two loops. *)
Fixpoint indexPairs (i : nat) (l : list MetricsWithStatistics) : list (nat * nat) :=
  match l with
  | [] => []
  | listMetric :: rest =>
      ((λ j, (i, j)) <$> seq 0 (length (MWSStatistic listMetric)))
      ++ indexPairs (S i) rest
  end.

(** The mapping from name to value of a list of dimensions; of two dimensions
    of one name the later one counts. *)
Definition nameValueMap (dims : list types.Dimension) : gmap string string :=
  foldl (λ m d, <[types.Name d := types.Value d]> m) ∅ dims.

(** The mapping [spec] after every wildcard value is replaced by the value that
    [discovered] has for the same name, if it has one. *)
Definition substituteWildcards (discovered spec : gmap string string)
  : gmap string string :=
  map_imap (λ name v2,
              Some (if decide (v2 = dimensionValueWildcard)
                    then default v2 (discovered !! name) else v2))
           spec.

(** The dimension comparison in the words of the spec. *)
Definition dimensionsMatch (dim1 dim2 : list types.Dimension) : Prop :=
  length dim1 = length dim2
  ∧ nameValueMap dim1 = substituteWildcards (nameValueMap dim1) (nameValueMap dim2).

Definition wildcardFree (dims : list types.Dimension) : Prop :=
  Forall (λ d, types.Value d ≠ dimensionValueWildcard) dims.

(** An entry is given metric names and dimensions (neither slice is nil), and
    no dimension value is the wildcard. *)
Definition exactMode (config : Config) : Prop :=
  MetricName config ≠ None ∧ Dimensions config ≠ None
  ∧ Forall (λ d, Value d ≠ dimensionValueWildcard) (elems (Dimensions config)).

#[global] Instance exactMode_dec config : Decision (exactMode config).
Proof. unfold exactMode. apply _. Defined.

(** The statistics an entry is read with. *)
Definition statisticsOf (config : Config) : list string :=
  match Statistic config with
  | None => defaultStatistics
  | Some statistics => statistics
  end.

Definition sdkDimensions (dims : list Dimension) : list types.Dimension :=
  (λ d, types.mkDimension (Name d) (Value d)) <$> dims.

(** The requests of an entry in exact mode: one for each metric name. *)
Definition requestsOf (config : Config) : list MetricsWithStatistics :=
  (λ name, mkMetricsWithStatistics
             (types.mkMetric (Namespace config) name
                (sdkDimensions (elems (Dimensions config))))
             (statisticsOf config)) <$> elems (MetricName config).

(** The one detail of an entry in discovery mode. *)
Definition detailOf (tagsFilter : list aws.Tag) (config : Config) : NamespaceDetail :=
  mkNamespaceDetail (ResourceType config) (MetricName config) tagsFilter
    (statisticsOf config)
    (match sdkDimensions (elems (Dimensions config)) with
     | [] => None
     | dims => Some dims
     end).

(** The entry with its statistics replaced. *)
Definition withStatistic (config : Config) (statistic : slice string) : Config :=
  mkConfig (Namespace config) (MetricName config) (Dimensions config)
    (ResourceType config) statistic.



(** A metricset to try the configuration on: one region, a period of one
    minute, no tag filter. *)
Definition metricSetOf (regions : list string) (configs : list Config) : MetricSet :=
  mkMetricSet 60000000000 0 regions "111" "account" [] (awssdk.mkConfig "")
    (Ret (aws.mkConfig false)) configs.

(** The statistics asked for by a batch of queries. *)
Definition statsOf (queries : list types.MetricDataQuery) : list string :=
  (λ q, types.Stat (types.QueryMetricStat q)) <$> queries.

(** The field a tag is attached as. *)
Definition tagField {float64} (tag : resourcegroupstaggingapitypes.Tag)
  : string * mapstr.Value float64 :=
  ("aws.tags." +:+ common.DeDot (resourcegroupstaggingapitypes.Key tag),
   mapstr.Str (resourcegroupstaggingapitypes.Value tag)).

(** The tags found for an identity: those of its sub-identifiers, in order. *)
Definition foundTags `{W : Collaborators}
    (resourceTagMap : gmap string (slice resourcegroupstaggingapitypes.Tag))
    (identifier : string) : list resourcegroupstaggingapitypes.Tag :=
  v ← strings.Split identifier dimensionSeparator;
  elems (InsertTags_tags resourceTagMap v).

(** Fields written one after the other: a later write replaces an earlier one
    of the same name. *)
Definition putAll {float64} (writes : list (string * mapstr.Value float64))
    (fields : gmap string (mapstr.Value float64)) : gmap string (mapstr.Value float64) :=
  foldl (λ fields '(key, value), <[key := value]> fields) fields writes.

(** A result that is not a returned error. *)
Definition noErr {A} (r : result A) : Prop :=
  match r with
  | Err _ => False
  | _ => True
  end.

(** The client [Fetch] makes for a region. *)
Definition clientOf (config : aws.Config) (regionName : string) : Client :=
  mkClient (awssdk.mkConfig regionName) (aws.FIPSEnabled config).

(** The error [Fetch] returns when GetMetricData fails with [e] in a region. *)
Definition fetchError (regionName : string) (e : error) : error :=
  wrapError ("createEvents failed for region " +:+ regionName)
    (wrapError "getMetricDataResults failed" e).

(** Two entries to try [Fetch] on: a metric named exactly, and a namespace to
    discover. *)
Definition exactEntry : Config :=
  mkConfig "AWS/EC2" (Some ["CPUUtilization"]) (Some [mkDimension "InstanceId" "i-1"])
    "" (Some ["Average"]).

Definition discoveryEntry : Config :=
  mkConfig "AWS/EC2" None None "" (Some ["Average"]).

(** An entry whose statistics slice is empty without being nil. *)
Definition emptyStatisticEntry : Config :=
  mkConfig "AWS/EC2" (Some ["CPUUtilization"]) (Some [mkDimension "InstanceId" "i-1"])
    "" (Some []).

(** Discovery over four regions, of which the first cannot list metrics and
    the third cannot get metric data. *)
Definition fourRegions : MetricSet :=
  metricSetOf ["ap-south-1"; "eu-west-1"; "us-east-1"; "eu-west-1"] [discoveryEntry].

(** A statistic name that [StatisticLookup] accepts. *)
Definition validStatistic (stat : string) : Prop := (StatisticLookup stat).2 = true.

(** The statistics of all entries, in the order [checkStatistics] visits them. *)
Definition configuredStatistics (m : MetricSet) : list string :=
  config ← CloudwatchConfigs m; elems (Statistic config).

(** The error of [checkStatistics] for the statistic [stat]. *)
Definition invalidStatistic (stat : string) : error :=
  errorString ("statistic method specified is not valid: " +:+ stat).

(** The fields [InsertRootFields] writes for every label: the value under its
    generated name, and the namespace. *)
Definition valueFields `{U : strings.Unicode} {float64}
    (name namespace stat : string) (metricValue : float64)
    (fields : gmap string (mapstr.Value float64)) : gmap string (mapstr.Value float64) :=
  <["aws.cloudwatch.namespace" := mapstr.Str namespace]>
    (<[fieldNameOf name namespace stat := mapstr.Float metricValue]> fields).

(** A dimension that the label carries unharmed: its name and its value are
    not empty and hold neither a pipe nor a comma. *)
Definition plainDimension (d : types.Dimension) : Prop :=
  types.Name d ≠ "" ∧ types.Value d ≠ ""
  ∧ strings.Contains pipe (types.Name d) = false
  ∧ strings.Contains pipe (types.Value d) = false
  ∧ strings.Contains comma (types.Name d) = false
  ∧ strings.Contains comma (types.Value d) = false.

(** What a configuration of a namespace asks of a listed metric: its name is
    among the names, if names are given, and its dimensions compare equal to
    the dimensions, if dimensions are given. *)
Definition accepts (configPerNamespace : NamespaceDetail) (listMetric : types.Metric)
  : Prop :=
  match Names configPerNamespace with
  | Some names => types.MetricName listMetric ∈ names
  | None => True
  end
  ∧ match NDDimensions configPerNamespace with
    | Some dims => CompareAWSDimensions (types.Dimensions listMetric) dims = true
    | None => True
    end.

(** * Properties *)

(** ** Strings *)

Lemma append_cons (c : ascii) (a b : string) : String c a +:+ b = String c (a +:+ b).
Proof. reflexivity. Qed.

Lemma append_nil_l (b : string) : "" +:+ b = b.
Proof. reflexivity. Qed.

Lemma prefix_byte c d s :
  String.prefix (String c "") (String d s) = bool_decide (d = c).
Proof.
  cbn [String.prefix]. destruct (ascii_dec c d) as [->|Hne].
  - rewrite bool_decide_eq_true_2; [|done]. by destruct s.
  - rewrite bool_decide_eq_false_2; [done|congruence].
Qed.

Lemma Split_byte c s : strings.Split s (String c "") = fields c s.
Proof.
  unfold strings.Split. induction s as [|d s IH]; [done|].
  cbn [strings.SplitFrom fields]. rewrite prefix_byte.
  cbn [String.length Nat.sub]. rewrite IH.
  by destruct (decide (d = c)); [rewrite bool_decide_eq_true_2|rewrite bool_decide_eq_false_2].
Qed.

Lemma fields_nonempty c s : fields c s ≠ [].
Proof.
  destruct s as [|d s]; [done|]. simpl.
  destruct (decide (d = c)); [done|]. by destruct (fields c s).
Qed.

Lemma fields_length_pos c s : (1 ≤ length (fields c s))%nat.
Proof. pose proof (fields_nonempty c s). destruct (fields c s); simpl; [done|lia]. Qed.

Lemma push_length d l : l ≠ [] → length (strings.push d l) = length l.
Proof. by destruct l. Qed.

Lemma fields_free c s : strings.Contains c s = false → fields c s = [s].
Proof.
  induction s as [|d s IH]; [done|]. simpl.
  destruct (decide (d = c)); [done|]. intros H. by rewrite IH.
Qed.

Lemma fields_app c a b :
  strings.Contains c a = false → fields c (a +:+ String c b) = a :: fields c b.
Proof.
  induction a as [|d a IH]; rewrite ?append_cons, ?append_nil_l;
    cbn [strings.Contains fields].
  - intros _. by rewrite decide_True.
  - destruct (decide (d = c)); [done|]. intros H. by rewrite IH.
Qed.

Lemma Contains_app c a b :
  strings.Contains c (a +:+ b) = strings.Contains c a || strings.Contains c b.
Proof.
  induction a as [|d a IH]; [done|]. rewrite append_cons. cbn [strings.Contains].
  by destruct (decide (d = c)).
Qed.

Lemma append_nil_r (s : string) : s +:+ "" = s.
Proof. induction s as [|d s IH]; [done|]. by rewrite append_cons, IH. Qed.

Lemma append_assoc (a b c : string) : (a +:+ b) +:+ c = a +:+ (b +:+ c).
Proof. induction a as [|d a IH]; [done|]. by rewrite !append_cons, IH. Qed.

Lemma append_eq_nil (a b : string) : a +:+ b = "" → a = "" ∧ b = "".
Proof. by destruct a. Qed.

(** ** StatisticLookup *)

(** C6.  [StatisticLookup] maps the five statistic names Average, Sum, Maximum,
    Minimum and SampleCount to avg, sum, max, min and count with [ok = true];
    any other string [s] comes back unchanged, with [ok = true] when it starts
    with "p" and [ok = false] when it does not. *)
Theorem StatisticLookup_spec (s : string)
    (Hother : s ∉ ["Average"; "Sum"; "Maximum"; "Minimum"; "SampleCount"]) :
  (StatisticLookup "Average" = ("avg", true)
   ∧ StatisticLookup "Sum" = ("sum", true)
   ∧ StatisticLookup "Maximum" = ("max", true)
   ∧ StatisticLookup "Minimum" = ("min", true)
   ∧ StatisticLookup "SampleCount" = ("count", true))
  ∧ (∀ rest, s = "p" +:+ rest → StatisticLookup s = (s, true))
  ∧ ((∀ rest, s ≠ "p" +:+ rest) → StatisticLookup s = (s, false)).
Proof.
  split; [by vm_compute|].
  assert (Hnone : statisticLookupTable !! s = None).
  { unfold statisticLookupTable. simpl.
    repeat (rewrite lookup_insert_ne; [|intros <-; apply Hother; set_solver]).
    apply lookup_empty. }
  unfold StatisticLookup. rewrite Hnone. split.
  - intros rest ->. unfold strings.HasPrefix. rewrite append_cons.
    cbn [String.prefix]. destruct (ascii_dec "p" "p"); [|done]. by destruct rest.
  - intros Hno. f_equal. unfold strings.HasPrefix.
    destruct s as [|c s]; [done|]. cbn [String.prefix].
    destruct (ascii_dec "p" c) as [<-|]; [|done]. by destruct (Hno s).
Qed.

Lemma StatisticLookup_spec_witness :
  StatisticLookup "p95" = ("p95", true) ∧ StatisticLookup "bogus" = ("bogus", false).
Proof.
  split.
  - refine (proj1 (proj2 (StatisticLookup_spec "p95" _)) "95" eq_refl).
    intros H. repeat (apply elem_of_cons in H as [H|H]; [discriminate H|]).
    by apply elem_of_nil in H.
  - refine (proj2 (proj2 (StatisticLookup_spec "bogus" _)) _).
    + intros H. repeat (apply elem_of_cons in H as [H|H]; [discriminate H|]).
      by apply elem_of_nil in H.
    + intros rest H. discriminate H.
Defined.

(** ** ConstructLabel *)

Lemma join_cons2 sep x y l : join sep (x :: y :: l) = x +:+ sep +:+ join sep (y :: l).
Proof. reflexivity. Qed.

Lemma ConstructLabel_loop_join dims : ∀ n i dimNames dimValues,
  n = (i + Z.of_nat (length dims))%Z →
  ConstructLabel_loop n i dims dimNames dimValues
  = (dimNames +:+ join dimensionSeparator (types.Name <$> dims),
     dimValues +:+ join dimensionSeparator (types.Value <$> dims)).
Proof.
  induction dims as [|d rest IH]; intros n i dimNames dimValues Hn.
  - simpl. by rewrite !append_nil_r.
  - cbn [ConstructLabel_loop]. destruct rest as [|d' rest].
    + rewrite decide_False by (simpl in Hn; lia). simpl. done.
    + rewrite decide_True by (simpl in Hn; lia).
      rewrite IH by (simpl in *; lia).
      rewrite !fmap_cons, !join_cons2. by rewrite !append_assoc.
Qed.

Lemma Contains_join c sep l :
  strings.Contains c sep = false →
  Forall (λ s, strings.Contains c s = false) l →
  strings.Contains c (join sep l) = false.
Proof.
  intros Hsep. induction 1 as [|x l Hx Hl IH]; [done|].
  destruct l as [|y l]; [done|].
  rewrite join_cons2, !Contains_app, Hx, Hsep. exact IH.
Qed.

Lemma join_nonempty sep l :
  l ≠ [] → Forall (λ s, s ≠ "") l → join sep l ≠ "".
Proof.
  intros Hl Hall. destruct Hall as [|x l Hx Hrest]; [done|].
  destruct l as [|y l]; [done|].
  rewrite join_cons2. intros H. by apply append_eq_nil in H as [? _].
Qed.

Lemma pipeFree_joined metric :
  pipeFree metric →
  strings.Contains pipe (join dimensionSeparator (dimNamesOf metric)) = false
  ∧ strings.Contains pipe (join dimensionSeparator (dimValuesOf metric)) = false.
Proof.
  intros (_ & _ & Hd). unfold dimNamesOf, dimValuesOf.
  split; (apply Contains_join; [done|]); apply Forall_fmap;
    eapply Forall_impl; [exact Hd| |exact Hd|]; by intros d [? ?].
Qed.

Lemma eqb_empty (s : string) : String.eqb s "" = bool_decide (s = "").
Proof. by destruct s. Qed.

(** The fields of a label built from pipe-free parts. *)
Lemma ConstructLabel_fields metric statistic :
  pipeFree metric →
  strings.Contains pipe statistic = false →
  strings.Split (ConstructLabel metric statistic) labelSeparator
  = [types.MetricName metric; types.Namespace metric; statistic]
    ++ (if decide (join dimensionSeparator (dimNamesOf metric) ≠ ""
                   ∧ join dimensionSeparator (dimValuesOf metric) ≠ "")
        then [join dimensionSeparator (dimNamesOf metric);
              join dimensionSeparator (dimValuesOf metric)]
        else []).
Proof.
  intros Hfree Hstat. destruct (pipeFree_joined metric Hfree) as [Hn Hv].
  destruct Hfree as (Hname & Hns & _).
  unfold ConstructLabel.
  rewrite (ConstructLabel_loop_join _ _ 0) by lia.
  rewrite !append_nil_l, !eqb_empty.
  fold (dimNamesOf metric) (dimValuesOf metric).
  change labelSeparator with (String pipe "").
  rewrite Split_byte, !append_assoc, !append_cons, !append_nil_l.
  destruct (decide (_ ∧ _)) as [[H1 H2]|Hno].
  - rewrite !bool_decide_eq_false_2 by done. cbn [negb andb].
    rewrite !fields_app by done. by rewrite fields_free.
  - assert (negb (bool_decide (join dimensionSeparator (dimNamesOf metric) = ""))
            && negb (bool_decide (join dimensionSeparator (dimValuesOf metric) = ""))
            = false) as ->.
    { apply not_and_l in Hno as [H|H]; apply dec_stable in H;
        rewrite H, ?andb_false_r; done. }
    rewrite !fields_app by done. by rewrite fields_free.
Qed.

(** C2, as the code has it.  When the metric name, the namespace, the
    statistic and the dimension names and values hold no pipe, the label of
    [ConstructLabel] splits on the pipe into the metric name, the namespace
    and the statistic, followed, when the comma-joined dimension names and the
    comma-joined dimension values are both non-empty, by these two strings,
    joined in the order of the dimension list.  So the split has exactly 3
    fields for an empty dimension list, and exactly 5 for a non-empty list of
    dimensions whose names and values are non-empty. *)
Theorem ConstructLabel_roundtrip (metric : types.Metric) (statistic : string)
    (Hfree : pipeFree metric)
    (Hstat : strings.Contains pipe statistic = false) :
  let labels := strings.Split (ConstructLabel metric statistic) labelSeparator in
  let names := join dimensionSeparator (dimNamesOf metric) in
  let values := join dimensionSeparator (dimValuesOf metric) in
  (labels = if decide (names ≠ "" ∧ values ≠ "")
            then [types.MetricName metric; types.Namespace metric; statistic;
                  names; values]
            else [types.MetricName metric; types.Namespace metric; statistic])
  ∧ (types.Dimensions metric = [] →
     labels = [types.MetricName metric; types.Namespace metric; statistic])
  ∧ (types.Dimensions metric ≠ [] →
     Forall (λ d, types.Name d ≠ "" ∧ types.Value d ≠ "") (types.Dimensions metric) →
     labels = [types.MetricName metric; types.Namespace metric; statistic;
               names; values]).
Proof.
  intros labels names values. subst labels.
  rewrite (ConstructLabel_fields _ _ Hfree Hstat). fold names values.
  split; [by destruct (decide _)|]. split.
  - intros Hnil. subst names values. unfold dimNamesOf, dimValuesOf.
    rewrite Hnil. reflexivity.
  - intros Hne Hall. rewrite decide_True; [done|].
    subst names values. unfold dimNamesOf, dimValuesOf.
    split; (apply join_nonempty; [by destruct (types.Dimensions metric)|]);
      apply Forall_fmap; (eapply Forall_impl; [exact Hall|]); by intros d [? ?].
Qed.

Lemma ConstructLabel_roundtrip_witness :
  strings.Split
    (ConstructLabel
       (types.mkMetric "AWS/EC2" "CPUUtilization" [types.mkDimension "InstanceId" "i-1"])
       "avg") labelSeparator
  = ["CPUUtilization"; "AWS/EC2"; "avg"; "InstanceId"; "i-1"].
Proof.
  refine (proj2 (proj2 (ConstructLabel_roundtrip
    (types.mkMetric "AWS/EC2" "CPUUtilization" [types.mkDimension "InstanceId" "i-1"])
    "avg" _ _)) _ _).
  - repeat split; try reflexivity. repeat constructor.
  - reflexivity.
  - discriminate.
  - repeat constructor; discriminate.
Defined.

(** C2 as the spec states it fails: a pipe in the metric name gives a label of
    a metric without dimensions four fields, and a single dimension with an
    empty value gives a label of three fields. *)
Lemma ConstructLabel_roundtrip_counterexample :
  length (strings.Split (ConstructLabel (types.mkMetric "AWS/EC2" "a|b" []) "avg")
            labelSeparator) = 4
  ∧ strings.Split
      (ConstructLabel
         (types.mkMetric "AWS/EC2" "CPUUtilization" [types.mkDimension "InstanceId" ""])
         "avg") labelSeparator
    = ["CPUUtilization"; "AWS/EC2"; "avg"].
Proof. split; reflexivity. Qed.

(** ** Splitting on commas *)

Lemma fields_length_app c a b :
  (length (fields c (a +:+ b)) + 1 = length (fields c a) + length (fields c b))%nat.
Proof.
  induction a as [|d a IH]; [rewrite append_nil_l; simpl; lia|].
  rewrite append_cons. cbn [fields]. destruct (decide (d = c)).
  - simpl. lia.
  - rewrite !push_length by apply fields_nonempty. exact IH.
Qed.

Lemma fields_join_free c l :
  l ≠ [] → Forall (λ s, strings.Contains c s = false) l →
  fields c (join (String c "") l) = l.
Proof.
  intros Hl Hall. induction Hall as [|x l Hx Hrest IH]; [done|].
  destruct l as [|y l]; [by apply fields_free|].
  rewrite join_cons2, append_cons, append_nil_l, fields_app by done.
  by rewrite IH.
Qed.

Lemma fields_join_length c l :
  l ≠ [] → (length l ≤ length (fields c (join (String c "") l)))%nat.
Proof.
  intros Hl. induction l as [|x l IH]; [done|].
  destruct l as [|y l]; [apply fields_length_pos|].
  rewrite join_cons2, append_cons, append_nil_l.
  pose proof (fields_length_app c x (String c (join (String c "") (y :: l)))) as Happ.
  pose proof (fields_length_pos c x).
  cbn [fields] in Happ. rewrite decide_True in Happ by done.
  specialize (IH ltac:(done)). simpl in *. lia.
Qed.

(** ** InsertRootFields *)

Lemma StripNamespace_last `{U : strings.Unicode} namespace :
  StripNamespace namespace = Ret (lastSegment namespace).
Proof.
  unfold StripNamespace, lastSegment, index. rewrite Split_byte.
  pose proof (fields_nonempty "/"%char namespace) as Hne.
  rewrite last_lookup.
  replace (length (fields "/"%char namespace) - 1)%nat
    with (pred (length (fields "/"%char namespace))) by lia.
  destruct (fields "/"%char namespace !! _) eqn:Hl; [done|].
  apply lookup_ge_None in Hl. destruct (fields "/"%char namespace); simpl in *; [done|lia].
Qed.

Lemma GenerateFieldName_5 `{U : strings.Unicode} name namespace stat rest :
  GenerateFieldName namespace (name :: namespace :: stat :: rest)
  = Ret (fieldNameOf name namespace stat).
Proof.
  unfold GenerateFieldName, fieldNameOf. cbn [index lookup list_lookup statisticIdx result_bind].
  destruct (StatisticLookup stat) as [statMethod ok].
  rewrite StripNamespace_last. reflexivity.
Qed.

Section InsertRootFields.
Context `{W : Collaborators}.

Lemma InsertRootFields_loop_in_range names : ∀ i dimValues fields timestamp,
  (i + length names ≤ length dimValues)%nat →
  InsertRootFields_loop i names dimValues (mb.mkEvent (Some fields) timestamp)
  = Ret (mb.mkEvent (Some (dimensionFields names (drop i dimValues) fields)) timestamp).
Proof.
  induction names as [|name names IH]; intros i dimValues fields timestamp Hlen; [done|].
  cbn [InsertRootFields_loop]. unfold index.
  destruct (dimValues !! i) as [value|] eqn:Hi;
    [|apply lookup_ge_None in Hi; simpl in Hlen; lia].
  cbn [result_bind put mapstr.Put mb.RootFields mb.Timestamp].
  rewrite IH by (simpl in Hlen; lia).
  rewrite (drop_S _ _ _ Hi). reflexivity.
Qed.

Lemma InsertRootFields_loop_out_of_range names : ∀ i dimValues event,
  names ≠ [] → (length dimValues < i + length names)%nat →
  InsertRootFields_loop i names dimValues event = Panic.
Proof.
  induction names as [|name names IH]; intros i dimValues event Hne Hlen; [done|].
  cbn [InsertRootFields_loop]. unfold index.
  destruct (dimValues !! i) as [value|] eqn:Hi; [|done].
  cbn [result_bind].
  unfold put at 1, mapstr.Put. destruct (mb.RootFields event) as [fields|]; [|done].
  cbn [result_bind]. apply lookup_lt_Some in Hi.
  destruct names as [|name' names]; [simpl in Hlen; lia|].
  apply IH; [done|simpl in *; lia].
Qed.

(** C10, as the code has it.  On a label of five fields and an event whose
    field map is not nil: when the names field splits on commas into no more
    parts than the values field, [InsertRootFields] reads the split values in
    range only and returns the event with the metric value, the namespace and
    one [aws.dimensions.<name>] field per name part; when the names field
    splits into more parts than the values field it panics on the index.  The
    five fields of a label that [ConstructLabel] makes from parts without a
    pipe and dimension names without a comma always are in the first case. *)
Theorem InsertRootFields_in_range
    (fields0 : gmap string (mapstr.Value float64)) (timestamp : option Time)
    (metricValue : float64) (name namespace stat names values : string) :
  let labels := [name; namespace; stat; names; values] in
  let dimNames := strings.Split names dimensionSeparator in
  let dimValues := strings.Split values dimensionSeparator in
  ((length dimNames ≤ length dimValues)%nat →
   InsertRootFields (mb.mkEvent (Some fields0) timestamp) metricValue labels
   = Ret (mb.mkEvent
            (Some (dimensionFields dimNames dimValues
                     (<["aws.cloudwatch.namespace" := mapstr.Str namespace]>
                        (<[fieldNameOf name namespace stat := mapstr.Float metricValue]>
                           fields0))))
            timestamp))
  ∧ ((length dimValues < length dimNames)%nat →
     InsertRootFields (mb.mkEvent (Some fields0) timestamp) metricValue labels = Panic)
  ∧ (∀ metric statistic,
       pipeFree metric →
       strings.Contains pipe statistic = false →
       Forall (λ d, strings.Contains comma (types.Name d) = false)
              (types.Dimensions metric) →
       strings.Split (ConstructLabel metric statistic) labelSeparator = labels →
       (length dimNames ≤ length dimValues)%nat).
Proof.
  intros labels dimNames dimValues.
  assert (Hrun : InsertRootFields (mb.mkEvent (Some fields0) timestamp) metricValue labels
    = InsertRootFields_loop 0 dimNames dimValues
        (mb.mkEvent
           (Some (<["aws.cloudwatch.namespace" := mapstr.Str namespace]>
                    (<[fieldNameOf name namespace stat := mapstr.Float metricValue]>
                       fields0)))
           timestamp)).
  { unfold InsertRootFields, labels.
    cbn [index lookup list_lookup namespaceIdx result_bind].
    rewrite GenerateFieldName_5. reflexivity. }
  split; [|split].
  - intros Hle. rewrite Hrun, InsertRootFields_loop_in_range by (simpl; lia).
    reflexivity.
  - intros Hlt. rewrite Hrun. apply InsertRootFields_loop_out_of_range; [|simpl; lia].
    subst dimNames. change dimensionSeparator with (String comma "").
    rewrite Split_byte. apply fields_nonempty.
  - intros metric statistic Hfree Hstat Hcomma Hsplit.
    rewrite (ConstructLabel_fields _ _ Hfree Hstat) in Hsplit.
    destruct (decide _) as [[Hn Hv]|_]; [|discriminate Hsplit].
    injection Hsplit as _ _ _ <- <-.
    subst dimNames dimValues. change dimensionSeparator with (String comma "").
    rewrite !Split_byte.
    assert (types.Dimensions metric ≠ []) as Hdims.
    { intros Hnil. apply Hn. unfold dimNamesOf. by rewrite Hnil. }
    rewrite fields_join_free.
    + unfold dimNamesOf, dimValuesOf. rewrite length_fmap.
      rewrite <- (length_fmap types.Value). apply fields_join_length.
      by destruct (types.Dimensions metric).
    + unfold dimNamesOf. by destruct (types.Dimensions metric).
    + unfold dimNamesOf. by apply Forall_fmap.
Qed.

End InsertRootFields.

Lemma InsertRootFields_in_range_witness :
  InsertRootFields (W := World.world) World.emptyEvent 42%Z
    ["CPUUtilization"; "AWS/EC2"; "Average"; "InstanceId,Zone"; "i-1,a"]
  = Ret (mb.mkEvent
           (Some (<["aws.dimensions.Zone" := mapstr.Str "a"]>
                    (<["aws.dimensions.InstanceId" := mapstr.Str "i-1"]>
                       (<["aws.cloudwatch.namespace" := mapstr.Str "AWS/EC2"]>
                          {["aws.ec2.metrics.CPUUtilization.avg" := mapstr.Float 42%Z]}))))
           None)
  ∧ InsertRootFields (W := World.world) World.emptyEvent 42%Z
      ["CPUUtilization"; "AWS/EC2"; "Average"; "InstanceId,Zone"; "i-1"]
    = Panic
  ∧ (length (strings.Split "InstanceId,Zone" dimensionSeparator)
     ≤ length (strings.Split "i-1,a" dimensionSeparator))%nat.
Proof.
  split; [|split].
  - refine (proj1 (InsertRootFields_in_range (W := World.world) ∅ None 42%Z
      "CPUUtilization" "AWS/EC2" "Average" "InstanceId,Zone" "i-1,a") _).
    vm_compute. lia.
  - refine (proj1 (proj2 (InsertRootFields_in_range (W := World.world) ∅ None 42%Z
      "CPUUtilization" "AWS/EC2" "Average" "InstanceId,Zone" "i-1")) _).
    vm_compute. lia.
  - refine (proj2 (proj2 (InsertRootFields_in_range (W := World.world) ∅ None 42%Z
      "CPUUtilization" "AWS/EC2" "Average" "InstanceId,Zone" "i-1,a"))
      (types.mkMetric "AWS/EC2" "CPUUtilization"
         [types.mkDimension "InstanceId" "i-1"; types.mkDimension "Zone" "a"])
      "Average" _ _ _ _).
    + repeat split; try reflexivity. repeat constructor.
    + reflexivity.
    + repeat constructor.
    + reflexivity.
Defined.

(** C10 as stated fails: the label of a metric without dimensions (so that no
    dimension name holds a comma) whose statistic holds two pipes has five
    fields, its fourth field splits into more parts than its fifth, and
    [InsertRootFields] panics on it. *)
Lemma InsertRootFields_in_range_counterexample :
  Forall (λ d, strings.Contains comma (types.Name d) = false)
         (types.Dimensions (types.mkMetric "AWS/EC2" "CPUUtilization" []))
  ∧ strings.Split
      (ConstructLabel (types.mkMetric "AWS/EC2" "CPUUtilization" []) "p|a,b|c")
      labelSeparator
    = ["CPUUtilization"; "AWS/EC2"; "p"; "a,b"; "c"]
  ∧ ¬ (length (strings.Split "a,b" dimensionSeparator)
       ≤ length (strings.Split "c" dimensionSeparator))%nat
  ∧ InsertRootFields (W := World.world) World.emptyEvent 42%Z
      (strings.Split
         (ConstructLabel (types.mkMetric "AWS/EC2" "CPUUtilization" []) "p|a,b|c")
         labelSeparator)
    = Panic.
Proof.
  split; [constructor|]. split; [reflexivity|]. split; [vm_compute; lia|reflexivity].
Qed.

(** ** CreateMetricDataQueries *)

Lemma string_of_uint_digits d : allDigits (NilEmpty.string_of_uint d) = true.
Proof. induction d; simpl; done. Qed.

Lemma Itoa_digits (n : nat) : allDigits (strconv.Itoa (Z.of_nat n)) = true.
Proof.
  unfold strconv.Itoa. destruct (Z.of_nat n) as [|p|p] eqn:Hn; [done| |lia].
  cbn [Z.to_int NilZero.string_of_int NilZero.string_of_uint].
  pose proof (string_of_uint_digits (Pos.to_uint p)).
  by destruct (Pos.to_uint p).
Qed.

Lemma to_int_proper (z : Z) : Z.to_int z ≠ Decimal.Pos Decimal.Nil
                              ∧ Z.to_int z ≠ Decimal.Neg Decimal.Nil.
Proof.
  destruct z as [|p|p]; simpl; split; try discriminate;
    intros [= H]; by apply DecimalPos.Unsigned.to_uint_nonnil in H.
Qed.

Lemma Itoa_inj (a b : Z) : strconv.Itoa a = strconv.Itoa b → a = b.
Proof.
  unfold strconv.Itoa. intros H. apply (f_equal NilZero.int_of_string) in H.
  destruct (to_int_proper a), (to_int_proper b).
  rewrite !NilZero.isi in H by done. injection H as H.
  by apply DecimalZ.to_int_inj.
Qed.

(** The text after a run of digits that a letter ends is determined. *)
Lemma digits_then_letter (a a' b b' : string) :
  allDigits a = true → allDigits a' = true →
  a +:+ String "s" b = a' +:+ String "s" b' → a = a' ∧ b = b'.
Proof.
  revert a'. induction a as [|c a IH]; intros [|c' a'] Ha Ha'; rewrite ?append_cons, ?append_nil_l.
  - by intros [= ->].
  - intros [= <- _]. simpl in Ha'. discriminate Ha'.
  - intros [= -> _]. simpl in Ha. discriminate Ha.
  - intros [= -> Hrest]. simpl in Ha, Ha'.
    apply andb_true_iff in Ha as [_ Ha]. apply andb_true_iff in Ha' as [_ Ha'].
    by destruct (IH a' Ha Ha' Hrest) as [-> ->].
Qed.

Lemma queryId_inj (i j i' j' : nat) : queryId i j = queryId i' j' → i = i' ∧ j = j'.
Proof.
  unfold queryId. rewrite !append_cons, !append_nil_l. intros [= H].
  apply digits_then_letter in H as [Hi Hj]; try apply Itoa_digits.
  apply Itoa_inj in Hi. injection Hj as Hj. apply Itoa_inj in Hj. lia.
Qed.

Lemma CreateMetricDataQueries_ids_from (seconds : Z) l : ∀ k,
  types.Id <$> mjoin (imap (λ i listMetric,
      imap (λ j statistic,
              types.mkMetricDataQuery (queryId (k + i) j)
                (types.mkMetricStat seconds statistic (CloudwatchMetric listMetric))
                (ConstructLabel (CloudwatchMetric listMetric) statistic))
           (MWSStatistic listMetric)) l)
  = (λ p, queryId p.1 p.2) <$> indexPairs k l.
Proof.
  induction l as [|listMetric rest IH]; intros k; [done|].
  rewrite imap_cons. cbn [mjoin list_join indexPairs]. rewrite !fmap_app. f_equal.
  - rewrite fmap_imap, <- list_fmap_compose, Nat.add_0_r.
    rewrite <- (imap_seq_0 (MWSStatistic listMetric)).
    by apply imap_ext.
  - rewrite <- (IH (S k)). do 2 f_equal. apply imap_ext. intros i x _. simpl.
    by replace (k + S i)%nat with (S k + i)%nat by lia.
Qed.

Lemma indexPairs_ge l : ∀ k p, p ∈ indexPairs k l → (k ≤ p.1)%nat.
Proof.
  induction l as [|listMetric rest IH]; intros k p; [by intros ?%elem_of_nil|].
  cbn [indexPairs]. intros [Hin|Hin]%elem_of_app.
  - apply list_elem_of_fmap in Hin as (j & -> & _). simpl. lia.
  - apply IH in Hin. lia.
Qed.

Lemma indexPairs_NoDup l : ∀ k, NoDup (indexPairs k l).
Proof.
  induction l as [|listMetric rest IH]; intros k; [constructor|].
  cbn [indexPairs]. apply NoDup_app. split; [|split].
  - apply NoDup_fmap_2; [|apply NoDup_seq]. by intros j j' [= ->].
  - intros p Hin Hin'. apply list_elem_of_fmap in Hin as (j & -> & _).
    apply indexPairs_ge in Hin'. simpl in Hin'. lia.
  - apply IH.
Qed.

(** C8.  The identifiers of the queries that [CreateMetricDataQueries] returns
    are pairwise distinct: the identifier of the query of statistic [j] of
    metric [i] is ["cw" + i + "stats" + j], and distinct pairs of indices have
    distinct identifiers. *)
Theorem CreateMetricDataQueries_ids_distinct `{W : Collaborators}
    (listMetricsTotal : list MetricsWithStatistics) (period : Z) :
  NoDup (types.Id <$> CreateMetricDataQueries listMetricsTotal period)
  ∧ types.Id <$> CreateMetricDataQueries listMetricsTotal period
    = (λ p, queryId p.1 p.2) <$> indexPairs 0 listMetricsTotal
  ∧ (∀ i j i' j', (i, j) ≠ (i', j') → queryId i j ≠ queryId i' j').
Proof.
  assert (Hids : types.Id <$> CreateMetricDataQueries listMetricsTotal period
                 = (λ p, queryId p.1 p.2) <$> indexPairs 0 listMetricsTotal).
  { unfold CreateMetricDataQueries.
    by rewrite <- (CreateMetricDataQueries_ids_from (periodInSec period) listMetricsTotal 0). }
  split; [|split; [exact Hids|]].
  - rewrite Hids. apply NoDup_fmap_2; [|apply indexPairs_NoDup].
    intros [i j] [i' j'] H. simpl in H. by apply queryId_inj in H as [-> ->].
  - intros i j i' j' Hne H. apply Hne. by apply queryId_inj in H as [-> ->].
Qed.

Lemma CreateMetricDataQueries_ids_distinct_witness :
  queryId 1 11 ≠ queryId 11 1
  ∧ types.Id <$> CreateMetricDataQueries (W := World.world)
      [mkMetricsWithStatistics (types.mkMetric "AWS/EC2" "CPUUtilization" []) ["Average"; "Sum"];
       mkMetricsWithStatistics (types.mkMetric "AWS/EC2" "NetworkIn" []) ["Maximum"]]
      60000000000
    = ["cw0stats0"; "cw0stats1"; "cw1stats0"].
Proof.
  split.
  - refine (proj2 (proj2 (CreateMetricDataQueries_ids_distinct (W := World.world) [] 0))
             1 11 11 1 _).
    intros H. discriminate H.
  - exact (proj1 (proj2 (CreateMetricDataQueries_ids_distinct (W := World.world)
      [mkMetricsWithStatistics (types.mkMetric "AWS/EC2" "CPUUtilization" []) ["Average"; "Sum"];
       mkMetricsWithStatistics (types.mkMetric "AWS/EC2" "NetworkIn" []) ["Maximum"]]
      60000000000))).
Defined.

(** ** CompareAWSDimensions *)

Lemma nameToValue_fold dim1 : ∀ dim2 (acc1 acc2 : gmap string string),
  length dim1 = length dim2 →
  foldl (λ '(dim1NameToValue, dim2NameToValue) '(d1, d2),
           (<[types.Name d1 := types.Value d1]> dim1NameToValue,
            <[types.Name d2 := types.Value d2]> dim2NameToValue))
        (acc1, acc2) (zip dim1 dim2)
  = (foldl (λ m d, <[types.Name d := types.Value d]> m) acc1 dim1,
     foldl (λ m d, <[types.Name d := types.Value d]> m) acc2 dim2).
Proof.
  induction dim1 as [|d1 dim1 IH]; intros [|d2 dim2] acc1 acc2 Hlen;
    try discriminate Hlen; [done|].
  simpl. apply IH. by injection Hlen.
Qed.

Lemma nameToValue_maps dim1 dim2 :
  length dim1 = length dim2 →
  nameToValue dim1 dim2 = (nameValueMap dim1, nameValueMap dim2).
Proof. apply nameToValue_fold. Qed.

Lemma resolveWildcards_cons name v1 rest (m2 : gmap string string) :
  resolveWildcards ((name, v1) :: rest) m2
  = resolveWildcards rest
      match m2 !! name with
      | Some v2 =>
          if decide (v2 = dimensionValueWildcard) then <[name := v1]> m2 else m2
      | None => m2
      end.
Proof. reflexivity. Qed.

Lemma resolveWildcards_lookup entries : ∀ (m2 : gmap string string) k,
  NoDup entries.*1 →
  resolveWildcards entries m2 !! k
  = (λ v2, if decide (v2 = dimensionValueWildcard)
           then default v2 ((list_to_map entries : gmap string string) !! k)
           else v2) <$> m2 !! k.
Proof.
  induction entries as [|[name v1] rest IH]; intros m2 k Hnd.
  - simpl. rewrite lookup_empty. destruct (m2 !! k) as [v2|]; [|done].
    simpl. by destruct (decide _).
  - rewrite fmap_cons in Hnd. apply NoDup_cons in Hnd as [Hname Hnd].
    rewrite resolveWildcards_cons, IH by done.
    change (list_to_map ((name, v1) :: rest) : gmap string string)
      with (<[name := v1]> (list_to_map rest : gmap string string)).
    destruct (decide (k = name)) as [->|Hk].
    + rewrite lookup_insert_eq, (not_elem_of_list_to_map_1 _ _ Hname).
      destruct (m2 !! name) as [v2|] eqn:Hm2; [|by rewrite Hm2].
      destruct (decide (v2 = dimensionValueWildcard)) as [->|Hv2].
      * rewrite lookup_insert_eq. simpl. by destruct (decide (v1 = _)).
      * rewrite Hm2. simpl. by destruct (decide (v2 = _)).
    + rewrite lookup_insert_ne by done.
      destruct (m2 !! name) as [v2|]; [|done].
      destruct (decide (v2 = _)); [|done]. by rewrite lookup_insert_ne.
Qed.

Lemma resolveWildcards_substitute (m1 m2 : gmap string string) entries :
  entries ≡ₚ map_to_list m1 →
  resolveWildcards entries m2 = substituteWildcards m1 m2.
Proof.
  intros Hperm. apply map_eq. intros k.
  assert (Hnd : NoDup entries.*1).
  { rewrite Hperm. apply NoDup_fst_map_to_list. }
  rewrite resolveWildcards_lookup by done.
  assert ((list_to_map entries : gmap string string) = m1) as ->.
  { rewrite <- (list_to_map_to_list m1). by apply list_to_map_proper. }
  unfold substituteWildcards. rewrite map_lookup_imap.
  by destruct (m2 !! k).
Qed.

Lemma nameValueMap_values dims : ∀ (acc : gmap string string) k v,
  foldl (λ m d, <[types.Name d := types.Value d]> m) acc dims !! k = Some v →
  acc !! k = Some v ∨ ∃ d, d ∈ dims ∧ types.Value d = v.
Proof.
  induction dims as [|d dims IH]; intros acc k v; [by left|].
  simpl. intros [H|(d' & Hd' & Hv)]%IH.
  - destruct (decide (k = types.Name d)) as [->|Hk].
    + rewrite lookup_insert_eq in H. injection H as <-. right. exists d. split; [left|done].
    + rewrite lookup_insert_ne in H by done. by left.
  - right. exists d'. split; [by right|done].
Qed.

Lemma substituteWildcards_free (m1 : gmap string string) dims :
  wildcardFree dims → substituteWildcards m1 (nameValueMap dims) = nameValueMap dims.
Proof.
  intros Hfree. apply map_eq. intros k. unfold substituteWildcards.
  rewrite map_lookup_imap. destruct (nameValueMap dims !! k) as [v|] eqn:Hk; [|done].
  simpl. rewrite decide_False; [done|].
  apply nameValueMap_values in Hk as [Hk|(d & Hd & <-)]; [by rewrite lookup_empty in Hk|].
  by apply (proj1 (Forall_forall _ _) Hfree).
Qed.

Lemma CompareAWSDimensions_in_match order dim1 dim2 :
  (∀ m : gmap string string, order m ≡ₚ map_to_list m) →
  CompareAWSDimensions_in order dim1 dim2 = true ↔ dimensionsMatch dim1 dim2.
Proof.
  intros Horder. unfold CompareAWSDimensions_in, dimensionsMatch.
  destruct (decide (length dim1 ≠ length dim2)) as [Hne|Heq%dec_stable].
  - split; [done|]. by intros [? _].
  - rewrite nameToValue_maps by done.
    rewrite (resolveWildcards_substitute (nameValueMap dim1)) by apply Horder.
    rewrite bool_decide_eq_true. tauto.
Qed.

(** C4.  Whatever the order in which the map is ranged over,
    [CompareAWSDimensions] is true exactly when the two lists are equally long
    and the name-to-value mapping of the first equals that of the second after
    each wildcard value of the second is replaced by the value the first has
    for that name.  Without wildcards the comparison is symmetric; and
    compare({A:x}, {A:*}) is true, compare({A:x}, {A:y}) and
    compare({A:x, B:y}, {A:x}) are false. *)
Theorem CompareAWSDimensions_spec
    (order : gmap string string → list (string * string))
    (Horder : ∀ m : gmap string string, order m ≡ₚ map_to_list m)
    (dim1 dim2 : list types.Dimension) :
  (CompareAWSDimensions_in order dim1 dim2 = true ↔ dimensionsMatch dim1 dim2)
  ∧ CompareAWSDimensions_in order dim1 dim2 = CompareAWSDimensions dim1 dim2
  ∧ (wildcardFree dim1 → wildcardFree dim2 →
     CompareAWSDimensions_in order dim1 dim2 = CompareAWSDimensions_in order dim2 dim1)
  ∧ CompareAWSDimensions [types.mkDimension "A" "x"] [types.mkDimension "A" "*"] = true
  ∧ CompareAWSDimensions [types.mkDimension "A" "x"] [types.mkDimension "A" "y"] = false
  ∧ CompareAWSDimensions [types.mkDimension "A" "x"; types.mkDimension "B" "y"]
      [types.mkDimension "A" "x"] = false.
Proof.
  split; [by apply CompareAWSDimensions_in_match|]. split; [|split].
  - apply eq_true_iff_eq. unfold CompareAWSDimensions.
    rewrite !CompareAWSDimensions_in_match; done.
  - intros Hfree1 Hfree2. apply eq_true_iff_eq.
    rewrite !CompareAWSDimensions_in_match by done. unfold dimensionsMatch.
    rewrite !substituteWildcards_free by done. split; intros [-> ->]; done.
  - by vm_compute.
Qed.

Lemma CompareAWSDimensions_spec_witness :
  dimensionsMatch [types.mkDimension "InstanceId" "i-1"; types.mkDimension "Zone" "a"]
                  [types.mkDimension "Zone" "*"; types.mkDimension "InstanceId" "i-1"].
Proof.
  refine (proj1 (proj1 (CompareAWSDimensions_spec map_to_list
    (λ m, reflexivity (map_to_list m))
    [types.mkDimension "InstanceId" "i-1"; types.mkDimension "Zone" "a"]
    [types.mkDimension "Zone" "*"; types.mkDimension "InstanceId" "i-1"])) _).
  vm_compute. reflexivity.
Defined.

(** ** readCloudwatchConfig *)

Lemma ContainsWildcard_Forall dims :
  ConfigDimensionValueContainsWildcard dims = false
  ↔ Forall (λ d, Value d ≠ dimensionValueWildcard) dims.
Proof.
  induction dims as [|d dims IH]; simpl; [done|].
  rewrite Forall_cons. destruct (decide (Value d = dimensionValueWildcard)); [|tauto].
  split; [done|]. by intros [? _].
Qed.

Lemma cloudwatchDimensions_fold dims : ∀ acc : slice types.Dimension,
  foldl (λ acc dim, append1 acc (types.mkDimension (Name dim) (Value dim))) acc dims
  = match dims with
    | [] => acc
    | _ :: _ => Some (elems acc ++ sdkDimensions dims)
    end.
Proof.
  induction dims as [|d dims IH]; intros acc; [done|].
  cbn [foldl]. rewrite IH. destruct dims as [|d' dims]; [done|].
  unfold append1. cbn [elems default sdkDimensions fmap list_fmap id].
  by rewrite <- app_assoc.
Qed.

Lemma cloudwatchDimensions_sdk dims :
  cloudwatchDimensions dims
  = match sdkDimensions (elems dims) with
    | [] => None
    | sdk => Some sdk
    end.
Proof.
  unfold cloudwatchDimensions. rewrite cloudwatchDimensions_fold.
  by destruct (elems dims).
Qed.

Lemma cloudwatchDimensions_elems dims :
  elems (cloudwatchDimensions dims) = sdkDimensions (elems dims).
Proof. rewrite cloudwatchDimensions_sdk. by destruct (sdkDimensions (elems dims)). Qed.

Lemma statisticsOf_elems config :
  elems (if isNil (Statistic config) then Some defaultStatistics else Statistic config)
  = statisticsOf config.
Proof. unfold statisticsOf. by destruct (Statistic config). Qed.

Lemma exactMode_test config :
  negb (isNil (MetricName config)) && negb (isNil (Dimensions config))
  && negb (ConfigDimensionValueContainsWildcard (elems (Dimensions config)))
  = bool_decide (exactMode config).
Proof.
  destruct (decide (exactMode config)) as [He|He].
  - rewrite bool_decide_eq_true_2 by done. destruct He as (Hn & Hd & Hf).
    apply ContainsWildcard_Forall in Hf. rewrite Hf.
    by destruct (MetricName config), (Dimensions config).
  - rewrite bool_decide_eq_false_2 by done. unfold exactMode in He.
    destruct (MetricName config) as [names|], (Dimensions config) as [dims|];
      simpl in *; try done.
    destruct (ConfigDimensionValueContainsWildcard dims) eqn:Hw; [done|].
    destruct He. by apply ContainsWildcard_Forall in Hw.
Qed.

(** What one entry does to the state of the loop. *)
Lemma readCloudwatchConfig_step_routing tagsFilter st config :
  readCloudwatchConfig_step tagsFilter st config
  = if decide (exactMode config)
    then mkReadState
           (metricsWithStatsTotal st ++ requestsOf config)
           (if decide (ResourceType config ≠ "")
            then <[ResourceType config := tagsFilter]> (resourceTypesWithTags st)
            else resourceTypesWithTags st)
           (namespaceDetailTotal st)
    else mkReadState
           (metricsWithStatsTotal st)
           (resourceTypesWithTags st)
           (<[Namespace config :=
                default [] (namespaceDetailTotal st !! Namespace config)
                ++ [detailOf tagsFilter config]]> (namespaceDetailTotal st)).
Proof.
  unfold readCloudwatchConfig_step. rewrite exactMode_test.
  rewrite statisticsOf_elems, cloudwatchDimensions_elems.
  destruct (decide (exactMode config)) as [He|He].
  - by rewrite bool_decide_eq_true_2.
  - rewrite bool_decide_eq_false_2 by done. unfold detailOf.
    by rewrite cloudwatchDimensions_sdk.
Qed.







Lemma statsOf_single `{W : Collaborators} metric statistics period :
  statsOf (CreateMetricDataQueries [mkMetricsWithStatistics metric statistics] period)
  = statistics.
Proof.
  unfold CreateMetricDataQueries, statsOf. cbn [imap mjoin list_join CloudwatchMetric MWSStatistic].
  rewrite app_nil_r, fmap_imap. unfold compose. cbn [types.QueryMetricStat types.Stat].
  etrans; [apply (imap_const id)|apply list_fmap_id].
Qed.

(** C7, as the code has it.  An entry whose statistics slice is nil is read
    as if it named the default statistics Average, Maximum, Minimum, Sum and
    SampleCount: the requests it adds in exact mode and the detail it adds in
    discovery mode carry exactly these five, and the queries of such a request
    ask for exactly these five statistics. *)
Theorem readCloudwatchConfig_default_statistics `{W : Collaborators}
    (tagsFilter : list aws.Tag) (st : readState) (config : Config)
    (Hnil : Statistic config = None) :
  readCloudwatchConfig_step tagsFilter st config
  = readCloudwatchConfig_step tagsFilter st (withStatistic config (Some defaultStatistics))
  ∧ (exactMode config →
     ∃ new,
       metricsWithStatsTotal (readCloudwatchConfig_step tagsFilter st config)
       = metricsWithStatsTotal st ++ new
       ∧ length new = length (elems (MetricName config))
       ∧ Forall (λ mws,
                   MWSStatistic mws = defaultStatistics
                   ∧ ∀ period,
                       statsOf (CreateMetricDataQueries [mws] period)
                       = ["Average"; "Maximum"; "Minimum"; "Sum"; "SampleCount"])
                new)
  ∧ (¬ exactMode config →
     ∃ detail,
       namespaceDetailTotal (readCloudwatchConfig_step tagsFilter st config)
         !! Namespace config
       = Some (default [] (namespaceDetailTotal st !! Namespace config) ++ [detail])
       ∧ Statistics detail = defaultStatistics).
Proof.
  assert (Hstats : statisticsOf config = defaultStatistics).
  { unfold statisticsOf. by rewrite Hnil. }
  split; [|split].
  - unfold readCloudwatchConfig_step. destruct config as [ns names dims rt stats].
    simpl in Hnil. subst stats. reflexivity.
  - intros He. rewrite readCloudwatchConfig_step_routing, decide_True by done.
    exists (requestsOf config). split; [done|]. split; [apply length_fmap|].
    unfold requestsOf. apply Forall_fmap, Forall_forall. intros name _. simpl.
    rewrite Hstats. split; [done|]. intros period. apply statsOf_single.
  - intros He. rewrite readCloudwatchConfig_step_routing, decide_False by done.
    exists (detailOf tagsFilter config). cbn [namespaceDetailTotal].
    by rewrite lookup_insert_eq.
Qed.

Lemma readCloudwatchConfig_default_statistics_witness :
  readCloudwatchConfig_step [] (mkReadState [] ∅ ∅)
    (mkConfig "AWS/EC2" (Some ["CPUUtilization"])
       (Some [mkDimension "InstanceId" "i-1"]) "" None)
  = mkReadState
      [mkMetricsWithStatistics
         (types.mkMetric "AWS/EC2" "CPUUtilization" [types.mkDimension "InstanceId" "i-1"])
         ["Average"; "Maximum"; "Minimum"; "Sum"; "SampleCount"]]
      ∅ ∅.
Proof.
  refine (eq_trans (proj1 (readCloudwatchConfig_default_statistics (W := World.world)
    [] (mkReadState [] ∅ ∅)
    (mkConfig "AWS/EC2" (Some ["CPUUtilization"])
       (Some [mkDimension "InstanceId" "i-1"]) "" None) eq_refl)) _).
  reflexivity.
Defined.

(** C7 as the spec states it fails: the statistics slice of an entry can be empty
    without being nil; the default statistics are then not substituted, and the
    entry contributes no query at all. *)
Lemma readCloudwatchConfig_default_statistics_counterexample :
  elems (Statistic emptyStatisticEntry) = []
  ∧ MetricsWithStats
      (readCloudwatchConfig (metricSetOf ["eu-west-1"] [emptyStatisticEntry])).1
    = [mkMetricsWithStatistics
         (types.mkMetric "AWS/EC2" "CPUUtilization" [types.mkDimension "InstanceId" "i-1"])
         []]
  ∧ CreateMetricDataQueries (W := World.world)
      (MetricsWithStats
         (readCloudwatchConfig (metricSetOf ["eu-west-1"] [emptyStatisticEntry])).1)
      60000000000
    = [].
Proof. split; [reflexivity|]. split; reflexivity. Qed.

(** ** createEvents: results without an identifying dimension *)

Section FallbackIdentity.
Context `{W : Collaborators}.

Lemma insertRootFieldsAt_init m regionName timestamp
    (events : gmap string (mb.Event float64 Time)) identifier values idx labels :
  insertRootFieldsAt (initEvent m regionName timestamp events identifier)
    identifier values idx labels
  = (value ←! indexZ values idx;
     event ←! InsertRootFields
                (default (InitEvent regionName (AccountName m) (AccountID m) timestamp)
                         (events !! identifier))
                value labels;
     Ret (<[identifier := event]> events))%result.
Proof.
  unfold insertRootFieldsAt, initEvent.
  destruct (events !! identifier) as [event|] eqn:Hev.
  - by rewrite Hev.
  - rewrite lookup_insert_eq. simpl.
    destruct (indexZ values idx) as [value| |]; [|done..]. simpl.
    destruct (InsertRootFields _ value labels) as [event| |]; [|done..]. simpl.
    by rewrite insert_insert_eq.
Qed.

Lemma createEvents_tagged_skip m regionName timestamp tagsFilter resourceTagMap
    (events : gmap string (mb.Event float64 Time))
    (output : types.MetricDataResult float64 Time) :
  tagsFilter ≠ [] →
  length (strings.Split (types.ResultLabel output) labelSeparator) = 3 →
  createEvents_tagged m regionName timestamp tagsFilter resourceTagMap events output
  = Ret events.
Proof.
  intros Hfilter Hlen. unfold createEvents_tagged.
  destruct (decide (length (types.Values output) = 0)); [done|].
  destruct (CheckTimestampInArray _ _) as [[] idx]; [|done].
  rewrite Hlen. rewrite decide_True by lia.
  rewrite decide_True; [done|]. by destruct tagsFilter.
Qed.

(** C3.  A result that is processed (it has values, and the timestamp of the
    invocation is among its timestamps) and whose label splits into the three
    fields name, namespace and statistic belongs to the event of the identity
    region + account id + namespace: without a tag filter, this event, created
    by [aws.InitEvent] if the identity is new, gets the fields of the result,
    and no other event changes.  In the pass of a resource type whose tag
    filter is not empty the result is skipped: no event is created or updated,
    and a pass all of whose results are of this kind leaves the events as they
    were. *)
Theorem createEvents_fallback_identity
    (m : MetricSet) (regionName : string) (timestamp : Time)
    (events : gmap string (mb.Event float64 Time))
    (output : types.MetricDataResult float64 Time)
    (name namespace stat : string) (timestampIdx : Z)
    (Hlabel : strings.Split (types.ResultLabel output) labelSeparator
              = [name; namespace; stat])
    (Hvalues : types.Values output ≠ [])
    (Htime : CheckTimestampInArray timestamp (types.Timestamps output)
             = (true, timestampIdx)) :
  let identifier := regionName +:+ AccountID m +:+ namespace in
  let update : result (gmap string (mb.Event float64 Time)) :=
    (value ←! indexZ (types.Values output) timestampIdx;
     event ←! InsertRootFields
                (default (InitEvent regionName (AccountName m) (AccountID m) timestamp)
                         (events !! identifier))
                value [name; namespace; stat];
     Ret (<[identifier := event]> events))%result in
  createEvents_plain m regionName timestamp events output = update
  ∧ (∀ resourceTagMap,
       createEvents_tagged m regionName timestamp [] resourceTagMap events output
       = update)
  ∧ (∀ tagsFilter resourceTagMap,
       tagsFilter ≠ [] →
       createEvents_tagged m regionName timestamp tagsFilter resourceTagMap events output
       = Ret events)
  ∧ (∀ tagsFilter resourceType svcResourceAPI metricDataResults,
       tagsFilter ≠ [] →
       Forall (λ r, length (strings.Split (types.ResultLabel r) labelSeparator) = 3)
              metricDataResults →
       (createEvents_pass m svcResourceAPI regionName timestamp metricDataResults
          events (resourceType, tagsFilter)).2 = Ret events).
Proof.
  intros identifier update.
  assert (Hlen : length (types.Values output) ≠ 0) by by destruct (types.Values output).
  split; [|split; [|split]].
  - unfold createEvents_plain. rewrite decide_False, Htime, Hlabel by done.
    cbn [length]. rewrite decide_True by lia.
    unfold fallbackIdentifier. cbn [index lookup list_lookup namespaceIdx result_bind].
    apply insertRootFieldsAt_init.
  - intros resourceTagMap. unfold createEvents_tagged.
    rewrite decide_False, Htime, Hlabel by done.
    cbn [length]. rewrite decide_True by lia. rewrite decide_False by (simpl; lia).
    unfold fallbackIdentifier. cbn [index lookup list_lookup namespaceIdx result_bind].
    apply insertRootFieldsAt_init.
  - intros tagsFilter resourceTagMap Hfilter.
    apply createEvents_tagged_skip; [done|]. by rewrite Hlabel.
  - intros tagsFilter resourceType svcResourceAPI metricDataResults Hfilter Hall.
    unfold createEvents_pass.
    destruct (GetResourcesTags svcResourceAPI [resourceType]) as [resourceTagMap err].
    assert (Hrun : ∀ rtm,
      result_for metricDataResults
        (createEvents_tagged m regionName timestamp tagsFilter rtm) events = Ret events).
    { intros rtm. induction Hall as [|r rs Hr _ IH]; [done|].
      cbn [result_for]. by rewrite createEvents_tagged_skip. }
    destruct err as [e|]; cbn [M_bind M_log M_ret];
      destruct (bool_decide (length tagsFilter ≠ 0) && bool_decide (size resourceTagMap = 0));
      cbn [M_ret M_lift snd]; by rewrite ?Hrun.
Qed.

End FallbackIdentity.

Lemma createEvents_fallback_identity_witness :
  createEvents_plain (W := World.world) (metricSetOf ["us-east-1"] []) "us-east-1" 100%Z ∅
    (types.mkMetricDataResult "EstimatedCharges|AWS/Billing|Maximum" [42%Z] [100%Z])
  = Ret {["us-east-1111AWS/Billing" :=
            mb.mkEvent
              (Some (<["aws.cloudwatch.namespace" := mapstr.Str "AWS/Billing"]>
                       (<["aws.billing.metrics.EstimatedCharges.max" := mapstr.Float 42%Z]>
                          (<["cloud.region" := mapstr.Str "us-east-1"]>
                             (<["cloud.account.id" := mapstr.Str "111"]>
                                {["cloud.provider" := mapstr.Str "aws"]})))))
              (Some 100%Z)]}
  ∧ createEvents_tagged (W := World.world) (metricSetOf ["us-east-1"] []) "us-east-1" 100%Z
      [aws.mkTag "env" "prod"] ∅ ∅
      (types.mkMetricDataResult "EstimatedCharges|AWS/Billing|Maximum" [42%Z] [100%Z])
    = Ret ∅.
Proof.
  pose proof (createEvents_fallback_identity (W := World.world)
    (metricSetOf ["us-east-1"] []) "us-east-1" 100%Z ∅
    (types.mkMetricDataResult "EstimatedCharges|AWS/Billing|Maximum" [42%Z] [100%Z])
    "EstimatedCharges" "AWS/Billing" "Maximum" 0%Z eq_refl
    ltac:(discriminate) eq_refl) as (Hplain & _ & Hskip & _).
  split.
  - refine (eq_trans Hplain _). vm_compute. reflexivity.
  - apply Hskip. discriminate.
Defined.

(** ** InsertTags *)

Section InsertTags.
Context `{W : Collaborators}.

Lemma putAll_app (w1 w2 : list (string * mapstr.Value float64)) fields :
  putAll (w1 ++ w2) fields = putAll w2 (putAll w1 fields).
Proof. apply foldl_app. Qed.

Lemma putAll_cons key value (writes : list (string * mapstr.Value float64)) fields :
  putAll ((key, value) :: writes) fields = putAll writes (<[key := value]> fields).
Proof. reflexivity. Qed.

Lemma putAll_other (writes : list (string * mapstr.Value float64)) : ∀ fields k,
  k ∉ writes.*1 → putAll writes fields !! k = fields !! k.
Proof.
  induction writes as [|[key value] writes IH]; intros fields k Hk; [done|].
  rewrite fmap_cons in Hk. apply not_elem_of_cons in Hk as [Hne Hk].
  rewrite putAll_cons, IH by done. by rewrite lookup_insert_ne.
Qed.

Lemma putAll_last (w1 w2 : list (string * mapstr.Value float64)) key value fields :
  key ∉ w2.*1 → putAll (w1 ++ (key, value) :: w2) fields !! key = Some value.
Proof.
  intros Hk. rewrite putAll_app, putAll_cons, putAll_other by done.
  apply lookup_insert_eq.
Qed.

(** The inner loop: the tags of one sub-identifier. *)
Lemma InsertTags_inner identifier timestamp tags :
  ∀ (events : gmap string (mb.Event float64 Time)) fields,
  events !! identifier = Some (mb.mkEvent (Some fields) timestamp) →
  result_for tags
    (λ events tag,
       putAt events identifier
         ("aws.tags." +:+ common.DeDot (resourcegroupstaggingapitypes.Key tag))
         (mapstr.Str (resourcegroupstaggingapitypes.Value tag)))
    events
  = Ret (<[identifier := mb.mkEvent (Some (putAll (tagField <$> tags) fields)) timestamp]>
           events).
Proof.
  induction tags as [|tag tags IH]; intros events fields Hev.
  - simpl. by rewrite insert_id.
  - cbn [result_for]. unfold putAt at 1. rewrite Hev.
    cbn [put mapstr.Put mb.RootFields mb.Timestamp result_bind].
    erewrite IH by apply lookup_insert_eq. by rewrite insert_insert_eq.
Qed.

(** The outer loop, over the sub-identifiers. *)
Lemma InsertTags_outer identifier timestamp resourceTagMap subIdentifiers :
  ∀ (events : gmap string (mb.Event float64 Time)) fields,
  events !! identifier = Some (mb.mkEvent (Some fields) timestamp) →
  result_for subIdentifiers
    (λ events v,
       let tags := InsertTags_tags resourceTagMap v in
       if decide (length (elems tags) ≠ 0) then
         result_for (elems tags)
           (λ events tag,
              putAt events identifier
                ("aws.tags." +:+ common.DeDot (resourcegroupstaggingapitypes.Key tag))
                (mapstr.Str (resourcegroupstaggingapitypes.Value tag)))
           events
       else Ret events)
    events
  = Ret (<[identifier :=
             mb.mkEvent
               (Some (putAll
                        (tagField <$> (v ← subIdentifiers;
                                       elems (InsertTags_tags resourceTagMap v)))
                        fields))
               timestamp]> events).
Proof.
  induction subIdentifiers as [|v rest IH]; intros events fields Hev.
  - simpl. by rewrite insert_id.
  - cbn [result_for]. rewrite bind_cons, fmap_app, putAll_app.
    destruct (decide (length (elems (InsertTags_tags resourceTagMap v)) ≠ 0))
      as [Hne|Hnil%dec_stable].
    + rewrite (InsertTags_inner _ timestamp _ _ fields) by done.
      cbn [result_bind]. erewrite IH by apply lookup_insert_eq.
      by rewrite insert_insert_eq.
    + apply nil_length_inv in Hnil. rewrite Hnil. cbn [result_bind].
      by apply IH.
Qed.

Lemma InsertTags_none identifier resourceTagMap subIdentifiers :
  ∀ events : gmap string (mb.Event float64 Time),
  (v ← subIdentifiers; elems (InsertTags_tags resourceTagMap v)) = [] →
  result_for subIdentifiers
    (λ events v,
       let tags := InsertTags_tags resourceTagMap v in
       if decide (length (elems tags) ≠ 0) then
         result_for (elems tags)
           (λ events tag,
              putAt events identifier
                ("aws.tags." +:+ common.DeDot (resourcegroupstaggingapitypes.Key tag))
                (mapstr.Str (resourcegroupstaggingapitypes.Value tag)))
           events
       else Ret events)
    events
  = Ret events.
Proof.
  induction subIdentifiers as [|v rest IH]; intros events Hnone; [done|].
  rewrite bind_cons in Hnone. apply app_eq_nil in Hnone as [Hv Hrest].
  cbn [result_for]. rewrite Hv. cbn [length]. rewrite decide_False by (intros H; by apply H).
  cbn [result_bind]. by apply IH.
Qed.

(** C9, as the code has it.  [InsertTags] writes, for the tags found for the
    sub-identifiers of the identity (looked up directly, or through the short
    identifier when a sub-identifier that starts with "arn:" has no tags of
    its own), the fields [aws.tags.<dedotted key> = value] into the event of
    the identity, one after the other, in the order of the sub-identifiers and
    of their tags.  A write replaces the value the field had, whether it was
    attached before the call or by an earlier tag of the call: the field of a
    found tag holds the value, unmodified, of the last found tag with the same
    dedotted key.  Every other field and every other event is unchanged.  If
    no sub-identifier yields tags, the events are unchanged and there is no
    error, whether or not the identity has an event. *)
Theorem InsertTags_spec
    (events : gmap string (mb.Event float64 Time)) (identifier : string)
    (resourceTagMap : gmap string (slice resourcegroupstaggingapitypes.Tag)) :
  (foundTags resourceTagMap identifier = [] →
   InsertTags events identifier resourceTagMap = Ret events)
  ∧ (∀ fields timestamp,
       events !! identifier = Some (mb.mkEvent (Some fields) timestamp) →
       let fields' := putAll (tagField <$> foundTags resourceTagMap identifier) fields in
       InsertTags events identifier resourceTagMap
       = Ret (<[identifier := mb.mkEvent (Some fields') timestamp]> events)
       ∧ (∀ earlier tag later,
            foundTags resourceTagMap identifier = earlier ++ tag :: later →
            Forall (λ t, common.DeDot (resourcegroupstaggingapitypes.Key t)
                         ≠ common.DeDot (resourcegroupstaggingapitypes.Key tag)) later →
            fields' !! ("aws.tags." +:+ common.DeDot (resourcegroupstaggingapitypes.Key tag))
            = Some (mapstr.Str (resourcegroupstaggingapitypes.Value tag)))
       ∧ (∀ key,
            Forall (λ t, key ≠ "aws.tags."
                               +:+ common.DeDot (resourcegroupstaggingapitypes.Key t))
                   (foundTags resourceTagMap identifier) →
            fields' !! key = fields !! key)).
Proof.
  split.
  - intros Hnone. by apply InsertTags_none.
  - intros fields timestamp Hev fields'. split; [|split].
    + by apply InsertTags_outer.
    + intros earlier tag later Hfound Hlater. subst fields'.
      rewrite Hfound, fmap_app, fmap_cons. apply putAll_last.
      rewrite <- list_fmap_compose. intros (t & Hkey & Ht)%list_elem_of_fmap.
      apply (proj1 (Forall_forall _ _) Hlater) in Ht. simpl in Hkey.
      apply Ht. symmetry. revert Hkey. generalize (common.DeDot (resourcegroupstaggingapitypes.Key tag)),
        (common.DeDot (resourcegroupstaggingapitypes.Key t)).
      intros a b [= H]. done.
    + intros key Hkey. subst fields'. apply putAll_other.
      rewrite <- list_fmap_compose. intros (t & -> & Ht)%list_elem_of_fmap.
      by apply (proj1 (Forall_forall _ _) Hkey) in Ht.
Qed.

End InsertTags.

Lemma InsertTags_spec_witness :
  InsertTags (W := World.world)
    {["StandardStorage,arn:aws:s3/bucket-1" := World.emptyEvent]}
    "StandardStorage,arn:aws:s3/bucket-1"
    {["bucket-1" := Some [resourcegroupstaggingapitypes.mkTag "team.name" "core"]]}
  = Ret {["StandardStorage,arn:aws:s3/bucket-1" :=
            mb.mkEvent (Some {["aws.tags.team_name" := mapstr.Str "core"]}) None]}.
Proof.
  refine (eq_trans (proj1 (proj2 (InsertTags_spec (W := World.world)
    {["StandardStorage,arn:aws:s3/bucket-1" := World.emptyEvent]}
    "StandardStorage,arn:aws:s3/bucket-1"
    {["bucket-1" := Some [resourcegroupstaggingapitypes.mkTag "team.name" "core"]]})
    ∅ None _)) _).
  - vm_compute. reflexivity.
  - vm_compute. reflexivity.
Defined.

(** C9 as the spec states it fails: a tag field that the event already has is
    overwritten, and of two sub-identifiers with a tag of the same key the tag
    of the first is not what the field holds. *)
Lemma InsertTags_spec_counterexample :
  InsertTags (W := World.world)
    {["i-1" := mb.mkEvent (Some {["aws.tags.env" := mapstr.Str "dev"]}) None]}
    "i-1"
    {["i-1" := Some [resourcegroupstaggingapitypes.mkTag "env" "prod"]]}
  = Ret {["i-1" := mb.mkEvent (Some {["aws.tags.env" := mapstr.Str "prod"]}) None]}
  ∧ InsertTags (W := World.world)
      {["a,b" := World.emptyEvent]}
      "a,b"
      (<["a" := Some [resourcegroupstaggingapitypes.mkTag "env" "dev"]]>
         {["b" := Some [resourcegroupstaggingapitypes.mkTag "env" "prod"]]})
    = Ret {["a,b" := mb.mkEvent (Some {["aws.tags.env" := mapstr.Str "prod"]}) None]}.
Proof. split; vm_compute; reflexivity. Qed.

(** ** Traces *)

Lemma M_bind_ret {Event A B} (a : A) (f : A → M Event B) : M_bind (M_ret a) f = f a.
Proof. unfold M_bind, M_ret. by destruct (f a). Qed.

Lemma M_bind_nil {Event A B} (a : A) (f : A → M Event B) : M_bind ([], Ret a) f = f a.
Proof. apply M_bind_ret. Qed.

Lemma M_bind_Ret {Event A B} t (a : A) (f : A → M Event B) :
  M_bind (t, Ret a) f = (t ++ (f a).1, (f a).2).
Proof. unfold M_bind. by destruct (f a). Qed.

Lemma M_bind_Err {Event A B} t e (f : A → M Event B) : M_bind (t, Err e) f = (t, Err e).
Proof. reflexivity. Qed.

Lemma M_for_app {Event A S} (l1 l2 : list A) (body : S → A → M Event S) s :
  M_for (l1 ++ l2) body s = M_bind (M_for l1 body s) (M_for l2 body).
Proof.
  revert s. induction l1 as [|a l1 IH]; intros s.
  - cbn [app M_for]. by rewrite M_bind_ret.
  - cbn [app M_for]. destruct (body s a) as [t [s'| |]]; [|done..].
    rewrite !M_bind_Ret, IH.
    destruct (M_for l1 body s') as [t1 [s1| |]]; cbn [fst snd M_bind].
    + destruct (M_for l2 body s1). cbn [fst snd]. by rewrite app_assoc.
    + done.
    + done.
Qed.

(** A loop ends at the first iteration that returns an error: what the
    iterations before it wrote stays, the iterations after it do not run. *)
Lemma M_for_first_error {Event A S} (pre post : list A) (a : A)
    (body : S → A → M Event S) s s1 t1 t2 e :
  M_for pre body s = (t1, Ret s1) →
  body s1 a = (t2, Err e) →
  M_for (pre ++ a :: post) body s = (t1 ++ t2, Err e).
Proof.
  intros Hpre Ha. rewrite M_for_app, Hpre, M_bind_Ret. cbn [M_for].
  by rewrite Ha.
Qed.

Lemma noErr_bind {A B} (r : result A) (f : A → result B) :
  noErr r → (∀ a, noErr (f a)) → noErr (result_bind r f).
Proof. destruct r; simpl; auto. Qed.

Lemma noErr_result_for {A S} (l : list A) (body : S → A → result S) :
  (∀ s a, noErr (body s a)) → ∀ s, noErr (result_for l body s).
Proof.
  intros Hbody. induction l as [|a l IH]; intros s; [done|].
  cbn [result_for]. by apply noErr_bind.
Qed.

Lemma noErr_index {A} (l : list A) i : noErr (index l i).
Proof. unfold index. by destruct (l !! i). Qed.

Lemma noErr_indexZ {A} (l : list A) i : noErr (indexZ l i).
Proof. unfold indexZ. destruct (decide _); [done|apply noErr_index]. Qed.

Lemma noErr_GenerateFieldName `{U : strings.Unicode} namespace labels :
  noErr (GenerateFieldName namespace labels).
Proof.
  unfold GenerateFieldName. apply noErr_bind; [apply noErr_index|]. intros stat.
  destruct (StatisticLookup stat). apply noErr_bind.
  - unfold StripNamespace. apply noErr_bind; [apply noErr_index|done].
  - intros ns. apply noErr_bind; [apply noErr_index|done].
Qed.

Section NoError.
Context `{W : Collaborators}.

Lemma noErr_put (event : mb.Event float64 Time) key value : noErr (put event key value).
Proof. unfold put, mapstr.Put. by destruct (mb.RootFields event). Qed.

Lemma noErr_putAt (events : gmap string (mb.Event float64 Time)) identifier key value :
  noErr (putAt events identifier key value).
Proof.
  unfold putAt. destruct (events !! identifier); [|done].
  apply noErr_bind; [apply noErr_put|done].
Qed.

Lemma noErr_InsertRootFields_loop names : ∀ i dimValues (event : mb.Event float64 Time),
  noErr (InsertRootFields_loop i names dimValues event).
Proof.
  induction names as [|name names IH]; intros i dimValues event; [done|].
  cbn [InsertRootFields_loop]. apply noErr_bind; [apply noErr_index|]. intros value.
  apply noErr_bind; [apply noErr_put|]. intros event'. apply IH.
Qed.

Lemma noErr_InsertRootFields (event : mb.Event float64 Time) metricValue labels :
  noErr (InsertRootFields event metricValue labels).
Proof.
  unfold InsertRootFields.
  repeat (apply noErr_bind;
          [first [apply noErr_index|apply noErr_GenerateFieldName|apply noErr_put]|intros ?]).
  destruct (decide _); [done|].
  repeat (apply noErr_bind; [apply noErr_index|intros ?]).
  apply noErr_InsertRootFields_loop.
Qed.

Lemma noErr_insertRootFieldsAt (events : gmap string (mb.Event float64 Time))
    identifier values idx labels :
  noErr (insertRootFieldsAt events identifier values idx labels).
Proof.
  unfold insertRootFieldsAt. apply noErr_bind; [apply noErr_indexZ|]. intros value.
  apply noErr_bind; [apply noErr_InsertRootFields|done].
Qed.

Lemma noErr_InsertTags (events : gmap string (mb.Event float64 Time)) identifier rtm :
  noErr (InsertTags events identifier rtm).
Proof.
  unfold InsertTags. apply noErr_result_for. intros events' v. simpl.
  destruct (decide _); [|done]. apply noErr_result_for. intros ??. apply noErr_putAt.
Qed.

Lemma noErr_createEvents_plain m regionName timestamp
    (events : gmap string (mb.Event float64 Time)) r :
  noErr (createEvents_plain m regionName timestamp events r).
Proof.
  unfold createEvents_plain. destruct (decide _); [done|].
  destruct (CheckTimestampInArray _ _) as [[] idx]; [|done].
  destruct (decide _).
  - apply noErr_bind; [|intros ?; apply noErr_insertRootFieldsAt].
    unfold fallbackIdentifier. apply noErr_bind; [apply noErr_index|done].
  - apply noErr_bind; [apply noErr_index|intros ?; apply noErr_insertRootFieldsAt].
Qed.

Lemma noErr_createEvents_tagged m regionName timestamp tagsFilter rtm
    (events : gmap string (mb.Event float64 Time)) r :
  noErr (createEvents_tagged m regionName timestamp tagsFilter rtm events r).
Proof.
  unfold createEvents_tagged. destruct (decide _); [done|].
  destruct (CheckTimestampInArray _ _) as [[] idx]; [|done].
  destruct (decide _).
  - destruct (decide _); [done|].
    apply noErr_bind; [|intros ?; apply noErr_insertRootFieldsAt].
    unfold fallbackIdentifier. apply noErr_bind; [apply noErr_index|done].
  - apply noErr_bind; [apply noErr_index|]. intros identifierValue.
    destruct (_ && _); [done|].
    apply noErr_bind; [apply noErr_insertRootFieldsAt|intros ?; apply noErr_InsertTags].
Qed.

(** The pass of a resource type never returns an error: a failure of
    GetResourcesTags is logged, and the pass goes on with the map it got. *)
Lemma createEvents_pass_tags m svcResourceAPI regionName timestamp results
    (events : gmap string (mb.Event float64 Time)) resourceType tagsFilter :
  noErr (createEvents_pass m svcResourceAPI regionName timestamp results events
           (resourceType, tagsFilter)).2
  ∧ ∀ rtm e,
      GetResourcesTags svcResourceAPI [resourceType] = (rtm, Some e) →
      (createEvents_pass m svcResourceAPI regionName timestamp results events
         (resourceType, tagsFilter)).1
      = [Logged Info
           (wrapError ("getResourcesTags failed, skipping region " +:+ regionName) e)].
Proof.
  unfold createEvents_pass.
  destruct (GetResourcesTags svcResourceAPI [resourceType]) as [rtm err].
  assert (Hrun : ∀ rtm', noErr (result_for results
    (createEvents_tagged m regionName timestamp tagsFilter rtm') events)).
  { intros rtm'. apply noErr_result_for. intros ??. apply noErr_createEvents_tagged. }
  split.
  - destruct err as [e|]; cbn [M_bind M_log M_ret];
      destruct (_ && _); cbn [M_ret M_lift snd]; try done; apply Hrun.
  - intros rtm' e [= <- ->]. cbn [M_bind M_log].
    by destruct (_ && _).
Qed.

Lemma noErr_M_for {A S} (l : list A)
    (body : S → A → M (mb.Event float64 Time) S) :
  (∀ s a, noErr (body s a).2) → ∀ s, noErr (M_for l body s).2.
Proof.
  intros Hbody. induction l as [|a l IH]; intros s; [done|].
  cbn [M_for]. specialize (Hbody s a).
  destruct (body s a) as [t [s'| |]]; [|done..].
  rewrite M_bind_Ret. apply IH.
Qed.

(** [createEvents] returns an error exactly when it has queries and
    GetMetricData fails; it has then logged nothing. *)
Lemma createEvents_error m svcCloudwatch svcResourceAPI listMetricWithStatsTotal
    resourceTypeTagFilters regionName startTime endTime :
  let queries :=
    CreateMetricDataQueries listMetricWithStatsTotal (Period m) in
  (∀ t e',
     createEvents m svcCloudwatch svcResourceAPI listMetricWithStatsTotal
       resourceTypeTagFilters regionName startTime endTime = (t, Err e') →
     ∃ e, queries ≠ []
          ∧ GetMetricDataResults queries svcCloudwatch startTime endTime = Err e
          ∧ t = [] ∧ e' = wrapError "getMetricDataResults failed" e)
  ∧ (∀ e,
       queries ≠ [] →
       GetMetricDataResults queries svcCloudwatch startTime endTime = Err e →
       createEvents m svcCloudwatch svcResourceAPI listMetricWithStatsTotal
         resourceTypeTagFilters regionName startTime endTime
       = ([], Err (wrapError "getMetricDataResults failed" e))).
Proof.
  intros queries. unfold createEvents. fold queries.
  destruct (decide (length queries = 0)) as [Hlen|Hlen].
  { split; [done|]. intros e Hq. by destruct queries. }
  destruct (GetMetricDataResults queries svcCloudwatch startTime endTime)
    as [results|e|] eqn:Hget; cbn [M_lift M_wrap M_bind].
  - split; [|done]. intros t e' Hrun. exfalso.
    destruct (IsZero (FindTimestamp results)); [done|].
    destruct (decide (size resourceTypeTagFilters = 0)).
    + cbn [M_lift M_bind] in Hrun. injection Hrun as _ Hrun.
      pose proof (noErr_result_for results (createEvents_plain m regionName
        (FindTimestamp results)) (noErr_createEvents_plain _ _ _) ∅) as Hno.
      by rewrite Hrun in Hno.
    + pose proof (noErr_M_for (rangeMap resourceTypeTagFilters)
        (createEvents_pass m svcResourceAPI regionName (FindTimestamp results) results)
        (λ s '(rt, tf), proj1 (createEvents_pass_tags _ _ _ _ _ s rt tf)) ∅) as Hno.
      destruct (M_for _ _ _) as [t' r']. cbn [app] in Hrun.
      injection Hrun as _ ->. done.
  - split.
    + intros t e' [= <- <-]. exists e. split; [by destruct queries|done].
    + by intros e0 _ [= ->].
  - split; [done|]. by intros.
Qed.

End NoError.

(** ** Fetch: failures of the AWS calls *)

Section FetchFailures.
Context `{W : Collaborators}.

Lemma clientsOf_clients m config regionName :
  clientsOf m config regionName
  = ([], Ret (awssdk.mkConfig regionName, clientOf config regionName,
              clientOf config regionName)).
Proof. reflexivity. Qed.

Lemma Fetch_loops m now config :
  checkStatistics m = Ret tt →
  ModuleConfig m = Ret config →
  Fetch m now
  = M_bind
      (Fetch_exactLoop m config (readCloudwatchConfig m).1
         (GetStartTimeEndTime now (Period m) (Latency m)).1
         (GetStartTimeEndTime now (Period m) (Latency m)).2 (RegionsList m))
      (λ _, Fetch_discoverLoop m config (readCloudwatchConfig m).2
              (GetStartTimeEndTime now (Period m) (Latency m)).1
              (GetStartTimeEndTime now (Period m) (Latency m)).2 (RegionsList m)).
Proof.
  intros Hstat Hconf. unfold Fetch.
  destruct (GetStartTimeEndTime now (Period m) (Latency m)) as [startTime endTime].
  destruct (readCloudwatchConfig m) as [listMetricDetailTotal namespaceDetailTotal].
  rewrite Hstat, Hconf. unfold M_wrap, M_lift. by rewrite !M_bind_nil.
Qed.

Lemma Fetch_exact_error m config listMetricDetailTotal startTime endTime regionName e :
  CreateMetricDataQueries (MetricsWithStats listMetricDetailTotal) (Period m)
    ≠ [] →
  GetMetricDataResults
    (CreateMetricDataQueries (MetricsWithStats listMetricDetailTotal)
       (Period m))
    (clientOf config regionName) startTime endTime = Err e →
  Fetch_exact m config listMetricDetailTotal startTime endTime regionName
  = ([], Err (fetchError regionName e)).
Proof.
  intros Hq Hget. unfold Fetch_exact. rewrite clientsOf_clients, M_bind_nil.
  rewrite (proj2 (createEvents_error _ _ _ _ _ _ _ _) e Hq Hget).
  reflexivity.
Qed.

Lemma Fetch_namespace_error m config startTime endTime regionName beatsConfig
    svcCloudwatch svcResourceAPI namespace details listed e :
  GetListMetricsOutput namespace regionName svcCloudwatch = Ret listed →
  CreateMetricDataQueries (FilterListMetricsOutput listed details) (Period m)
    ≠ [] →
  GetMetricDataResults
    (CreateMetricDataQueries (FilterListMetricsOutput listed details)
       (Period m))
    svcCloudwatch startTime endTime = Err e →
  Fetch_namespace m config startTime endTime regionName beatsConfig
    svcCloudwatch svcResourceAPI (namespace, details)
  = ([], Err (fetchError regionName e)).
Proof.
  intros Hlist Hq Hget. unfold Fetch_namespace. rewrite Hlist.
  destruct (decide (length listed = 0)) as [Hnil|_].
  { apply nil_length_inv in Hnil. subst listed. by destruct Hq. }
  rewrite (proj2 (createEvents_error _ _ _ _ _ _ _ _) e Hq Hget).
  reflexivity.
Qed.

(** C1, as the code has it.  In an invocation whose configuration is valid:
    a ListMetrics error for a namespace in a region is logged, and only what
    this namespace would have contributed in this region is skipped; a
    GetResourcesTags error is logged and never makes the pass of its resource
    type return an error.  A GetMetricData error is not local: [createEvents]
    returns it and [Fetch] returns at once with this error wrapped, so that
    the events reported before stay reported, and nothing is reported for the
    namespaces and regions that were still to come.  When neither loop returns
    an error, [Fetch] returns nil after all that the two loops report. *)
Theorem Fetch_failures (m : MetricSet) (now : Time) (config : aws.Config)
    (Hstat : checkStatistics m = Ret tt)
    (Hconf : ModuleConfig m = Ret config) :
  let startTime := (GetStartTimeEndTime now (Period m) (Latency m)).1 in
  let endTime := (GetStartTimeEndTime now (Period m) (Latency m)).2 in
  let exact := (readCloudwatchConfig m).1 in
  let discover := (readCloudwatchConfig m).2 in
  let exactLoop := Fetch_exactLoop m config exact startTime endTime in
  let discoverLoop := Fetch_discoverLoop m config discover startTime endTime in
  (∀ regionName beatsConfig svcCloudwatch svcResourceAPI namespace details e,
     GetListMetricsOutput namespace regionName svcCloudwatch = Err e →
     Fetch_namespace m config startTime endTime regionName beatsConfig
       svcCloudwatch svcResourceAPI (namespace, details)
     = ([Logged Info e], Ret tt))
  ∧ (∀ svcResourceAPI regionName timestamp results events resourceType tagsFilter,
       noErr (createEvents_pass m svcResourceAPI regionName timestamp results events
                (resourceType, tagsFilter)).2
       ∧ ∀ rtm e,
           GetResourcesTags svcResourceAPI [resourceType] = (rtm, Some e) →
           (createEvents_pass m svcResourceAPI regionName timestamp results events
              (resourceType, tagsFilter)).1
           = [Logged Info
                (wrapError ("getResourcesTags failed, skipping region " +:+ regionName)
                   e)])
  ∧ (∀ pre regionName post t1 e,
       RegionsList m = pre ++ regionName :: post →
       exactLoop pre = (t1, Ret tt) →
       CreateMetricDataQueries (MetricsWithStats exact) (Period m) ≠ [] →
       GetMetricDataResults
         (CreateMetricDataQueries (MetricsWithStats exact) (Period m))
         (clientOf config regionName) startTime endTime = Err e →
       Fetch m now = (t1, Err (fetchError regionName e)))
  ∧ (∀ t0 pre regionName post t1 npre namespace details npost t2 listed e,
       exactLoop (RegionsList m) = (t0, Ret tt) →
       RegionsList m = pre ++ regionName :: post →
       discoverLoop pre = (t1, Ret tt) →
       rangeMap discover = npre ++ (namespace, details) :: npost →
       M_for npre
         (λ _ entry,
            Fetch_namespace m config startTime endTime regionName
              (awssdk.mkConfig regionName) (clientOf config regionName)
              (clientOf config regionName) entry)
         tt = (t2, Ret tt) →
       GetListMetricsOutput namespace regionName (clientOf config regionName)
       = Ret listed →
       CreateMetricDataQueries (FilterListMetricsOutput listed details)
         (Period m) ≠ [] →
       GetMetricDataResults
         (CreateMetricDataQueries (FilterListMetricsOutput listed details)
            (Period m))
         (clientOf config regionName) startTime endTime = Err e →
       Fetch m now = (t0 ++ t1 ++ t2, Err (fetchError regionName e)))
  ∧ (∀ t0 t1,
       exactLoop (RegionsList m) = (t0, Ret tt) →
       discoverLoop (RegionsList m) = (t1, Ret tt) →
       Fetch m now = (t0 ++ t1, Ret tt)).
Proof.
  intros startTime endTime exact discover exactLoop discoverLoop.
  pose proof (Fetch_loops m now config Hstat Hconf) as HFetch.
  fold startTime endTime exact discover in HFetch. fold exactLoop discoverLoop in HFetch.
  split; [|split; [|split; [|split]]].
  - intros regionName beatsConfig svcCloudwatch svcResourceAPI namespace details e Hlist.
    unfold Fetch_namespace. by rewrite Hlist.
  - intros. apply createEvents_pass_tags.
  - intros pre regionName post t1 e Hregions Hpre Hq Hget. rewrite HFetch, Hregions.
    subst exactLoop. unfold Fetch_exactLoop in *.
    destruct (decide (length (MetricsWithStats exact) ≠ 0)) as [_|Hnil%dec_stable].
    + rewrite (M_for_first_error pre post regionName _ tt tt t1 [] (fetchError regionName e))
        by (done || by apply Fetch_exact_error).
      by rewrite app_nil_r.
    + apply nil_length_inv in Hnil. rewrite Hnil in Hq. by destruct Hq.
  - intros t0 pre regionName post t1 npre namespace details npost t2 listed e
      Hexact Hregions Hpre Hrange Hnpre Hlist Hq Hget.
    rewrite HFetch, Hexact, M_bind_Ret. subst discoverLoop. unfold Fetch_discoverLoop in *.
    rewrite Hregions.
    rewrite (M_for_first_error pre post regionName _ tt tt t1 t2 (fetchError regionName e));
      [done|done|].
    unfold Fetch_discover. rewrite clientsOf_clients, M_bind_nil.
    rewrite Hrange.
    rewrite (M_for_first_error npre npost (namespace, details) _ tt tt t2 []
               (fetchError regionName e)); [by rewrite app_nil_r|done|].
    by eapply Fetch_namespace_error.
  - intros t0 t1 Hexact Hdiscover. by rewrite HFetch, Hexact, M_bind_Ret, Hdiscover.
Qed.

End FetchFailures.

Lemma Fetch_failures_witness :
  (Fetch (W := World.world) fourRegions 1000%Z).2
  = Err (fetchError "us-east-1" (errorString "GetMetricData: throttled"))
  ∧ (Fetch (W := World.world) fourRegions 1000%Z).1
    = [Logged Info (errorString "ListMetrics: timeout");
       Reported
         (mb.mkEvent
            (Some (<["aws.dimensions.InstanceId" := mapstr.Str "i-1"]>
                     (<["aws.cloudwatch.namespace" := mapstr.Str "AWS/EC2"]>
                        (<["aws.ec2.metrics.CPUUtilization.avg" := mapstr.Float 42%Z]>
                           (<["cloud.region" := mapstr.Str "eu-west-1"]>
                              (<["cloud.account.id" := mapstr.Str "111"]>
                                 {["cloud.provider" := mapstr.Str "aws"]}))))))
            (Some 1000%Z))].
Proof.
  assert (∃ t, Fetch (W := World.world) fourRegions 1000%Z
               = (t, Err (fetchError "us-east-1" (errorString "GetMetricData: throttled")))
               ∧ t = [Logged Info (errorString "ListMetrics: timeout");
                      Reported
                        (mb.mkEvent
                           (Some (<["aws.dimensions.InstanceId" := mapstr.Str "i-1"]>
                              (<["aws.cloudwatch.namespace" := mapstr.Str "AWS/EC2"]>
                                 (<["aws.ec2.metrics.CPUUtilization.avg" := mapstr.Float 42%Z]>
                                    (<["cloud.region" := mapstr.Str "eu-west-1"]>
                                       (<["cloud.account.id" := mapstr.Str "111"]>
                                          {["cloud.provider" := mapstr.Str "aws"]}))))))
                           (Some 1000%Z))])
    as (t & Hrun & Ht).
  { eexists. split.
    - eapply (proj1 (proj2 (proj2 (proj2 (Fetch_failures (W := World.world) fourRegions 1000%Z
        (aws.mkConfig false) eq_refl eq_refl))))
        [] ["ap-south-1"; "eu-west-1"] "us-east-1" ["eu-west-1"] _
        [] "AWS/EC2" _ [] []).
      + vm_compute. reflexivity.
      + reflexivity.
      + vm_compute. reflexivity.
      + vm_compute. reflexivity.
      + reflexivity.
      + vm_compute. reflexivity.
      + vm_compute. discriminate.
      + vm_compute. reflexivity.
    - vm_compute. reflexivity. }
  rewrite Hrun. by split.
Defined.

(** C1 as the spec states it fails: GetMetricData fails in the first region,
    and [Fetch] returns this error without reporting the event of the second
    region, which it reports when the first region is left out. *)
Lemma Fetch_failures_counterexample :
  Fetch (W := World.world) (metricSetOf ["us-east-1"; "eu-west-1"] [exactEntry]) 1000%Z
  = ([], Err (fetchError "us-east-1" (errorString "GetMetricData: throttled")))
  ∧ Fetch (W := World.world) (metricSetOf ["eu-west-1"] [exactEntry]) 1000%Z
    = ([Reported
          (mb.mkEvent
             (Some (<["aws.dimensions.InstanceId" := mapstr.Str "i-1"]>
                      (<["aws.cloudwatch.namespace" := mapstr.Str "AWS/EC2"]>
                         (<["aws.ec2.metrics.CPUUtilization.avg" := mapstr.Float 42%Z]>
                            (<["cloud.region" := mapstr.Str "eu-west-1"]>
                               (<["cloud.account.id" := mapstr.Str "111"]>
                                  {["cloud.provider" := mapstr.Str "aws"]}))))))
             (Some 1000%Z))],
       Ret tt).
Proof. split; vm_compute; reflexivity. Qed.

(** ** Examples of the specification *)

Example GenerateFieldName_ec2 `{U : strings.Unicode} :
  GenerateFieldName "AWS/EC2" ["CPUUtilization"; "AWS/EC2"; "avg"]
  = Ret "aws.ec2.metrics.CPUUtilization.avg"
  ∧ GenerateFieldName "AWS/EC2" ["disk.used"; "AWS/EC2"; "Average"]
    = Ret "aws.ec2.metrics.disk_used.avg".
Proof. split; reflexivity. Qed.

Example exact_entry_is_exact :
  readCloudwatchConfig
    (metricSetOf ["eu-west-1"]
       [mkConfig "AWS/EC2" (Some ["CPUUtilization"])
          (Some [mkDimension "InstanceId" "i-123"]) "" (Some ["Average"])])
  = (mkListMetricWithDetail
       [mkMetricsWithStatistics
          (types.mkMetric "AWS/EC2" "CPUUtilization" [types.mkDimension "InstanceId" "i-123"])
          ["Average"]] ∅,
     ∅).
Proof. reflexivity. Qed.

Example wildcard_entry_is_discovered :
  readCloudwatchConfig
    (metricSetOf ["eu-west-1"]
       [mkConfig "AWS/EC2" (Some ["CPUUtilization"])
          (Some [mkDimension "InstanceId" "*"]) "" (Some ["Average"])])
  = (mkListMetricWithDetail [] ∅,
     {["AWS/EC2" := [mkNamespaceDetail "" (Some ["CPUUtilization"]) [] ["Average"]
                       (Some [types.mkDimension "InstanceId" "*"])]]}).
Proof. vm_compute. reflexivity. Qed.

Example discovered_metric_is_kept :
  FilterListMetricsOutput
    [types.mkMetric "AWS/EC2" "CPUUtilization" [types.mkDimension "InstanceId" "i-1"];
     types.mkMetric "AWS/EC2" "NetworkIn" [types.mkDimension "InstanceId" "i-1"]]
    [mkNamespaceDetail "" (Some ["CPUUtilization"]) [] ["Average"]
       (Some [types.mkDimension "InstanceId" "*"])]
  = [mkMetricsWithStatistics
       (types.mkMetric "AWS/EC2" "CPUUtilization" [types.mkDimension "InstanceId" "i-1"])
       ["Average"]].
Proof. vm_compute. reflexivity. Qed.

(** * Further properties of the metricset *)

(** ** checkStatistics *)

Lemma checkStatistics_fold (configs : list Config) : ∀ acc : result unit,
  foldl (λ acc config,
           foldl (λ acc stat,
                    match acc with
                    | Ret _ =>
                        if snd (StatisticLookup stat) then Ret tt
                        else Err (errorString
                               ("statistic method specified is not valid: " +:+ stat))
                    | _ => acc
                    end)
                 acc (elems (Statistic config)))
        acc configs
  = foldl (λ acc stat,
             match acc with
             | Ret _ => if (StatisticLookup stat).2 then Ret tt
                        else Err (invalidStatistic stat)
             | _ => acc
             end)
          acc (config ← configs; elems (Statistic config)).
Proof.
  induction configs as [|config configs IH]; intros acc; [done|].
  rewrite bind_cons, foldl_app. cbn [foldl]. apply IH.
Qed.

Lemma checkStatistics_flat (m : MetricSet) :
  checkStatistics m
  = foldl (λ acc stat,
             match acc with
             | Ret _ => if (StatisticLookup stat).2 then Ret tt
                        else Err (invalidStatistic stat)
             | _ => acc
             end)
          (Ret tt) (configuredStatistics m).
Proof. apply checkStatistics_fold. Qed.

Lemma checkStatistics_stuck e stats :
  foldl (λ acc stat,
           match acc with
           | Ret _ => if (StatisticLookup stat).2 then Ret tt
                      else Err (invalidStatistic stat)
           | _ => acc
           end)
        (Err e) stats
  = Err e.
Proof. by induction stats. Qed.

Lemma checkStatistics_run stats :
  foldl (λ acc stat,
           match acc with
           | Ret _ => if (StatisticLookup stat).2 then Ret tt
                      else Err (invalidStatistic stat)
           | _ => acc
           end)
        (Ret tt) stats
  = Ret tt
  ↔ Forall validStatistic stats.
Proof.
  induction stats as [|stat stats IH]; [done|].
  cbn [foldl]. rewrite Forall_cons. unfold validStatistic at 1.
  destruct (StatisticLookup stat).2.
  - rewrite IH. tauto.
  - rewrite checkStatistics_stuck. split; [done|]. by intros [? _].
Qed.

Lemma checkStatistics_first_invalid (m : MetricSet) before stat after :
  configuredStatistics m = before ++ stat :: after →
  Forall validStatistic before →
  ¬ validStatistic stat →
  checkStatistics m = Err (invalidStatistic stat).
Proof.
  rewrite checkStatistics_flat. intros -> Hbefore Hstat.
  rewrite foldl_app. rewrite (proj2 (checkStatistics_run before) Hbefore).
  cbn [foldl]. unfold validStatistic in Hstat.
  destruct (StatisticLookup stat).2; [done|]. apply checkStatistics_stuck.
Qed.

(** [checkStatistics] returns nil exactly when every statistic of every entry
    is one that [StatisticLookup] accepts; otherwise its error names the first
    statistic, in the order of the configuration, that is not accepted. *)
Theorem checkStatistics_valid (m : MetricSet) :
  (checkStatistics m = Ret tt ↔ Forall validStatistic (configuredStatistics m))
  ∧ (∀ before stat after,
       configuredStatistics m = before ++ stat :: after →
       Forall validStatistic before →
       ¬ validStatistic stat →
       checkStatistics m = Err (invalidStatistic stat)).
Proof.
  split; [rewrite checkStatistics_flat; apply checkStatistics_run|].
  apply checkStatistics_first_invalid.
Qed.

Lemma checkStatistics_valid_witness :
  checkStatistics
    (metricSetOf ["eu-west-1"]
       [mkConfig "AWS/EC2" None None "" (Some ["Average"; "p99"]);
        mkConfig "AWS/S3" None None "" (Some ["Median"; "bogus"])])
  = Err (invalidStatistic "Median").
Proof.
  refine (proj2 (checkStatistics_valid
    (metricSetOf ["eu-west-1"]
       [mkConfig "AWS/EC2" None None "" (Some ["Average"; "p99"]);
        mkConfig "AWS/S3" None None "" (Some ["Median"; "bogus"])]))
    ["Average"; "p99"] "Median" ["bogus"] eq_refl _ _).
  - repeat constructor.
  - unfold validStatistic. vm_compute. discriminate.
Defined.

(** ** ConfigDimensionValueContainsWildcard *)

(** [ConfigDimensionValueContainsWildcard] is true exactly when the value of
    some dimension is the wildcard itself; a value that only holds an
    asterisk among other characters does not count. *)
Theorem ConfigDimensionValueContainsWildcard_iff (dim : list Dimension) :
  (ConfigDimensionValueContainsWildcard dim = true
   ↔ ∃ d, d ∈ dim ∧ Value d = dimensionValueWildcard)
  ∧ ConfigDimensionValueContainsWildcard [mkDimension "InstanceId" "i-*"] = false.
Proof.
  split; [|reflexivity].
  induction dim as [|d dim IH]; simpl.
  - split; [done|]. by intros (d & Hd%elem_of_nil & _).
  - destruct (decide (Value d = dimensionValueWildcard)) as [Hd|Hd].
    + split; [|done]. intros _. exists d. split; [left|done].
    + rewrite IH. split.
      * intros (d' & Hin & Hv). exists d'. split; [by right|done].
      * intros (d' & [->|Hin]%elem_of_cons & Hv); [done|]. by exists d'.
Qed.

(** ** StripNamespace and GenerateFieldName *)

Lemma fields_free_of c s : Forall (λ f, strings.Contains c f = false) (fields c s).
Proof.
  induction s as [|d s IH]; [by repeat constructor|].
  cbn [fields]. destruct (decide (d = c)) as [->|Hd]; [by constructor|].
  destruct IH as [|f fs Hf Hfs]; simpl.
  - repeat constructor. simpl. by rewrite decide_False.
  - constructor; [|done]. simpl. by rewrite decide_False.
Qed.

Lemma lowerByte_slash c : c ≠ "/"%char → strings.lowerByte c ≠ "/"%char.
Proof. destruct c as [[] [] [] [] [] [] [] []]; vm_compute; congruence. Qed.

Lemma lowerByte_idemp c : strings.lowerByte (strings.lowerByte c) = strings.lowerByte c.
Proof. by destruct c as [[] [] [] [] [] [] [] []]. Qed.

Lemma lowerByte_ASCII c :
  (nat_of_ascii c <? 128)%nat = true →
  (nat_of_ascii (strings.lowerByte c) <? 128)%nat = true.
Proof. destruct c as [[] [] [] [] [] [] [] []]; vm_compute; congruence. Qed.

Lemma lowerASCII_slash s :
  strings.Contains "/"%char s = false →
  strings.Contains "/"%char (strings.lowerASCII s) = false.
Proof.
  induction s as [|c s IH]; [done|]. simpl.
  destruct (decide (c = "/"%char)) as [|Hc]; [done|]. intros Hs.
  rewrite decide_False by by apply lowerByte_slash. by apply IH.
Qed.

Lemma lowerASCII_idemp s :
  strings.lowerASCII (strings.lowerASCII s) = strings.lowerASCII s.
Proof. induction s as [|c s IH]; [done|]. simpl. by rewrite lowerByte_idemp, IH. Qed.

Lemma lowerASCII_isASCII s :
  strings.isASCII s = true → strings.isASCII (strings.lowerASCII s) = true.
Proof.
  induction s as [|c s IH]; [done|]. cbn [strings.isASCII strings.lowerASCII].
  intros [Hc Hs]%andb_prop. by rewrite lowerByte_ASCII, IH.
Qed.

Lemma ToLower_ASCII `{U : strings.Unicode} s :
  strings.isASCII s = true → strings.ToLower s = strings.lowerASCII s.
Proof. unfold strings.ToLower. by intros ->. Qed.

Lemma fields_isASCII c s :
  strings.isASCII s = true → Forall (λ f, strings.isASCII f = true) (fields c s).
Proof.
  induction s as [|d s IH]; [by repeat constructor|].
  cbn [strings.isASCII fields]. intros [Hd Hs]%andb_prop. specialize (IH Hs).
  destruct (decide (d = c)); [by constructor|].
  destruct IH as [|f fs Hf Hfs]; simpl.
  - repeat constructor. simpl. by rewrite Hd.
  - constructor; [|done]. simpl. by rewrite Hd, Hf.
Qed.

(** [StripNamespace] never panics: it returns the result of [strings.ToLower]
    on the part of the namespace after its last slash, or on the whole
    namespace when there is no slash.  For a namespace of ASCII bytes the
    result is a string of ASCII bytes that holds no slash and that
    [strings.ToLower] leaves as it is. *)
Theorem StripNamespace_segment `{U : strings.Unicode} (namespace : string) :
  ∃ segment,
    StripNamespace namespace = Ret segment
    ∧ (strings.Contains "/"%char namespace = false
       → segment = strings.ToLower namespace)
    ∧ (∀ before after,
         namespace = before +:+ "/" +:+ after →
         strings.Contains "/"%char after = false →
         segment = strings.ToLower after)
    ∧ (strings.isASCII namespace = true →
       strings.isASCII segment = true
       ∧ strings.Contains "/"%char segment = false
       ∧ strings.ToLower segment = segment).
Proof.
  exists (lastSegment namespace).
  pose proof (StripNamespace_last namespace) as Hret.
  split; [exact Hret|]. unfold lastSegment. split; [|split].
  - intros Hfree. by rewrite fields_free.
  - intros before after -> Hafter. rewrite append_cons, append_nil_l.
    assert (Hlast : ∀ s, last (fields "/"%char (s +:+ String "/" after)) = Some after).
    { intros s. induction s as [|c s IH].
      - rewrite append_nil_l. cbn [fields]. rewrite decide_True by done.
        by rewrite fields_free.
      - rewrite append_cons. cbn [fields]. destruct (decide (c = "/"%char)).
        + pose proof (fields_nonempty "/"%char (s +:+ String "/" after)).
          destruct (fields "/"%char (s +:+ String "/" after)) eqn:Hf; [done|].
          rewrite last_cons. by rewrite IH.
        + destruct (fields "/"%char (s +:+ String "/" after)) as [|f [|g fs]] eqn:Hf.
          * by destruct (fields_nonempty "/"%char (s +:+ String "/" after)).
          * simpl in IH. injection IH as ->. simpl in Hf.
            pose proof (fields_length_app "/"%char s (String "/" after)) as Hlen.
            rewrite Hf in Hlen. cbn [fields] in Hlen.
            rewrite decide_True in Hlen by done.
            pose proof (fields_length_pos "/"%char s).
            pose proof (fields_length_pos "/"%char after). simpl in Hlen. lia.
          * simpl. simpl in IH. exact IH. }
    by rewrite Hlast.
  - intros Hascii.
    assert (Hseg : strings.isASCII (default "" (last (fields "/"%char namespace))) = true
                   ∧ strings.Contains "/"%char
                       (default "" (last (fields "/"%char namespace))) = false).
    { destruct (last (fields "/"%char namespace)) as [f|] eqn:Hlast; [|done].
      apply last_Some in Hlast as (l' & Hl').
      pose proof (fields_free_of "/"%char namespace) as Hfree.
      pose proof (fields_isASCII "/"%char namespace Hascii) as Hall.
      rewrite Hl' in Hfree, Hall.
      apply Forall_app in Hfree as [_ Hfree]. apply Forall_app in Hall as [_ Hall].
      split; [by inversion Hall|by inversion Hfree]. }
    destruct Hseg as [Hseg Hslash]. rewrite (ToLower_ASCII _ Hseg).
    split; [by apply lowerASCII_isASCII|]. split; [by apply lowerASCII_slash|].
    rewrite ToLower_ASCII by by apply lowerASCII_isASCII. apply lowerASCII_idemp.
Qed.

Lemma StripNamespace_segment_witness :
  StripNamespace (U := World.unicodeTables) "AWS/EC2" = Ret "ec2"
  ∧ StripNamespace (U := World.unicodeTables) "Custom/My/App" = Ret "app"
  ∧ strings.ToLower (U := World.unicodeTables) "ec2" = "ec2".
Proof.
  destruct (StripNamespace_segment (U := World.unicodeTables) "AWS/EC2")
    as (s1 & H1 & _ & Hs1 & Ha1).
  destruct (StripNamespace_segment (U := World.unicodeTables) "Custom/My/App")
    as (s2 & H2 & _ & Hs2 & _).
  pose proof (Hs1 "AWS" "EC2" eq_refl eq_refl) as E1.
  pose proof (Hs2 "Custom/My" "App" eq_refl eq_refl) as E2.
  destruct (Ha1 eq_refl) as (_ & _ & Hl1).
  rewrite H1, H2. rewrite E1 in Hl1 |- *. rewrite E2.
  split; [reflexivity|]. split; [reflexivity|exact Hl1].
Defined.

(** [GenerateFieldName] panics exactly when the label has fewer than three
    fields; with three or more it returns the name built from the first and
    the third field and the namespace it is given. *)
Theorem GenerateFieldName_bounds `{U : strings.Unicode}
    (namespace : string) (labels : list string) :
  (GenerateFieldName namespace labels = Panic ↔ (length labels < 3)%nat)
  ∧ (∀ name second stat rest,
       labels = name :: second :: stat :: rest →
       GenerateFieldName namespace labels = Ret (fieldNameOf name namespace stat)).
Proof.
  assert (Hret : ∀ name second stat rest,
    GenerateFieldName namespace (name :: second :: stat :: rest)
    = Ret (fieldNameOf name namespace stat)).
  { intros. unfold GenerateFieldName, fieldNameOf.
    cbn [index lookup list_lookup statisticIdx metricNameIdx result_bind].
    destruct (StatisticLookup stat) as [statMethod ok].
    by rewrite StripNamespace_last. }
  split.
  - destruct labels as [|name [|second [|stat rest]]]; simpl; try (split; [lia|done]).
    rewrite Hret. split; [done|lia].
  - intros name second stat rest ->. apply Hret.
Qed.

Lemma GenerateFieldName_bounds_witness :
  GenerateFieldName (U := World.unicodeTables) "AWS/EC2" ["CPUUtilization"; "AWS/EC2"] = Panic
  ∧ GenerateFieldName (U := World.unicodeTables) "AWS/EC2"
      ["CPUUtilization"; "AWS/EC2"; "Maximum"; "x"]
    = Ret "aws.ec2.metrics.CPUUtilization.max".
Proof.
  split.
  - apply (proj1 (GenerateFieldName_bounds (U := World.unicodeTables) "AWS/EC2"
      ["CPUUtilization"; "AWS/EC2"])).
    simpl. lia.
  - exact (proj2 (GenerateFieldName_bounds (U := World.unicodeTables) "AWS/EC2"
      ["CPUUtilization"; "AWS/EC2"; "Maximum"; "x"]) _ _ _ _ eq_refl).
Defined.

(** ** Fetch: an invalid configuration *)

(** An invalid statistic anywhere in the configuration, or a module
    configuration that cannot be unpacked, makes [Fetch] return the error
    before anything is reported or logged above the debug level: the trace of
    [Fetch] is empty, whatever the regions, the other entries and the answers
    of the collaborators are. *)
Theorem Fetch_invalid_configuration `{W : Collaborators} (m : MetricSet) (now : Time) :
  (∀ before stat after,
     configuredStatistics m = before ++ stat :: after →
     Forall validStatistic before →
     ¬ validStatistic stat →
     Fetch m now
     = ([], Err (wrapError "checkStatistics failed" (invalidStatistic stat))))
  ∧ (∀ e,
       Forall validStatistic (configuredStatistics m) →
       ModuleConfig m = Err e →
       Fetch m now = ([], Err e)).
Proof.
  split.
  - intros before stat after Hstats Hbefore Hstat. unfold Fetch.
    destruct (GetStartTimeEndTime now (Period m) (Latency m)) as [startTime endTime].
    by rewrite (checkStatistics_first_invalid m before stat after).
  - intros e Hvalid Hconf. unfold Fetch.
    destruct (GetStartTimeEndTime now (Period m) (Latency m)) as [startTime endTime].
    destruct (readCloudwatchConfig m) as [listMetricDetailTotal namespaceDetailTotal].
    rewrite checkStatistics_flat, (proj2 (checkStatistics_run _) Hvalid), Hconf.
    reflexivity.
Qed.

Lemma Fetch_invalid_configuration_witness :
  Fetch (W := World.world)
    (metricSetOf ["eu-west-1"; "us-east-1"]
       [exactEntry; mkConfig "AWS/S3" None None "" (Some ["Median"])]) 1000%Z
  = ([], Err (wrapError "checkStatistics failed" (invalidStatistic "Median"))).
Proof.
  refine (proj1 (Fetch_invalid_configuration (W := World.world)
    (metricSetOf ["eu-west-1"; "us-east-1"]
       [exactEntry; mkConfig "AWS/S3" None None "" (Some ["Median"])]) 1000%Z)
    ["Average"] "Median" [] eq_refl _ _).
  - repeat constructor.
  - unfold validStatistic. vm_compute. discriminate.
Defined.

(** ** CreateMetricDataQueries: the batch *)

Section Queries.
Context `{W : Collaborators}.

Lemma CreateMetricDataQueries_length listMetricsTotal period :
  length (CreateMetricDataQueries listMetricsTotal period)
  = sum_list ((λ listMetric, length (MWSStatistic listMetric)) <$> listMetricsTotal).
Proof.
  unfold CreateMetricDataQueries. rewrite length_join, fmap_imap.
  f_equal. etrans; [|apply (imap_const (λ lm, length (MWSStatistic lm)))].
  apply imap_ext. intros i listMetric _. unfold compose. apply length_imap.
Qed.

(** The batch holds one query for each statistic of each metric and nothing
    else: the query of statistic [j] of metric [i] has the identifier of
    [(i, j)], the metric, the statistic, the period in seconds and the label
    of the metric and the statistic. *)
Theorem CreateMetricDataQueries_batch
    (listMetricsTotal : list MetricsWithStatistics) (period : Z) :
  length (CreateMetricDataQueries listMetricsTotal period)
  = sum_list ((λ listMetric, length (MWSStatistic listMetric)) <$> listMetricsTotal)
  ∧ ∀ q,
      q ∈ CreateMetricDataQueries listMetricsTotal period
      ↔ ∃ i j listMetric statistic,
          listMetricsTotal !! i = Some listMetric
          ∧ MWSStatistic listMetric !! j = Some statistic
          ∧ q = types.mkMetricDataQuery (queryId i j)
                  (types.mkMetricStat (periodInSec period) statistic
                     (CloudwatchMetric listMetric))
                  (ConstructLabel (CloudwatchMetric listMetric) statistic).
Proof.
  split; [apply CreateMetricDataQueries_length|].
  intros q. unfold CreateMetricDataQueries. rewrite list_elem_of_join. split.
  - intros (l & Hq & Hl). apply elem_of_lookup_imap in Hl as (i & listMetric & -> & Hi).
    apply elem_of_lookup_imap in Hq as (j & statistic & -> & Hj).
    by exists i, j, listMetric, statistic.
  - intros (i & j & listMetric & statistic & Hi & Hj & ->).
    eexists. split;
      [|apply elem_of_lookup_imap; exists i, listMetric; split; [reflexivity|done]].
    apply elem_of_lookup_imap. by exists j, statistic.
Qed.

(** Without a statistic on any metric there is no query, and [createEvents]
    returns an empty map of events and no error, with nothing logged above
    the debug level, whatever GetMetricData and the tagging API would
    answer. *)
Theorem createEvents_no_queries
    (m : MetricSet) (svcCloudwatch svcResourceAPI : Client)
    (listMetricWithStatsTotal : list MetricsWithStatistics)
    (resourceTypeTagFilters : gmap string (list aws.Tag))
    (regionName : string) (startTime endTime : Time)
    (Hnone : Forall (λ listMetric, MWSStatistic listMetric = []) listMetricWithStatsTotal) :
  CreateMetricDataQueries listMetricWithStatsTotal (Period m) = []
  ∧ createEvents m svcCloudwatch svcResourceAPI listMetricWithStatsTotal
      resourceTypeTagFilters regionName startTime endTime
    = ([], Ret ∅).
Proof.
  assert (Hlen : length (CreateMetricDataQueries listMetricWithStatsTotal (Period m)) = 0).
  { rewrite CreateMetricDataQueries_length.
    induction Hnone as [|listMetric l Hl _ IH]; [done|].
    rewrite fmap_cons. cbn [sum_list sum_list_with]. rewrite Hl. exact IH. }
  split; [by apply nil_length_inv|].
  unfold createEvents. by rewrite decide_True.
Qed.

(** [createEvents] returns an error in one case only: there are queries and
    GetMetricData fails.  It has then logged nothing above the debug level,
    and the error is the one of GetMetricData, wrapped. *)
Theorem createEvents_fails_iff
    (m : MetricSet) (svcCloudwatch svcResourceAPI : Client)
    (listMetricWithStatsTotal : list MetricsWithStatistics)
    (resourceTypeTagFilters : gmap string (list aws.Tag))
    (regionName : string) (startTime endTime : Time)
    (t : list (Output (mb.Event float64 Time))) (e' : error) :
  createEvents m svcCloudwatch svcResourceAPI listMetricWithStatsTotal
    resourceTypeTagFilters regionName startTime endTime = (t, Err e')
  ↔ t = []
    ∧ CreateMetricDataQueries listMetricWithStatsTotal (Period m) ≠ []
    ∧ ∃ e,
        GetMetricDataResults
          (CreateMetricDataQueries listMetricWithStatsTotal (Period m))
          svcCloudwatch startTime endTime = Err e
        ∧ e' = wrapError "getMetricDataResults failed" e.
Proof.
  pose proof (createEvents_error m svcCloudwatch svcResourceAPI listMetricWithStatsTotal
    resourceTypeTagFilters regionName startTime endTime) as [Honly Hif].
  split.
  - intros (e & Hq & Hget & -> & ->)%Honly. eauto.
  - intros (-> & Hq & e & Hget & ->). by apply Hif.
Qed.

End Queries.

Lemma createEvents_no_queries_witness :
  createEvents (W := World.world) (metricSetOf ["us-east-1"] [])
    (clientOf (aws.mkConfig false) "us-east-1") (clientOf (aws.mkConfig false) "us-east-1")
    [mkMetricsWithStatistics (types.mkMetric "AWS/EC2" "CPUUtilization" []) []]
    ∅ "us-east-1" 0%Z 1000%Z
  = ([], Ret ∅).
Proof.
  refine (proj2 (createEvents_no_queries (W := World.world) _ _ _
    [mkMetricsWithStatistics (types.mkMetric "AWS/EC2" "CPUUtilization" []) []]
    _ _ _ _ _)).
  repeat constructor.
Defined.

Lemma createEvents_fails_iff_witness :
  createEvents (W := World.world) (metricSetOf ["us-east-1"] [])
    (clientOf (aws.mkConfig false) "us-east-1") (clientOf (aws.mkConfig false) "us-east-1")
    [mkMetricsWithStatistics (types.mkMetric "AWS/EC2" "CPUUtilization" []) ["Average"]]
    ∅ "us-east-1" 0%Z 1000%Z
  = ([], Err (wrapError "getMetricDataResults failed"
                (errorString "GetMetricData: throttled"))).
Proof.
  apply (proj2 (createEvents_fails_iff (W := World.world) _ _ _ _ _ _ _ _ _ _)).
  split; [reflexivity|]. split; [vm_compute; discriminate|].
  eexists. split; [vm_compute; reflexivity|reflexivity].
Defined.

(** ** InsertRootFields: the number of fields of a label *)

Section Labels.
Context `{W : Collaborators}.

Lemma InsertRootFields_short_panics (event : mb.Event float64 Time)
    (metricValue : float64) (labels : list string) :
  (length labels < 3)%nat ∨ length labels = 4%nat →
  InsertRootFields event metricValue labels = Panic.
Proof.
  intros Hlen.
  destruct labels as [|name [|namespace [|stat [|names [|values rest]]]]];
    try reflexivity; try (simpl in Hlen; lia).
  unfold InsertRootFields. cbn [index lookup list_lookup namespaceIdx result_bind].
  rewrite GenerateFieldName_5. cbn [result_bind].
  unfold put, mapstr.Put. by destruct (mb.RootFields event).
Qed.

Lemma InsertRootFields_three (fields : gmap string (mapstr.Value float64))
    (timestamp : option Time) (metricValue : float64) (name namespace stat : string) :
  InsertRootFields (mb.mkEvent (Some fields) timestamp) metricValue [name; namespace; stat]
  = Ret (mb.mkEvent (Some (valueFields name namespace stat metricValue fields)) timestamp).
Proof.
  unfold InsertRootFields. cbn [index lookup list_lookup namespaceIdx result_bind].
  by rewrite GenerateFieldName_5.
Qed.

Lemma InsertRootFields_five (fields : gmap string (mapstr.Value float64))
    (timestamp : option Time) (metricValue : float64)
    (name namespace stat names values : string) :
  InsertRootFields (mb.mkEvent (Some fields) timestamp) metricValue
    [name; namespace; stat; names; values]
  = InsertRootFields_loop 0 (strings.Split names dimensionSeparator)
      (strings.Split values dimensionSeparator)
      (mb.mkEvent (Some (valueFields name namespace stat metricValue fields)) timestamp).
Proof.
  unfold InsertRootFields. cbn [index lookup list_lookup namespaceIdx result_bind].
  by rewrite GenerateFieldName_5.
Qed.

(** [InsertRootFields] needs a label of three fields or of at least five: on
    a label of fewer than three fields or of exactly four it panics on an
    index, whatever the event; on a label of three fields it writes the value
    under its generated name and the namespace, and nothing else. *)
Theorem InsertRootFields_label_length
    (event : mb.Event float64 Time) (metricValue : float64) (labels : list string) :
  ((length labels < 3)%nat ∨ length labels = 4%nat →
   InsertRootFields event metricValue labels = Panic)
  ∧ (∀ fields name namespace stat,
       mb.RootFields event = Some fields →
       labels = [name; namespace; stat] →
       ∃ fields',
         InsertRootFields event metricValue labels
         = Ret (mb.mkEvent (Some fields') (mb.Timestamp event))
         ∧ fields' !! fieldNameOf name namespace stat = Some (mapstr.Float metricValue)
         ∧ fields' !! "aws.cloudwatch.namespace" = Some (mapstr.Str namespace)
         ∧ ∀ key, key ≠ fieldNameOf name namespace stat →
                  key ≠ "aws.cloudwatch.namespace" →
                  fields' !! key = fields !! key).
Proof.
  split; [apply InsertRootFields_short_panics|].
  intros fields name namespace stat Hfields ->.
  destruct event as [root timestamp]. simpl in Hfields. subst root.
  exists (valueFields name namespace stat metricValue fields).
  split; [apply InsertRootFields_three|]. unfold valueFields. split; [|split].
  - destruct (decide (fieldNameOf name namespace stat = "aws.cloudwatch.namespace"))
      as [Heq|Hne].
    + exfalso. revert Heq. unfold fieldNameOf.
      generalize (common.DeDot name +:+ "." +:+ (StatisticLookup stat).1).
      generalize (lastSegment namespace). intros seg tail Heq.
      rewrite !append_cons, !append_nil_l in Heq. injection Heq as Heq.
      repeat (destruct seg as [|? seg];
              [rewrite ?append_nil_l, ?append_cons in Heq; discriminate Heq
              |rewrite append_cons in Heq;
               first [discriminate Heq|injection Heq as _ Heq]]).
    + by rewrite lookup_insert_ne, lookup_insert_eq.
  - apply lookup_insert_eq.
  - intros key Hk1 Hk2. by rewrite !lookup_insert_ne.
Qed.

End Labels.

Lemma InsertRootFields_label_length_witness :
  InsertRootFields (W := World.world) World.emptyEvent 42%Z
    ["a"; "b"; "AWS/EC2"; "Average"] = Panic
  ∧ InsertRootFields (W := World.world) World.emptyEvent 42%Z ["CPUUtilization"] = Panic.
Proof.
  split.
  - apply (proj1 (InsertRootFields_label_length (W := World.world) World.emptyEvent 42%Z
      ["a"; "b"; "AWS/EC2"; "Average"])). right. reflexivity.
  - apply (proj1 (InsertRootFields_label_length (W := World.world) World.emptyEvent 42%Z
      ["CPUUtilization"])). left. simpl. lia.
Defined.

(** ** createEvents: labels of other lengths, and labels with dimensions *)

Section ResultLabels.
Context `{W : Collaborators}.

Lemma insertRootFieldsAt_short (events : gmap string (mb.Event float64 Time))
    identifier values idx labels :
  (length labels < 3)%nat ∨ length labels = 4%nat →
  insertRootFieldsAt events identifier values idx labels = Panic.
Proof.
  intros Hlen. unfold insertRootFieldsAt.
  pose proof (noErr_indexZ values idx) as Hno.
  destruct (indexZ values idx) as [value| |]; [|done..].
  cbn [result_bind]. by rewrite InsertRootFields_short_panics.
Qed.

(** A result that is processed and whose label has one, two or four fields
    makes the loop of [createEvents] panic when no tag filter applies; in the
    pass of a resource type with a tag filter such a result, like any result
    whose label has not five fields, is skipped instead. *)
Theorem createEvents_malformed_label
    (m : MetricSet) (regionName : string) (timestamp : Time)
    (events : gmap string (mb.Event float64 Time))
    (output : types.MetricDataResult float64 Time) (timestampIdx : Z)
    (Hvalues : types.Values output ≠ [])
    (Htime : CheckTimestampInArray timestamp (types.Timestamps output)
             = (true, timestampIdx)) :
  let labels := strings.Split (types.ResultLabel output) labelSeparator in
  ((length labels < 3)%nat ∨ length labels = 4%nat →
   createEvents_plain m regionName timestamp events output = Panic
   ∧ ∀ resourceTagMap,
       createEvents_tagged m regionName timestamp [] resourceTagMap events output
       = Panic)
  ∧ (length labels ≠ 5%nat →
     ∀ tagsFilter resourceTagMap,
       tagsFilter ≠ [] →
       createEvents_tagged m regionName timestamp tagsFilter resourceTagMap events output
       = Ret events).
Proof.
  intros labels.
  assert (Hlen : length (types.Values output) ≠ 0) by by destruct (types.Values output).
  split.
  - intros Hshort.
    assert (Hfallback :
      (identifier ←! fallbackIdentifier m regionName labels;
       insertRootFieldsAt (initEvent m regionName timestamp events identifier)
         identifier (types.Values output) timestampIdx labels)%result = Panic).
    { unfold fallbackIdentifier. pose proof (noErr_index labels namespaceIdx) as Hno.
      destruct (index labels namespaceIdx) as [namespace| |]; [|done..].
      cbn [result_bind]. by apply insertRootFieldsAt_short. }
    split.
    + unfold createEvents_plain. rewrite decide_False, Htime by done.
      fold labels. by rewrite decide_True by lia.
    + intros resourceTagMap. unfold createEvents_tagged.
      rewrite decide_False, Htime by done. fold labels.
      rewrite decide_True by lia. by rewrite decide_False by (simpl; lia).
  - intros Hnot5 tagsFilter resourceTagMap Hfilter. unfold createEvents_tagged.
    rewrite decide_False, Htime by done. fold labels.
    rewrite decide_True by done. rewrite decide_True; [done|]. by destruct tagsFilter.
Qed.

(** A result that is processed and whose label has the five fields name,
    namespace, statistic, dimension names and dimension values belongs to the
    event whose identity is the dimension-values field.  Without tag filters
    this event, created by [aws.InitEvent] if the identity is new, gets the
    fields of the result and no other event changes.  In the pass of a
    resource type the same happens, followed by [InsertTags] for this
    identity, unless the identity has no event yet, the tag filter is not
    empty and the tag map has no (or a nil) entry for the identity: then the
    result is skipped. *)
Theorem createEvents_identifier_value
    (m : MetricSet) (regionName : string) (timestamp : Time)
    (events : gmap string (mb.Event float64 Time))
    (output : types.MetricDataResult float64 Time)
    (name namespace stat names values : string) (timestampIdx : Z)
    (Hlabel : strings.Split (types.ResultLabel output) labelSeparator
              = [name; namespace; stat; names; values])
    (Hvalues : types.Values output ≠ [])
    (Htime : CheckTimestampInArray timestamp (types.Timestamps output)
             = (true, timestampIdx)) :
  let update : result (gmap string (mb.Event float64 Time)) :=
    (value ←! indexZ (types.Values output) timestampIdx;
     event ←! InsertRootFields
                (default (InitEvent regionName (AccountName m) (AccountID m) timestamp)
                         (events !! values))
                value [name; namespace; stat; names; values];
     Ret (<[values := event]> events))%result in
  createEvents_plain m regionName timestamp events output = update
  ∧ (∀ tagsFilter resourceTagMap,
       events !! values = None → tagsFilter ≠ [] →
       tagsOf resourceTagMap values = None →
       createEvents_tagged m regionName timestamp tagsFilter resourceTagMap events output
       = Ret events)
  ∧ (∀ tagsFilter resourceTagMap,
       is_Some (events !! values) ∨ tagsFilter = []
       ∨ is_Some (tagsOf resourceTagMap values) →
       createEvents_tagged m regionName timestamp tagsFilter resourceTagMap events output
       = (events' ←! update; InsertTags events' values resourceTagMap)%result).
Proof.
  intros update.
  assert (Hlen : length (types.Values output) ≠ 0) by by destruct (types.Values output).
  split; [|split].
  - unfold createEvents_plain. rewrite decide_False, Htime, Hlabel by done.
    cbn [length]. rewrite decide_False by lia.
    cbn [index lookup list_lookup identifierValueIdx result_bind].
    apply insertRootFieldsAt_init.
  - intros tagsFilter resourceTagMap Hnew Hfilter Hnil. unfold createEvents_tagged.
    rewrite decide_False, Htime, Hlabel by done.
    cbn [length]. rewrite decide_False by lia.
    cbn [index lookup list_lookup identifierValueIdx result_bind].
    rewrite Hnew, Hnil. rewrite bool_decide_eq_true_2 by done.
    rewrite bool_decide_eq_true_2; [done|]. by destruct tagsFilter.
  - intros tagsFilter resourceTagMap Hcase. unfold createEvents_tagged.
    rewrite decide_False, Htime, Hlabel by done.
    cbn [length]. rewrite decide_False by lia.
    cbn [index lookup list_lookup identifierValueIdx result_bind].
    assert (bool_decide (events !! values = None)
            && bool_decide (length tagsFilter ≠ 0)
            && isNil (tagsOf resourceTagMap values) = false) as ->.
    { destruct Hcase as [[ev Hev]|[->|[tags Htags]]].
      - rewrite Hev. by rewrite bool_decide_eq_false_2.
      - simpl. by rewrite andb_false_r.
      - rewrite Htags. simpl. by rewrite andb_false_r. }
    by rewrite insertRootFieldsAt_init.
Qed.

End ResultLabels.

Lemma createEvents_malformed_label_witness :
  createEvents_plain (W := World.world) (metricSetOf ["us-east-1"] []) "us-east-1" 100%Z ∅
    (types.mkMetricDataResult
       (ConstructLabel (types.mkMetric "Custom" "reads|writes" []) "Sum") [42%Z] [100%Z])
  = Panic.
Proof.
  refine (proj1 (proj1 (createEvents_malformed_label (W := World.world)
    (metricSetOf ["us-east-1"] []) "us-east-1" 100%Z ∅
    (types.mkMetricDataResult
       (ConstructLabel (types.mkMetric "Custom" "reads|writes" []) "Sum") [42%Z] [100%Z])
    0%Z _ eq_refl) _)).
  - discriminate.
  - right. reflexivity.
Defined.

Lemma createEvents_identifier_value_witness :
  createEvents_tagged (W := World.world) (metricSetOf ["eu-west-1"] []) "eu-west-1" 100%Z
    [aws.mkTag "env" "prod"] ∅ ∅
    (types.mkMetricDataResult "CPUUtilization|AWS/EC2|Average|InstanceId|i-9"
       [42%Z] [100%Z])
  = Ret ∅.
Proof.
  refine (proj1 (proj2 (createEvents_identifier_value (W := World.world)
    (metricSetOf ["eu-west-1"] []) "eu-west-1" 100%Z ∅
    (types.mkMetricDataResult "CPUUtilization|AWS/EC2|Average|InstanceId|i-9"
       [42%Z] [100%Z])
    "CPUUtilization" "AWS/EC2" "Average" "InstanceId" "i-9" 0%Z eq_refl _ eq_refl))
    [aws.mkTag "env" "prod"] ∅ eq_refl _ eq_refl).
  - discriminate.
  - discriminate.
Defined.

(** ** From the metric to the fields of the event *)

Section LabelToFields.
Context `{W : Collaborators}.

Lemma dimensionFields_dims (dims : list types.Dimension) :
  ∀ fields : gmap string (mapstr.Value float64),
  dimensionFields (types.Name <$> dims) (types.Value <$> dims) fields
  = foldl (λ fields d,
             <["aws.dimensions." +:+ types.Name d := mapstr.Str (types.Value d)]> fields)
          fields dims.
Proof.
  induction dims as [|d dims IH]; intros fields; [done|].
  rewrite !fmap_cons. unfold dimensionFields in *. cbn [zip zip_with foldl]. apply IH.
Qed.

(** The label travels unharmed when the parts hold no separator: for a metric
    whose name and namespace hold no pipe, a statistic without a pipe, and
    dimensions whose names and values are not empty and hold neither a pipe
    nor a comma, [InsertRootFields] on the split label of [ConstructLabel]
    never panics and writes the value, the namespace and exactly one field
    [aws.dimensions.<name> = value] for each dimension of the metric, in the
    order of the metric's dimensions. *)
Theorem InsertRootFields_of_label
    (fields : gmap string (mapstr.Value float64)) (timestamp : option Time)
    (metricValue : float64) (metric : types.Metric) (statistic : string)
    (Hname : strings.Contains pipe (types.MetricName metric) = false)
    (Hnamespace : strings.Contains pipe (types.Namespace metric) = false)
    (Hstat : strings.Contains pipe statistic = false)
    (Hdims : Forall plainDimension (types.Dimensions metric)) :
  InsertRootFields (mb.mkEvent (Some fields) timestamp) metricValue
    (strings.Split (ConstructLabel metric statistic) labelSeparator)
  = Ret (mb.mkEvent
           (Some (foldl (λ fields d,
                           <["aws.dimensions." +:+ types.Name d
                               := mapstr.Str (types.Value d)]> fields)
                        (valueFields (types.MetricName metric) (types.Namespace metric)
                           statistic metricValue fields)
                        (types.Dimensions metric)))
           timestamp).
Proof.
  assert (Hfree : pipeFree metric).
  { split; [done|]. split; [done|]. eapply Forall_impl; [exact Hdims|].
    by intros d (_ & _ & ? & ? & _). }
  rewrite (ConstructLabel_fields _ _ Hfree Hstat).
  unfold dimNamesOf, dimValuesOf.
  destruct (decide (types.Dimensions metric = [])) as [Hnil|Hne].
  - rewrite Hnil. change (join dimensionSeparator (types.Name <$> [])) with "".
    rewrite decide_False by (by intros [? _]). apply InsertRootFields_three.
  - 
    rewrite decide_True.
    2:{ split; (apply join_nonempty; [by destruct (types.Dimensions metric)|]);
          apply Forall_fmap; (eapply Forall_impl; [exact Hdims|]);
          by intros d (? & ? & _). }
    cbn [app]. rewrite InsertRootFields_five.
    change dimensionSeparator with (String comma ""). rewrite !Split_byte.
    rewrite !fields_join_free.
    + rewrite InsertRootFields_loop_in_range by (rewrite !length_fmap; simpl; lia).
      by rewrite drop_0, dimensionFields_dims.
    + by destruct (types.Dimensions metric).
    + apply Forall_fmap. eapply Forall_impl; [exact Hdims|].
      by intros d (_ & _ & _ & _ & _ & ?).
    + by destruct (types.Dimensions metric).
    + apply Forall_fmap. eapply Forall_impl; [exact Hdims|].
      by intros d (_ & _ & _ & _ & ? & _).
Qed.

End LabelToFields.

Lemma InsertRootFields_of_label_witness :
  InsertRootFields (W := World.world) World.emptyEvent 42%Z
    (strings.Split
       (ConstructLabel
          (types.mkMetric "AWS/S3" "BucketSizeBytes"
             [types.mkDimension "StorageType" "StandardStorage";
              types.mkDimension "BucketName" "logs"])
          "Average")
       labelSeparator)
  = Ret (mb.mkEvent
           (Some (<["aws.dimensions.BucketName" := mapstr.Str "logs"]>
                    (<["aws.dimensions.StorageType" := mapstr.Str "StandardStorage"]>
                       (<["aws.cloudwatch.namespace" := mapstr.Str "AWS/S3"]>
                          {["aws.s3.metrics.BucketSizeBytes.avg" := mapstr.Float 42%Z]}))))
           None).
Proof.
  refine (eq_trans (InsertRootFields_of_label (W := World.world) ∅ None 42%Z
    (types.mkMetric "AWS/S3" "BucketSizeBytes"
       [types.mkDimension "StorageType" "StandardStorage";
        types.mkDimension "BucketName" "logs"])
    "Average" eq_refl eq_refl eq_refl _) _).
  - repeat constructor; discriminate.
  - vm_compute. reflexivity.
Defined.

(** ** FilterListMetricsOutput *)

Lemma StringInSlice_elem (str : string) (l : list string) :
  (aws.StringInSlice str l).1 = true ↔ str ∈ l.
Proof.
  induction l as [|x l IH]; simpl.
  - split; [done|]. by intros ?%elem_of_nil.
  - destruct (decide (x = str)) as [->|Hne]; simpl.
    + split; [|done]. intros _. left.
    + destruct (aws.StringInSlice str l) as [found i]. simpl in *. rewrite IH.
      split; [by right|]. by intros [->|?]%elem_of_cons.
Qed.

Lemma FilterListMetricsOutput_body_accepts listMetric configPerNamespace mws :
  mws ∈ FilterListMetricsOutput_body listMetric configPerNamespace
  ↔ accepts configPerNamespace listMetric
    ∧ mws = mkMetricsWithStatistics listMetric (Statistics configPerNamespace).
Proof.
  unfold FilterListMetricsOutput_body, accepts, keep.
  destruct (Names configPerNamespace) as [names|],
    (NDDimensions configPerNamespace) as [dims|].
  - destruct (aws.StringInSlice _ names).1 eqn:Hin.
    + apply StringInSlice_elem in Hin.
      destruct (CompareAWSDimensions _ dims).
      * rewrite list_elem_of_singleton. naive_solver.
      * rewrite elem_of_nil. naive_solver.
    + rewrite elem_of_nil. split; [done|]. intros [[Hin' _] _].
      apply StringInSlice_elem in Hin'. congruence.
  - destruct (aws.StringInSlice _ names).1 eqn:Hin.
    + apply StringInSlice_elem in Hin. rewrite list_elem_of_singleton. naive_solver.
    + rewrite elem_of_nil. split; [done|]. intros [[Hin' _] _].
      apply StringInSlice_elem in Hin'. congruence.
  - destruct (CompareAWSDimensions _ dims).
    + rewrite list_elem_of_singleton. naive_solver.
    + rewrite elem_of_nil. naive_solver.
  - rewrite list_elem_of_singleton. naive_solver.
Qed.

Lemma FilterListMetricsOutput_body_length listMetric configPerNamespace :
  (length (FilterListMetricsOutput_body listMetric configPerNamespace) ≤ 1)%nat.
Proof.
  unfold FilterListMetricsOutput_body, keep.
  repeat (match goal with |- context [match ?x with _ => _ end] => destruct x end);
    simpl; lia.
Qed.

(** [FilterListMetricsOutput] keeps a listed metric once for every
    configuration of the namespace that accepts it, with the statistics of
    that configuration, and keeps nothing else: a configuration accepts a
    metric when the metric's name is among its names, if it has names, and
    the metric's dimensions compare equal to its dimensions, if it has
    dimensions.  So it returns at most one entry per metric and
    configuration; a configuration without names and dimensions keeps every
    metric, and without configurations nothing is kept. *)
Theorem FilterListMetricsOutput_kept
    (listMetricsOutput : list types.Metric) (namespaceDetails : list NamespaceDetail) :
  (∀ mws,
     mws ∈ FilterListMetricsOutput listMetricsOutput namespaceDetails
     ↔ ∃ listMetric configPerNamespace,
         listMetric ∈ listMetricsOutput
         ∧ configPerNamespace ∈ namespaceDetails
         ∧ accepts configPerNamespace listMetric
         ∧ mws = mkMetricsWithStatistics listMetric (Statistics configPerNamespace))
  ∧ (length (FilterListMetricsOutput listMetricsOutput namespaceDetails)
     ≤ length listMetricsOutput * length namespaceDetails)%nat
  ∧ (∀ configPerNamespace,
       Names configPerNamespace = None →
       NDDimensions configPerNamespace = None →
       FilterListMetricsOutput listMetricsOutput [configPerNamespace]
       = (λ listMetric,
            mkMetricsWithStatistics listMetric (Statistics configPerNamespace))
         <$> listMetricsOutput).
Proof.
  unfold FilterListMetricsOutput. split; [|split].
  - intros mws. rewrite list_elem_of_bind. split.
    + intros (listMetric & (config & Hbody & Hconfig)%list_elem_of_bind & Hmetric).
      apply FilterListMetricsOutput_body_accepts in Hbody as [Hacc ->].
      by exists listMetric, config.
    + intros (listMetric & config & Hmetric & Hconfig & Hacc & ->).
      exists listMetric. split; [|done]. apply list_elem_of_bind.
      exists config. split; [|done]. by apply FilterListMetricsOutput_body_accepts.
  - induction listMetricsOutput as [|listMetric l IH]; [simpl; lia|].
    rewrite bind_cons, length_app. cbn [length].
    assert (length (configPerNamespace ← namespaceDetails;
                    FilterListMetricsOutput_body listMetric configPerNamespace)
            ≤ length namespaceDetails)%nat.
    { clear. induction namespaceDetails as [|config ds IH]; [done|].
      rewrite bind_cons, length_app. cbn [length].
      pose proof (FilterListMetricsOutput_body_length listMetric config). lia. }
    rewrite Nat.mul_succ_l. lia.
  - intros config Hnames Hdims.
    induction listMetricsOutput as [|listMetric l IH]; [done|].
    rewrite bind_cons, fmap_cons, IH. cbn [mbind list_bind app].
    unfold FilterListMetricsOutput_body. by rewrite Hnames, Hdims.
Qed.

Lemma FilterListMetricsOutput_kept_witness :
  FilterListMetricsOutput
    [types.mkMetric "AWS/EC2" "CPUUtilization" [types.mkDimension "InstanceId" "i-1"];
     types.mkMetric "AWS/EC2" "NetworkIn" []]
    [mkNamespaceDetail "" None [] ["Sum"] None]
  = [mkMetricsWithStatistics
       (types.mkMetric "AWS/EC2" "CPUUtilization" [types.mkDimension "InstanceId" "i-1"])
       ["Sum"];
     mkMetricsWithStatistics (types.mkMetric "AWS/EC2" "NetworkIn" []) ["Sum"]].
Proof.
  exact (proj2 (proj2 (FilterListMetricsOutput_kept
    [types.mkMetric "AWS/EC2" "CPUUtilization" [types.mkDimension "InstanceId" "i-1"];
     types.mkMetric "AWS/EC2" "NetworkIn" []] []))
    (mkNamespaceDetail "" None [] ["Sum"] None) eq_refl eq_refl).
Defined.

(** ** ConstructTagsFilters *)

Lemma filter_none {A} (P : A → Prop) `{∀ x, Decision (P x)} (l : list A) :
  Forall (λ x, ¬ P x) l → filter P l = [].
Proof.
  induction 1 as [|x l Hx _ IH]; [done|]. by rewrite filter_cons_False.
Qed.

(** [ConstructTagsFilters] has an entry exactly for the non-empty resource
    types of the configurations, and the entry of a resource type is the
    concatenation of the tag filters of the configurations of that type, in
    their order. *)
Theorem ConstructTagsFilters_lookup
    (namespaceDetails : list NamespaceDetail) (resourceType : string) :
  ConstructTagsFilters namespaceDetails !! resourceType
  = if decide (resourceType ≠ ""
               ∧ Exists (λ d, ResourceTypeFilter d = resourceType) namespaceDetails)
    then Some (d ← filter (λ d, ResourceTypeFilter d = resourceType) namespaceDetails;
               Tags d)
    else None.
Proof.
  induction namespaceDetails as [|config ds IH] using rev_ind.
  - unfold ConstructTagsFilters. cbn [foldl]. rewrite lookup_empty.
    rewrite decide_False; [done|]. intros [_ H]. by apply Exists_nil in H.
  - unfold ConstructTagsFilters in *. rewrite foldl_app. cbn [foldl].
    set (old := foldl _ ∅ ds) in *.
    destruct (decide (ResourceTypeFilter config ≠ "")) as [Hrt|Hrt%dec_stable].
    + destruct (decide (resourceType = ResourceTypeFilter config)) as [->|Hne].
      * rewrite decide_True by (split; [done|]; apply Exists_app; right; by left).
        rewrite filter_app, filter_cons_True, filter_nil by done.
        rewrite bind_app. cbn [mbind list_bind]. rewrite app_nil_r.
        rewrite IH. destruct (decide _) as [_|Hno].
        -- by rewrite lookup_insert_eq.
        -- rewrite lookup_insert_eq.
           assert (filter (λ d, ResourceTypeFilter d = ResourceTypeFilter config) ds = [])
             as ->; [|done].
           apply filter_none, Forall_forall. intros d Hd Heq. apply Hno.
           split; [done|]. apply Exists_exists. eauto.
      * assert (old' : (match old !! ResourceTypeFilter config with
                        | Some filters =>
                            <[ResourceTypeFilter config := filters ++ Tags config]> old
                        | None => <[ResourceTypeFilter config := Tags config]> old
                        end) !! resourceType = old !! resourceType).
        { destruct (old !! ResourceTypeFilter config); by rewrite lookup_insert_ne. }
        rewrite old', IH.
        rewrite filter_app, filter_cons_False, filter_nil, app_nil_r by done.
        apply decide_ext. rewrite Exists_app, Exists_cons, Exists_nil. naive_solver.
    + rewrite IH.
      destruct (decide (resourceType = "")) as [->|Hne].
      * rewrite !decide_False by (by intros [? _]). done.
      * rewrite filter_app, filter_cons_False, filter_nil, app_nil_r by congruence.
        apply decide_ext. rewrite Exists_app, Exists_cons, Exists_nil. naive_solver.
Qed.

(** ** The tags of the resources *)

Section ResourceTags.
Context `{W : Collaborators}.

Lemma filterResourceTags_fold tagsFilter
    (entries : list (string * slice resourcegroupstaggingapitypes.Tag)) :
  ∀ (remaining : gmap string (slice resourcegroupstaggingapitypes.Tag)) k,
  foldl (λ remaining '(identifier, tags),
           if CheckTagFiltersExist tagsFilter tags then remaining
           else delete identifier remaining)
        remaining entries !! k
  = if decide (Exists (λ entry, entry.1 = k
                                ∧ CheckTagFiltersExist tagsFilter entry.2 = false)
                      entries)
    then None else remaining !! k.
Proof.
  induction entries as [|[identifier tags] entries IH]; intros remaining k.
  - cbn [foldl]. rewrite decide_False; [done|]. by intros ?%Exists_nil.
  - cbn [foldl]. rewrite IH. destruct (decide (Exists _ entries)) as [Hex|Hno].
    + rewrite decide_True; [done|]. by right.
    + destruct (CheckTagFiltersExist tagsFilter tags) eqn:Hcheck.
      * rewrite decide_False; [done|].
        intros [[_ Hc]|?]%Exists_cons; [simpl in Hc; congruence|done].
      * destruct (decide (identifier = k)) as [->|Hne].
        -- rewrite lookup_delete_eq. rewrite decide_True; [done|]. by left.
        -- rewrite lookup_delete_ne by done. rewrite decide_False; [done|].
           intros [[Hk _]|?]%Exists_cons; [simpl in Hk; congruence|done].
Qed.

(** The loop that deletes from the tag map while ranging over it leaves, in
    whatever order Go visits the entries, exactly the resources whose tags
    match the tag filter, each with its tags. *)
Theorem filterResourceTags_lookup (tagsFilter : list aws.Tag)
    (resourceTagMap : gmap string (slice resourcegroupstaggingapitypes.Tag))
    (identifier : string) :
  filterResourceTags tagsFilter resourceTagMap !! identifier
  = match resourceTagMap !! identifier with
    | Some tags => if CheckTagFiltersExist tagsFilter tags then Some tags else None
    | None => None
    end.
Proof.
  unfold filterResourceTags. rewrite filterResourceTags_fold.
  destruct (decide (Exists _ _)) as [Hex|Hno].
  - apply Exists_exists in Hex as ([k tags] & Hin & Hk & Hcheck). simpl in *. subst k.
    rewrite rangeMap_perm in Hin. apply elem_of_map_to_list in Hin.
    by rewrite Hin, Hcheck.
  - destruct (resourceTagMap !! identifier) as [tags|] eqn:Hlook; [|done].
    destruct (CheckTagFiltersExist tagsFilter tags) eqn:Hcheck; [done|].
    destruct Hno. apply Exists_exists. exists (identifier, tags).
    split; [|done]. rewrite rangeMap_perm. by apply elem_of_map_to_list.
Qed.

Lemma InsertTags_missing identifier resourceTagMap
    (events : gmap string (mb.Event float64 Time)) subIdentifiers :
  (∀ fields timestamp, events !! identifier ≠ Some (mb.mkEvent (Some fields) timestamp)) →
  (v ← subIdentifiers; elems (InsertTags_tags resourceTagMap v)) ≠ [] →
  result_for subIdentifiers
    (λ events v,
       let tags := InsertTags_tags resourceTagMap v in
       if decide (length (elems tags) ≠ 0) then
         result_for (elems tags)
           (λ events tag,
              putAt events identifier
                ("aws.tags." +:+ common.DeDot (resourcegroupstaggingapitypes.Key tag))
                (mapstr.Str (resourcegroupstaggingapitypes.Value tag)))
           events
       else Ret events)
    events
  = Panic.
Proof.
  intros Hmissing. induction subIdentifiers as [|v rest IH]; intros Hfound; [done|].
  rewrite bind_cons in Hfound. cbn [result_for].
  destruct (elems (InsertTags_tags resourceTagMap v)) as [|tag tags] eqn:Htags.
  - cbn [length]. rewrite decide_False by (intros H; by apply H).
    cbn [result_bind]. by apply IH.
  - rewrite decide_True by done. cbn [result_for]. unfold putAt at 1.
    destruct (events !! identifier) as [[[fields|] timestamp]|] eqn:Hev; try done.
    by destruct (Hmissing fields timestamp).
Qed.

(** [InsertTags] panics exactly when some sub-identifier yields tags while the
    identity has no event, or an event whose field map is nil; it never
    returns an error.  When it returns, the events have the same identities
    as before and every event but the one of the identity is unchanged. *)
Theorem InsertTags_outcome
    (events : gmap string (mb.Event float64 Time)) (identifier : string)
    (resourceTagMap : gmap string (slice resourcegroupstaggingapitypes.Tag)) :
  (InsertTags events identifier resourceTagMap = Panic
   ↔ foundTags resourceTagMap identifier ≠ []
     ∧ ∀ fields timestamp,
         events !! identifier ≠ Some (mb.mkEvent (Some fields) timestamp))
  ∧ (∀ e, InsertTags events identifier resourceTagMap ≠ Err e)
  ∧ (∀ events',
       InsertTags events identifier resourceTagMap = Ret events' →
       dom events' = dom events
       ∧ ∀ other, other ≠ identifier → events' !! other = events !! other).
Proof.
  destruct (decide (foundTags resourceTagMap identifier = [])) as [Hnone|Hfound].
  { rewrite (InsertTags_none identifier resourceTagMap _ events Hnone : 
      InsertTags events identifier resourceTagMap = Ret events).
    split; [|split]; [split; [done|by intros [? _]]|done|].
    by intros events' [= <-]. }
  destruct (events !! identifier) as [[[fields|] timestamp]|] eqn:Hev.
  - rewrite (InsertTags_outer identifier timestamp resourceTagMap _ events fields Hev :
      InsertTags events identifier resourceTagMap = Ret _).
    split; [|split].
    + split; [done|]. intros [_ Hmissing]. by destruct (Hmissing fields timestamp).
    + done.
    + intros events' [= <-]. split.
      * apply dom_insert_lookup_L. by rewrite Hev.
      * intros other Hother. by rewrite lookup_insert_ne.
  - rewrite (InsertTags_missing identifier resourceTagMap events _ : _ → _ →
      InsertTags events identifier resourceTagMap = Panic);
      [|intros ??; by rewrite Hev|done].
    split; [|split]; [|done..]. split; [|done]. intros _. split; [done|].
    intros ??. congruence.
  - rewrite (InsertTags_missing identifier resourceTagMap events _ : _ → _ →
      InsertTags events identifier resourceTagMap = Panic);
      [|intros ??; by rewrite Hev|done].
    split; [|split]; [|done..]. split; [|done]. intros _. split; [done|].
    intros ??. congruence.
Qed.

End ResourceTags.

Lemma InsertTags_outcome_witness :
  InsertTags (W := World.world) ∅ "i-1"
    {["i-1" := Some [resourcegroupstaggingapitypes.mkTag "env" "prod"]]}
  = Panic.
Proof.
  apply (proj1 (InsertTags_outcome (W := World.world) ∅ "i-1"
    {["i-1" := Some [resourcegroupstaggingapitypes.mkTag "env" "prod"]]})).
  split.
  - vm_compute. discriminate.
  - intros fields timestamp H. vm_compute in H. discriminate H.
Defined.

(** ** createEvents: the events of a pass *)

Section Passes.
Context `{W : Collaborators}.

Lemma initEvent_dom m regionName timestamp
    (events : gmap string (mb.Event float64 Time)) identifier :
  dom events ⊆ dom (initEvent m regionName timestamp events identifier).
Proof.
  unfold initEvent. destruct (events !! identifier); [done|].
  rewrite dom_insert_L. set_solver.
Qed.

Lemma insertRootFieldsAt_dom (events events' : gmap string (mb.Event float64 Time))
    identifier values idx labels :
  insertRootFieldsAt events identifier values idx labels = Ret events' →
  dom events ⊆ dom events'.
Proof.
  unfold insertRootFieldsAt. destruct (indexZ values idx) as [value| |]; [|done..].
  cbn [result_bind]. destruct (InsertRootFields _ value labels) as [event| |]; [|done..].
  cbn [result_bind]. intros [= <-]. rewrite dom_insert_L. set_solver.
Qed.

Lemma InsertTags_dom (events events' : gmap string (mb.Event float64 Time))
    identifier resourceTagMap :
  InsertTags events identifier resourceTagMap = Ret events' → dom events' = dom events.
Proof.
  destruct (decide (foundTags resourceTagMap identifier = [])) as [Hnone|Hfound].
  { rewrite (InsertTags_none identifier resourceTagMap _ events Hnone :
      InsertTags events identifier resourceTagMap = Ret events). by intros [= <-]. }
  destruct (events !! identifier) as [[[fields|] timestamp]|] eqn:Hev.
  - rewrite (InsertTags_outer identifier timestamp resourceTagMap _ events fields Hev :
      InsertTags events identifier resourceTagMap = Ret _).
    intros [= <-]. apply dom_insert_lookup_L. by rewrite Hev.
  - rewrite (InsertTags_missing identifier resourceTagMap events _ : _ → _ →
      InsertTags events identifier resourceTagMap = Panic);
      [done|intros ??; by rewrite Hev|done].
  - rewrite (InsertTags_missing identifier resourceTagMap events _ : _ → _ →
      InsertTags events identifier resourceTagMap = Panic);
      [done|intros ??; by rewrite Hev|done].
Qed.

Lemma createEvents_plain_dom m regionName timestamp
    (events events' : gmap string (mb.Event float64 Time)) output :
  createEvents_plain m regionName timestamp events output = Ret events' →
  dom events ⊆ dom events'.
Proof.
  unfold createEvents_plain. destruct (decide _); [by intros [= <-]|].
  destruct (CheckTimestampInArray _ _) as [[] idx]; [|by intros [= <-]].
  destruct (decide _).
  - destruct (fallbackIdentifier _ _ _) as [identifier| |]; [|done..].
    cbn [result_bind]. intros Hrun%insertRootFieldsAt_dom.
    etrans; [apply initEvent_dom|exact Hrun].
  - destruct (index _ _) as [identifier| |]; [|done..].
    cbn [result_bind]. intros Hrun%insertRootFieldsAt_dom.
    etrans; [apply initEvent_dom|exact Hrun].
Qed.

Lemma createEvents_tagged_dom m regionName timestamp tagsFilter resourceTagMap
    (events events' : gmap string (mb.Event float64 Time)) output :
  createEvents_tagged m regionName timestamp tagsFilter resourceTagMap events output
  = Ret events' →
  dom events ⊆ dom events'.
Proof.
  unfold createEvents_tagged. destruct (decide _); [by intros [= <-]|].
  destruct (CheckTimestampInArray _ _) as [[] idx]; [|by intros [= <-]].
  destruct (decide _).
  - destruct (decide _); [by intros [= <-]|].
    destruct (fallbackIdentifier _ _ _) as [identifier| |]; [|done..].
    cbn [result_bind]. intros Hrun%insertRootFieldsAt_dom.
    etrans; [apply initEvent_dom|exact Hrun].
  - destruct (index _ _) as [identifier| |]; [|done..].
    cbn [result_bind]. destruct (_ && _); [by intros [= <-]|].
    destruct (insertRootFieldsAt _ _ _ _ _) as [events1| |] eqn:Hins; [|done..].
    cbn [result_bind]. intros Htags%InsertTags_dom. rewrite Htags.
    apply insertRootFieldsAt_dom in Hins.
    etrans; [apply initEvent_dom|exact Hins].
Qed.

Lemma result_for_dom {A} (body : gmap string (mb.Event float64 Time) → A →
                                 result (gmap string (mb.Event float64 Time)))
    (l : list A) :
  (∀ events a events', body events a = Ret events' → dom events ⊆ dom events') →
  ∀ events events', result_for l body events = Ret events' → dom events ⊆ dom events'.
Proof.
  intros Hbody. induction l as [|a l IH]; intros events events'.
  - by intros [= <-].
  - cbn [result_for]. destruct (body events a) as [events1| |] eqn:Ha; [|done..].
    cbn [result_bind]. intros Hrest%IH. apply Hbody in Ha. set_solver.
Qed.

(** No step of [createEvents] removes an event: the loop over the results
    without tag filters, the pass of a resource type, and the sequence of
    the passes of all resource types only add identities to the events they
    start from. *)
Theorem createEvents_keeps_events
    (m : MetricSet) (svcResourceAPI : Client) (regionName : string) (timestamp : Time)
    (metricDataResults : list (types.MetricDataResult float64 Time))
    (events events' : gmap string (mb.Event float64 Time)) :
  (result_for metricDataResults (createEvents_plain m regionName timestamp) events
   = Ret events' → dom events ⊆ dom events')
  ∧ (∀ filter t,
       createEvents_pass m svcResourceAPI regionName timestamp metricDataResults
         events filter = (t, Ret events') →
       dom events ⊆ dom events')
  ∧ (∀ filters t,
       M_for filters
         (createEvents_pass m svcResourceAPI regionName timestamp metricDataResults)
         events = (t, Ret events') →
       dom events ⊆ dom events').
Proof.
  assert (Hpass : ∀ events events' filter t,
    createEvents_pass m svcResourceAPI regionName timestamp metricDataResults
      events filter = (t, Ret events') → dom events ⊆ dom events').
  { clear. intros events events' [resourceType tagsFilter] t. unfold createEvents_pass.
    destruct (GetResourcesTags svcResourceAPI [resourceType]) as [resourceTagMap err].
    assert (Hrun : ∀ t0 rtm,
      (t0, result_for metricDataResults
             (createEvents_tagged m regionName timestamp tagsFilter rtm) events)
      = (t, Ret events') → dom events ⊆ dom events').
    { intros t0 rtm [= _ Hrun]. revert Hrun. apply result_for_dom.
      intros ???. apply createEvents_tagged_dom. }
    destruct err as [e|]; cbn [M_bind M_log M_ret];
      destruct (_ && _); cbn [M_ret M_lift];
      try (by intros [= _ <-]); apply Hrun. }
  split; [|split].
  - apply result_for_dom. intros ???. apply createEvents_plain_dom.
  - apply Hpass.
  - intros filters. revert events.
    induction filters as [|filter filters IH]; intros events t.
    + by intros [= _ <-].
    + cbn [M_for].
      destruct (createEvents_pass _ _ _ _ _ events filter) as [t1 [events1| |]] eqn:Hone;
        [|done..].
      rewrite M_bind_Ret.
      destruct (M_for filters _ events1) as [t2 r2] eqn:Hrest. cbn [fst snd].
      intros [= _ ->]. apply Hpass in Hone. apply IH in Hrest. set_solver.
Qed.

Lemma InsertTags_tags_empty v :
  InsertTags_tags ∅ v = None.
Proof.
  unfold InsertTags_tags, tagsOf. rewrite lookup_empty. simpl.
  destruct (strings.HasPrefix v "arn:"); [|done].
  destruct (FindShortIdentifierFromARN v) as [resourceID [e|]]; [done|].
  by rewrite lookup_empty.
Qed.

Lemma InsertTags_empty (events : gmap string (mb.Event float64 Time)) identifier :
  InsertTags events identifier ∅ = Ret events.
Proof.
  apply InsertTags_none.
  induction (strings.Split identifier dimensionSeparator) as [|v l IH]; [done|].
  by rewrite bind_cons, InsertTags_tags_empty, IH.
Qed.

Lemma createEvents_tagged_plain m regionName timestamp
    (events : gmap string (mb.Event float64 Time)) output :
  createEvents_tagged m regionName timestamp [] ∅ events output
  = createEvents_plain m regionName timestamp events output.
Proof.
  unfold createEvents_tagged, createEvents_plain.
  destruct (decide _); [done|].
  destruct (CheckTimestampInArray _ _) as [[] idx]; [|done].
  destruct (decide _); [done|].
  destruct (index _ _) as [identifier| |]; [|done..]. cbn [result_bind].
  rewrite andb_false_r. cbn [andb].
  destruct (insertRootFieldsAt _ _ _ _ _) as [events1| |]; [|done..].
  cbn [result_bind]. apply InsertTags_empty.
Qed.

(** When the tag lookup of a resource type yields no resource (as when it
    fails), a pass without tag filter still builds the events, exactly as
    the loop without tag filters does and with no tag on them, after logging
    the error if there is one; a pass with a tag filter leaves the events as
    they are. *)
Theorem createEvents_without_tags
    (m : MetricSet) (svcResourceAPI : Client) (regionName : string) (timestamp : Time)
    (metricDataResults : list (types.MetricDataResult float64 Time))
    (events : gmap string (mb.Event float64 Time))
    (resourceType : string) (err : option error)
    (Hempty : GetResourcesTags svcResourceAPI [resourceType] = (∅, err)) :
  let logged : list (Output (mb.Event float64 Time)) :=
    match err with
    | Some e =>
        [Logged Info
           (wrapError ("getResourcesTags failed, skipping region " +:+ regionName) e)]
    | None => []
    end in
  createEvents_pass m svcResourceAPI regionName timestamp metricDataResults events
    (resourceType, [])
  = (logged,
     result_for metricDataResults (createEvents_plain m regionName timestamp) events)
  ∧ (∀ tagsFilter,
       tagsFilter ≠ [] →
       createEvents_pass m svcResourceAPI regionName timestamp metricDataResults events
         (resourceType, tagsFilter)
       = (logged, Ret events)).
Proof.
  intros logged. unfold createEvents_pass. rewrite Hempty.
  assert (Hfilter : ∀ tagsFilter, filterResourceTags tagsFilter ∅ = ∅).
  { intros tagsFilter. unfold filterResourceTags.
    assert (rangeMap (∅ : gmap string (slice resourcegroupstaggingapitypes.Tag)) = [])
      as ->; [|done].
    apply Permutation_nil_r. rewrite rangeMap_perm. by rewrite map_to_list_empty. }
  assert (Hplain :
    result_for metricDataResults (createEvents_tagged m regionName timestamp [] ∅) events
    = result_for metricDataResults (createEvents_plain m regionName timestamp) events).
  { clear. revert events. induction metricDataResults as [|r rs IH]; intros events; [done|].
    cbn [result_for]. rewrite createEvents_tagged_plain.
    destruct (createEvents_plain _ _ _ events r); [|done..]. apply IH. }
  split.
  - subst logged. destruct err as [e|]; cbn [M_bind M_log M_ret length];
      rewrite bool_decide_eq_false_2 by (intros H; by apply H);
      cbn [andb M_lift]; by rewrite Hfilter, Hplain.
  - intros tagsFilter Hne. subst logged.
    destruct err as [e|]; cbn [M_bind M_log M_ret];
      rewrite bool_decide_eq_true_2 by (by destruct tagsFilter);
      rewrite bool_decide_eq_true_2 by apply map_size_empty; done.
Qed.

End Passes.

Lemma createEvents_keeps_events_witness :
  dom ({["old" := World.emptyEvent]} : gmap string (mb.Event Z Z))
  ⊆ dom (<["i-1" :=
             mb.mkEvent
               (Some (<["aws.dimensions.InstanceId" := mapstr.Str "i-1"]>
                        (<["aws.cloudwatch.namespace" := mapstr.Str "AWS/EC2"]>
                           (<["aws.ec2.metrics.CPUUtilization.avg" := mapstr.Float 42%Z]>
                              (<["cloud.region" := mapstr.Str "eu-west-1"]>
                                 (<["cloud.account.id" := mapstr.Str "111"]>
                                    {["cloud.provider" := mapstr.Str "aws"]}))))))
               (Some 100%Z)]>
           ({["old" := World.emptyEvent]} : gmap string (mb.Event Z Z))).
Proof.
  refine (proj1 (createEvents_keeps_events (W := World.world)
    (metricSetOf ["eu-west-1"] []) (clientOf (aws.mkConfig false) "eu-west-1")
    "eu-west-1" 100%Z
    [types.mkMetricDataResult "CPUUtilization|AWS/EC2|Average|InstanceId|i-1"
       [42%Z] [100%Z]]
    {["old" := World.emptyEvent]} _) _).
  vm_compute. reflexivity.
Defined.

Lemma createEvents_without_tags_witness :
  createEvents_pass (W := World.world) (metricSetOf ["ap-south-1"] [])
    (clientOf (aws.mkConfig false) "ap-south-1") "ap-south-1" 100%Z
    [types.mkMetricDataResult "CPUUtilization|AWS/EC2|Average|InstanceId|i-1"
       [42%Z] [100%Z]]
    ∅ ("ec2:instance", [])
  = ([Logged Info
        (wrapError "getResourcesTags failed, skipping region ap-south-1"
           (errorString "GetResources: access denied"))],
     Ret {["i-1" :=
             mb.mkEvent
               (Some (<["aws.dimensions.InstanceId" := mapstr.Str "i-1"]>
                        (<["aws.cloudwatch.namespace" := mapstr.Str "AWS/EC2"]>
                           (<["aws.ec2.metrics.CPUUtilization.avg" := mapstr.Float 42%Z]>
                              (<["cloud.region" := mapstr.Str "ap-south-1"]>
                                 (<["cloud.account.id" := mapstr.Str "111"]>
                                    {["cloud.provider" := mapstr.Str "aws"]}))))))
               (Some 100%Z)]}).
Proof.
  refine (eq_trans (proj1 (createEvents_without_tags (W := World.world)
    (metricSetOf ["ap-south-1"] []) (clientOf (aws.mkConfig false) "ap-south-1")
    "ap-south-1" 100%Z
    [types.mkMetricDataResult "CPUUtilization|AWS/EC2|Average|InstanceId|i-1"
       [42%Z] [100%Z]]
    ∅ "ec2:instance" (Some (errorString "GetResources: access denied")) eq_refl)) _).
  vm_compute. reflexivity.
Defined.

(** ** CompareAWSDimensions: dimension by dimension *)

Lemma nameValueMap_lookup dims : ∀ (acc : gmap string string) n v,
  NoDup (types.Name <$> dims) →
  foldl (λ m d, <[types.Name d := types.Value d]> m) acc dims !! n = Some v
  ↔ (∃ d, d ∈ dims ∧ types.Name d = n ∧ types.Value d = v)
    ∨ ((n ∉ types.Name <$> dims) ∧ acc !! n = Some v).
Proof.
  induction dims as [|d dims IH]; intros acc n v Hnd.
  - simpl. split; [intros ?; right; split; [apply not_elem_of_nil|done]|].
    intros [(d & Hd%elem_of_nil & _)|[_ ?]]; done.
  - rewrite fmap_cons in Hnd. apply NoDup_cons in Hnd as [Hd Hnd].
    cbn [foldl]. rewrite IH by done. rewrite fmap_cons. split.
    + intros [(d' & Hin & Hn & Hv)|[Hn Hacc]].
      * left. exists d'. split; [by right|done].
      * destruct (decide (n = types.Name d)) as [->|Hne].
        -- rewrite lookup_insert_eq in Hacc. injection Hacc as <-.
           left. exists d. split; [left|done].
        -- rewrite lookup_insert_ne in Hacc by done. right. split; [|done].
           by intros [->|?]%elem_of_cons.
    + intros [(d' & [->|Hin]%elem_of_cons & Hn & Hv)|[Hn Hacc]].
      * right. subst n v. split; [done|]. apply lookup_insert_eq.
      * left. by exists d'.
      * apply not_elem_of_cons in Hn as [Hne Hn]. right. split; [done|].
        by rewrite lookup_insert_ne.
Qed.

Lemma nameValueMap_Some dims n v :
  NoDup (types.Name <$> dims) →
  nameValueMap dims !! n = Some v
  ↔ ∃ d, d ∈ dims ∧ types.Name d = n ∧ types.Value d = v.
Proof.
  intros Hnd. unfold nameValueMap. rewrite nameValueMap_lookup by done.
  rewrite lookup_empty. naive_solver.
Qed.

Lemma nameValueMap_is_Some dims n :
  NoDup (types.Name <$> dims) →
  is_Some (nameValueMap dims !! n) ↔ n ∈ types.Name <$> dims.
Proof.
  intros Hnd. rewrite list_elem_of_fmap. unfold is_Some. split.
  - intros [v (d & Hd & Hn & _)%nameValueMap_Some]; [|done]. by exists d.
  - intros (d & -> & Hd). exists (types.Value d). apply nameValueMap_Some; [done|].
    by exists d.
Qed.

Lemma substituteWildcards_pointwise (m1 m2 : gmap string string) :
  m1 = substituteWildcards m1 m2
  ↔ ∀ k, m1 !! k
         = (λ v2, if decide (v2 = dimensionValueWildcard)
                  then default v2 (m1 !! k) else v2) <$> m2 !! k.
Proof.
  unfold substituteWildcards. rewrite map_eq_iff.
  apply forall_proper. intros k. rewrite map_lookup_imap.
  by destruct (m2 !! k).
Qed.

Lemma CompareAWSDimensions_names dim1 dim2 :
  NoDup (types.Name <$> dim1) → NoDup (types.Name <$> dim2) →
  CompareAWSDimensions dim1 dim2 = true
  ↔ (∀ n, n ∈ types.Name <$> dim1 ↔ n ∈ types.Name <$> dim2)
    ∧ (∀ d1 d2, d1 ∈ dim1 → d2 ∈ dim2 → types.Name d1 = types.Name d2 →
                types.Value d2 = dimensionValueWildcard
                ∨ types.Value d1 = types.Value d2).
Proof.
  intros Hnd1 Hnd2. unfold CompareAWSDimensions.
  rewrite CompareAWSDimensions_in_match by done. unfold dimensionsMatch.
  rewrite substituteWildcards_pointwise. split.
  - intros [_ Hpoint]. split.
    + intros n. rewrite <- !nameValueMap_is_Some by done.
      rewrite (Hpoint n). unfold is_Some.
      destruct (nameValueMap dim2 !! n); naive_solver.
    + intros d1 d2 Hd1 Hd2 Hname.
      assert (H1 : nameValueMap dim1 !! types.Name d1 = Some (types.Value d1)).
      { apply nameValueMap_Some; [done|]. by exists d1. }
      assert (H2 : nameValueMap dim2 !! types.Name d1 = Some (types.Value d2)).
      { apply nameValueMap_Some; [done|]. by exists d2. }
      pose proof (Hpoint (types.Name d1)) as Hk. rewrite H1, H2 in Hk. simpl in Hk.
      destruct (decide (types.Value d2 = dimensionValueWildcard)); [by left|].
      right. by injection Hk.
  - intros [Hnames Hvalues]. split.
    + rewrite <- (length_fmap types.Name dim1), <- (length_fmap types.Name dim2).
      apply Permutation_length. by apply NoDup_Permutation.
    + intros k. destruct (nameValueMap dim2 !! k) as [v2|] eqn:H2.
      * assert (is_Some (nameValueMap dim1 !! k)) as [v1 H1].
        { apply nameValueMap_is_Some; [done|]. apply Hnames.
          apply nameValueMap_is_Some; [done|]. by exists v2. }
        rewrite H1. simpl. f_equal.
        apply nameValueMap_Some in H1 as (d1 & Hd1 & Hn1 & <-); [|done].
        apply nameValueMap_Some in H2 as (d2 & Hd2 & Hn2 & <-); [|done].
        destruct (Hvalues d1 d2 Hd1 Hd2 ltac:(congruence)) as [Hw|Heq].
        -- by rewrite decide_True.
        -- rewrite Heq. by destruct (decide _).
      * simpl. apply eq_None_not_Some. intros Hsome.
        apply nameValueMap_is_Some, Hnames, nameValueMap_is_Some in Hsome; [|done..].
        rewrite H2 in Hsome. by destruct Hsome.
Qed.

(** For dimension lists without a repeated name, [CompareAWSDimensions] is
    true exactly when both lists name the same dimensions and, for each name,
    the value of the second list is the wildcard or the value of the first
    list. *)
Theorem CompareAWSDimensions_pointwise (dim1 dim2 : list types.Dimension)
    (Hnames1 : NoDup (types.Name <$> dim1))
    (Hnames2 : NoDup (types.Name <$> dim2)) :
  CompareAWSDimensions dim1 dim2 = true
  ↔ (∀ n, n ∈ types.Name <$> dim1 ↔ n ∈ types.Name <$> dim2)
    ∧ (∀ d1 d2, d1 ∈ dim1 → d2 ∈ dim2 → types.Name d1 = types.Name d2 →
                types.Value d2 = dimensionValueWildcard
                ∨ types.Value d1 = types.Value d2).
Proof. by apply CompareAWSDimensions_names. Qed.

Lemma CompareAWSDimensions_pointwise_witness :
  CompareAWSDimensions
    [types.mkDimension "StorageType" "StandardStorage"; types.mkDimension "BucketName" "logs"]
    [types.mkDimension "BucketName" "*"; types.mkDimension "StorageType" "StandardStorage"]
  = true.
Proof.
  apply (proj2 (CompareAWSDimensions_pointwise
    [types.mkDimension "StorageType" "StandardStorage"; types.mkDimension "BucketName" "logs"]
    [types.mkDimension "BucketName" "*"; types.mkDimension "StorageType" "StandardStorage"]
    ltac:(repeat constructor; set_solver) ltac:(repeat constructor; set_solver))).
  split.
  - intros n. set_solver.
  - intros d1 d2 Hd1 Hd2 Hname.
    repeat (apply elem_of_cons in Hd1 as [->|Hd1]);
      repeat (apply elem_of_cons in Hd2 as [->|Hd2]);
      try (by apply elem_of_nil in Hd1); try (by apply elem_of_nil in Hd2);
      try discriminate Hname; [by right|by left].
Defined.

(** The order of the dimensions does not matter to [CompareAWSDimensions]
    when no name is repeated: reordering either list leaves the result as it
    is.  And every list compares equal to itself. *)
Theorem CompareAWSDimensions_order (dim1 dim1' dim2 dim2' : list types.Dimension)
    (Hnames1 : NoDup (types.Name <$> dim1))
    (Hnames2 : NoDup (types.Name <$> dim2))
    (Hperm1 : dim1 ≡ₚ dim1')
    (Hperm2 : dim2 ≡ₚ dim2') :
  CompareAWSDimensions dim1 dim2 = CompareAWSDimensions dim1' dim2'
  ∧ CompareAWSDimensions dim1 dim1 = true.
Proof.
  split.
  - apply eq_true_iff_eq.
    rewrite !CompareAWSDimensions_names; [|by rewrite <- ?Hperm1, <- ?Hperm2..].
    split; intros [Hn Hv]; split.
    + intros n. by rewrite <- Hperm1, <- Hperm2.
    + intros d1 d2. rewrite <- Hperm1, <- Hperm2. apply Hv.
    + intros n. by rewrite Hperm1, Hperm2.
    + intros d1 d2. rewrite Hperm1, Hperm2. apply Hv.
  - unfold CompareAWSDimensions. apply CompareAWSDimensions_in_match; [done|].
    split; [done|]. apply substituteWildcards_pointwise. intros k.
    destruct (nameValueMap dim1 !! k) as [v|]; [|done]. simpl.
    by destruct (decide _).
Qed.

Lemma CompareAWSDimensions_order_witness :
  CompareAWSDimensions
    [types.mkDimension "A" "x"; types.mkDimension "B" "y"]
    [types.mkDimension "A" "*"; types.mkDimension "B" "y"]
  = CompareAWSDimensions
      [types.mkDimension "B" "y"; types.mkDimension "A" "x"]
      [types.mkDimension "B" "y"; types.mkDimension "A" "*"].
Proof.
  refine (proj1 (CompareAWSDimensions_order
    [types.mkDimension "A" "x"; types.mkDimension "B" "y"]
    [types.mkDimension "B" "y"; types.mkDimension "A" "x"]
    [types.mkDimension "A" "*"; types.mkDimension "B" "y"]
    [types.mkDimension "B" "y"; types.mkDimension "A" "*"] _ _ _ _)).
  - repeat constructor; set_solver.
  - repeat constructor; set_solver.
  - apply Permutation_swap.
  - apply Permutation_swap.
Defined.

(** ** ConstructLabel: what a label tells *)

Lemma plainDimension_joined dims :
  Forall plainDimension dims →
  (join dimensionSeparator (types.Name <$> dims) ≠ ""
   ∧ join dimensionSeparator (types.Value <$> dims) ≠ "")
  ↔ dims ≠ [].
Proof.
  intros Hplain. split.
  - intros [Hn _] ->. by apply Hn.
  - intros Hne. split; (apply join_nonempty; [by destruct dims|]);
      apply Forall_fmap; (eapply Forall_impl; [exact Hplain|]);
      intros d (? & ? & _); done.
Qed.

Lemma plainDimension_fields dims :
  dims ≠ [] → Forall plainDimension dims →
  fields comma (join dimensionSeparator (types.Name <$> dims)) = types.Name <$> dims
  ∧ fields comma (join dimensionSeparator (types.Value <$> dims)) = types.Value <$> dims.
Proof.
  intros Hne Hplain. change dimensionSeparator with (String comma "").
  split; (apply fields_join_free; [by destruct dims|]);
    apply Forall_fmap; (eapply Forall_impl; [exact Hplain|]);
    intros d (_ & _ & _ & _ & ? & ?); done.
Qed.

Lemma Dimension_names_values (l l' : list types.Dimension) :
  types.Name <$> l = types.Name <$> l' →
  types.Value <$> l = types.Value <$> l' →
  l = l'.
Proof.
  revert l'. induction l as [|d l IH]; intros [|d' l'] Hn Hv; try done.
  rewrite !fmap_cons in Hn, Hv. injection Hn as Hn1 Hn. injection Hv as Hv1 Hv.
  f_equal; [|by apply IH]. destruct d, d'. simpl in *. congruence.
Qed.

Lemma ConstructLabel_fields_plain metric statistic :
  pipeFree metric →
  Forall plainDimension (types.Dimensions metric) →
  strings.Contains pipe statistic = false →
  strings.Split (ConstructLabel metric statistic) labelSeparator
  = [types.MetricName metric; types.Namespace metric; statistic]
    ++ (if decide (types.Dimensions metric = []) then []
        else [join dimensionSeparator (dimNamesOf metric);
              join dimensionSeparator (dimValuesOf metric)]).
Proof.
  intros Hfree Hplain Hstat. rewrite ConstructLabel_fields by done.
  f_equal. unfold dimNamesOf, dimValuesOf.
  destruct (decide (types.Dimensions metric = [])) as [Hnil|Hne].
  - rewrite Hnil. apply decide_False. by intros [? _].
  - apply decide_True. by apply plainDimension_joined.
Qed.

(** A label tells the metric and the statistic it was built from: two
    metrics whose names and namespaces hold no pipe and whose dimensions are
    plain, with statistics that hold no pipe, have the same label of
    [ConstructLabel] only when the metrics and the statistics are the same. *)
Theorem ConstructLabel_inj (metric metric' : types.Metric) (statistic statistic' : string)
    (Hfree : pipeFree metric) (Hfree' : pipeFree metric')
    (Hplain : Forall plainDimension (types.Dimensions metric))
    (Hplain' : Forall plainDimension (types.Dimensions metric'))
    (Hstat : strings.Contains pipe statistic = false)
    (Hstat' : strings.Contains pipe statistic' = false)
    (Hlabel : ConstructLabel metric statistic = ConstructLabel metric' statistic') :
  metric = metric' ∧ statistic = statistic'.
Proof.
  apply (f_equal (λ s, strings.Split s labelSeparator)) in Hlabel.
  rewrite !ConstructLabel_fields_plain in Hlabel by done.
  unfold dimNamesOf, dimValuesOf in Hlabel.
  destruct metric as [ns name dims], metric' as [ns' name' dims'].
  cbn [types.MetricName types.Namespace types.Dimensions] in *.
  destruct (decide (dims = [])) as [->|Hne], (decide (dims' = [])) as [->|Hne'];
    cbn [app] in Hlabel; try discriminate Hlabel.
  - by injection Hlabel as -> -> ->.
  - injection Hlabel as -> -> -> Hn Hv.
    apply (f_equal (fields comma)) in Hn, Hv.
    destruct (plainDimension_fields dims Hne Hplain) as [Hn1 Hv1].
    destruct (plainDimension_fields dims' Hne' Hplain') as [Hn2 Hv2].
    rewrite Hn1, Hn2 in Hn. rewrite Hv1, Hv2 in Hv.
    by rewrite (Dimension_names_values dims dims' Hn Hv).
Qed.

Lemma ConstructLabel_inj_witness :
  types.mkMetric "AWS/EC2" "CPUUtilization" [types.mkDimension "InstanceId" "i-1"]
  = types.mkMetric "AWS/EC2" "CPUUtilization" [types.mkDimension "InstanceId" "i-1"]
  ∧ "avg" = "avg".
Proof.
  refine (ConstructLabel_inj
    (types.mkMetric "AWS/EC2" "CPUUtilization" [types.mkDimension "InstanceId" "i-1"])
    (types.mkMetric "AWS/EC2" "CPUUtilization" [types.mkDimension "InstanceId" "i-1"])
    "avg" "avg" _ _ _ _ _ _ _).
  - repeat split; try reflexivity. repeat constructor.
  - repeat split; try reflexivity. repeat constructor.
  - repeat constructor; discriminate.
  - repeat constructor; discriminate.
  - reflexivity.
  - reflexivity.
  - reflexivity.
Defined.

(** A comma in a dimension makes labels collide: the label of a metric with
    the one dimension [a,b] of value [x,y] is the label of the metric with the
    two dimensions [a] of value [x] and [b] of value [y]. *)
Theorem ConstructLabel_comma_collision (namespace name a b x y statistic : string) :
  ConstructLabel
    (types.mkMetric namespace name
       [types.mkDimension (a +:+ dimensionSeparator +:+ b)
                          (x +:+ dimensionSeparator +:+ y)]) statistic
  = ConstructLabel
      (types.mkMetric namespace name
         [types.mkDimension a x; types.mkDimension b y]) statistic.
Proof.
  unfold ConstructLabel.
  rewrite !(ConstructLabel_loop_join _ _ 0) by (simpl; lia).
  reflexivity.
Qed.
